(** * The cart / order core of the storefront (GUI.py)

    A shallow embedding of the data-carrying part of [StoreApp]: the
    product objects, the cart dictionary, the orders table and the
    callbacks that change them ([add_to_cart], [update_qty],
    [remove_item], [open_checkout_window], [place_order], [save_order]),
    together with the arithmetic they rely on: Python's [decimal.Decimal]
    under the default context and the binary64 [float].

    Conventions.
    - Python [int] is [Z]; [str] is [string] (code points below 256).
    - A [Decimal] is a signed coefficient and an exponent, or a negative
      zero and its exponent.  Only finite decimals and floats are
      modelled, and the sign of a float zero is not tracked.
    - A callback that raises leaves the state as it was at the point of
      the exception (Tk reports the exception and the main loop goes on),
      so a callback returns either [Done s] or [Raised e s].
    - Message boxes are recorded in a log; other widgets are modelled only
      as far as the values they display are computed from the cart. *)

From Stdlib Require Import ZArith Lia String Ascii Bool.
From stdpp Require Import list strings.

Local Open Scope Z_scope.

(** ** Exceptions and results *)

Inductive exn : Type :=
  | InvalidOperation      (* decimal.InvalidOperation *)
  | Overflow              (* decimal.Overflow *)
  | OverflowError         (* float(int) out of range *)
  | KeyError              (* missing dictionary key *)
  | DatabaseError         (* sqlite3.Error raised by save_order *)
  | BadReference.         (* a reference outside the object store: not a
                             Python exception, never met on the states
                             the application builds *)

Inductive res (A : Type) : Type :=
  | Ret (a : A)
  | Exc (e : exn).
Arguments Ret {A} a.
Arguments Exc {A} e.

Definition bind {A B : Type} (r : res A) (k : A -> res B) : res B :=
  match r with
  | Ret a => k a
  | Exc e => Exc e
  end.

Notation "'let!' x ':=' r 'in' k" := (bind r (fun x => k))
  (at level 10, x name, r at level 100, k at level 200).

Fixpoint mapM {A B : Type} (f : A -> res B) (l : list A) : res (list B) :=
  match l with
  | [] => Ret []
  | a :: l' => let! b := f a in let! bs := mapM f l' in Ret (b :: bs)
  end.

(** ** Decimal digits of an integer *)

Fixpoint ndigits_fuel (fuel : nat) (n : Z) : Z :=
  match fuel with
  | O => 0
  | S f => if n <=? 0 then 0 else 1 + ndigits_fuel f (n / 10)
  end.

(** [len(str(abs(n)))]: the coefficient 0 is written with one digit. *)
Definition ndigits (n : Z) : Z :=
  if n =? 0 then 1
  else ndigits_fuel (S (Z.to_nat (Z.log2 (Z.abs n)))) (Z.abs n).

(** Rounding the non-negative integer [n] after dropping its last [k]
    decimal digits. *)
Definition round_half_even (n k : Z) : Z :=
  let q := n / 10 ^ k in
  let r := n mod 10 ^ k in
  if (2 * r >? 10 ^ k) || ((2 * r =? 10 ^ k) && Z.odd q) then q + 1 else q.

Definition round_half_up (n k : Z) : Z :=
  let q := n / 10 ^ k in
  let r := n mod 10 ^ k in
  if 2 * r >=? 10 ^ k then q + 1 else q.

(** ** decimal.Decimal under the default context
    (prec=28, rounding=ROUND_HALF_EVEN, Emin=-999999, Emax=999999,
    clamp=0, traps on InvalidOperation and Overflow) *)

Module Dec.

(** A finite decimal [coef * 10^exp].  The sign is the sign of the
    coefficient, so the zero that carries a minus sign
    ([Decimal('-0.00')]) gets a constructor of its own. *)
Inductive t : Type :=
  | mk (c e : Z)
  | neg_zero (e : Z).

Definition coef (d : t) : Z :=
  match d with
  | mk c _ => c
  | neg_zero _ => 0
  end.

Definition exp (d : t) : Z :=
  match d with
  | mk _ e => e
  | neg_zero e => e
  end.

(** [Decimal._sign] *)
Definition sign (d : t) : bool :=
  match d with
  | mk c _ => c <? 0
  | neg_zero _ => true
  end.

(** The decimal of signed coefficient [c] and exponent [e]; the sign bit
    [s] is that of the result when [c] is zero. *)
Definition make (s : bool) (c e : Z) : t :=
  if s && (c =? 0) then neg_zero e else mk c e.

Definition prec : Z := 28.
Definition Emax : Z := 999999.
Definition Emin : Z := -999999.
Definition Etiny : Z := Emin - prec + 1.
Definition Etop : Z := Emax - prec + 1.

Definition is_zero (d : t) : bool := coef d =? 0.

(** [Decimal.adjusted]: exponent of the most significant digit. *)
Definition adjusted (d : t) : Z := exp d + ndigits (coef d) - 1.

(** [Decimal(n)] for an [int]: exact. *)
Definition of_int (n : Z) : t := mk n 0.

(** [Decimal._fix]: round the exact result of an operation to the
    context precision.  The sign is kept, also by a zero. *)
Definition fix_ (d : t) : res t :=
  let c := coef d in
  let e := exp d in
  if c =? 0 then Ret (make (sign d) 0 (Z.min (Z.max e Etiny) Emax))
  else
    let exp_min := ndigits c + e - prec in
    if exp_min >? Etop then Exc Overflow
    else
      let exp_min := Z.max exp_min Etiny in
      if e <? exp_min then
        let c1 := round_half_even (Z.abs c) (exp_min - e) in
        let c2 := if ndigits c1 >? prec then c1 / 10 else c1 in
        let exp_min := if ndigits c1 >? prec then exp_min + 1 else exp_min in
        if exp_min >? Etop then Exc Overflow
        else Ret (make (sign d) (Z.sgn c * c2) exp_min)
      else Ret d.

(** [Decimal.__mul__]: exact product, then [_fix]; the sign of the result
    is the exclusive or of the signs. *)
Definition mul (a b : t) : res t :=
  fix_ (make (xorb (sign a) (sign b)) (coef a * coef b) (exp a + exp b)).

(** [Decimal.__add__]: exact sum at the smaller exponent, then [_fix].  A
    sum that is zero is negative only when both operands are negative
    zeros (the rounding mode is not ROUND_FLOOR). *)
Definition add (a b : t) : res t :=
  let e := Z.min (exp a) (exp b) in
  fix_ (make (sign a && sign b)
          (coef a * 10 ^ (exp a - e) + coef b * 10 ^ (exp b - e)) e).

(** [Decimal._rescale(target, ROUND_HALF_UP)]: the sign is kept, also
    when the coefficient is rounded to zero. *)
Definition rescale_half_up (target : Z) (d : t) : t :=
  if exp d >=? target then
    make (sign d) (coef d * 10 ^ (exp d - target)) target
  else
    make (sign d)
      (Z.sgn (coef d) * round_half_up (Z.abs (coef d)) (target - exp d))
      target.

(** [d.quantize(Decimal(1).scaleb(target), rounding=ROUND_HALF_UP)]. *)
Definition quantize (target : Z) (d : t) : res t :=
  if negb ((Etiny <=? target) && (target <=? Emax)) then Exc InvalidOperation
  else if is_zero d then fix_ (make (sign d) 0 target)
  else if adjusted d >? Emax then Exc InvalidOperation
  else if adjusted d - target + 1 >? prec then Exc InvalidOperation
  else
    let ans := rescale_half_up target d in
    if adjusted ans >? Emax then Exc InvalidOperation
    else if ndigits (coef ans) >? prec then Exc InvalidOperation
    else fix_ ans.

(** [d.quantize(Decimal("0.01"), rounding=ROUND_HALF_UP)]. *)
Definition quantize_cents (d : t) : res t := quantize (-2) d.

End Dec.

(** ** Binary64 floats

    A finite double is [m * 2^e] in the normal form of the format: either
    [2^52 <= |m| < 2^53] and [-1074 <= e <= 971], or [e = -1074] and
    [|m| < 2^52] (subnormals and zero).  The sign of a zero is not
    tracked and NaN does not occur. *)

Module Float.

Inductive t : Type :=
  | Finite (m e : Z)
  | Infinity (negative : bool).

Definition emin : Z := -1074.
Definition emax : Z := 971.

(** Nearest integer to [a / b], ties to even ([b > 0]). *)
Definition div_half_even (a b : Z) : Z :=
  let q := a / b in
  let r := a mod b in
  if (2 * r >? b) || ((2 * r =? b) && Z.odd q) then q + 1 else q.

(** Correctly rounded (round-half-even) double of [n / d], [n, d > 0].
    With [N = n * 2^1074] the quotient [N / d] counts units of the
    smallest subnormal; [shift] is the number of low bits of it that do
    not fit in the 53-bit significand. *)
Definition shift (n d : Z) : Z :=
  Z.max (Z.log2 (n * 2 ^ 1074 / d) - 52) 0.

Definition significand (n d : Z) : Z :=
  div_half_even (n * 2 ^ 1074) (d * 2 ^ shift n d).

Definition of_pos_ratio (n d : Z) : t :=
  let m := significand n d in
  let e := shift n d + emin in
  let e' := if m =? 2 ^ 53 then e + 1 else e in
  let m' := if m =? 2 ^ 53 then 2 ^ 52 else m in
  if e' >? emax then Infinity false else Finite m' e'.

Definition neg (f : t) : t :=
  match f with
  | Finite m e => Finite (- m) e
  | Infinity b => Infinity (negb b)
  end.

(** The double nearest to the rational [n / d] ([d > 0]): how a float
    literal and [float(str)] are read. *)
Definition of_ratio (n d : Z) : t :=
  if n =? 0 then Finite 0 emin
  else if n <? 0 then neg (of_pos_ratio (- n) d)
  else of_pos_ratio n d.

(** [float(n)] for an [int]. *)
Definition of_int (n : Z) : res t :=
  match of_ratio n 1 with
  | Infinity _ => Exc OverflowError
  | f => Ret f
  end.

(** The value [c * 10^e] of a decimal as a fraction. *)
Definition decimal_num (d : Dec.t) : Z :=
  if Dec.exp d >=? 0 then Dec.coef d * 10 ^ Dec.exp d else Dec.coef d.
Definition decimal_den (d : Dec.t) : Z :=
  if Dec.exp d >=? 0 then 1 else 10 ^ (- Dec.exp d).

(** [float(d)] for a [Decimal]: the double nearest to [c * 10^e]. *)
Definition of_decimal (d : Dec.t) : t :=
  of_ratio (decimal_num d) (decimal_den d).

(** [x.as_integer_ratio()]: numerator and the exponent [k] of the
    denominator [2^k], in lowest terms. *)
Fixpoint lowest_terms (fuel : nat) (m k : Z) : Z * Z :=
  match fuel with
  | O => (m, k)
  | S f => if (0 <? k) && Z.even m then lowest_terms f (m / 2) (k - 1)
           else (m, k)
  end.

Definition as_integer_ratio (m e : Z) : Z * Z :=
  if m =? 0 then (0, 0)
  else if e >=? 0 then (m * 2 ^ e, 0)
  else lowest_terms (Z.to_nat (- e)) m (- e).

(** [Decimal(f)] / [Decimal.from_float(f)]: exact.  The special value
    [Decimal('Infinity')] is outside the model. *)
Definition to_decimal (f : t) : option Dec.t :=
  match f with
  | Finite m e =>
      let '(n, k) := as_integer_ratio m e in
      Some (Dec.mk (n * 5 ^ k) (- k))
  | Infinity _ => None
  end.

End Float.

(** ** Strings *)

Local Open Scope string_scope.
Local Open Scope list_scope.
Local Open Scope Z_scope.

(** [str.isspace] on one character (code points below 256). *)
Definition is_space (c : ascii) : bool :=
  let n := Z.of_nat (nat_of_ascii c) in
  ((9 <=? n) && (n <=? 13)) || ((28 <=? n) && (n <=? 32))
  || (n =? 133) || (n =? 160).

Fixpoint lstrip (s : string) : string :=
  match s with
  | EmptyString => EmptyString
  | String c s' => if is_space c then lstrip s' else s
  end.

Fixpoint rstrip (s : string) : string :=
  match s with
  | EmptyString => EmptyString
  | String c s' =>
      match rstrip s' with
      | EmptyString => if is_space c then EmptyString else String c EmptyString
      | r => String c r
      end
  end.

(** [s.strip()] *)
Definition strip (s : string) : string := rstrip (lstrip s).

Definition digit_char (d : Z) : ascii :=
  ascii_of_nat (48 + Z.to_nat d).

Fixpoint digits_fuel (fuel : nat) (n : Z) (acc : string) : string :=
  match fuel with
  | O => acc
  | S f =>
      let acc' := String (digit_char (n mod 10)) acc in
      if n / 10 =? 0 then acc' else digits_fuel f (n / 10) acc'
  end.

(** [str(n)] for [n >= 0]. *)
Definition str_nat (n : Z) : string :=
  digits_fuel (S (Z.to_nat (Z.log2 n))) n "".

(** [str(n)] for an [int]. *)
Definition str_int (n : Z) : string :=
  if n <? 0 then "-" +:+ str_nat (- n) else str_nat n.

Fixpoint zeros (n : nat) : string :=
  match n with
  | O => ""
  | S n' => String "0" (zeros n')
  end.

(** ["%+d" % n] *)
Definition str_signed (n : Z) : string :=
  if n <? 0 then str_int n else "+" +:+ str_int n.

(** [Decimal.__str__] (scientific notation when the exponent is positive
    or the value is below 1e-6). *)
Definition str_decimal (d : Dec.t) : string :=
  let sign := if Dec.sign d then "-" else "" in
  let ds := str_nat (Z.abs (Dec.coef d)) in
  let len := Z.of_nat (String.length ds) in
  let leftdigits := Dec.exp d + len in
  let dotplace :=
    if (Dec.exp d <=? 0) && (leftdigits >? -6) then leftdigits else 1 in
  let body :=
    if dotplace <=? 0 then "0." +:+ zeros (Z.to_nat (- dotplace)) +:+ ds
    else if dotplace >=? len then ds +:+ zeros (Z.to_nat (dotplace - len))
    else substring 0 (Z.to_nat dotplace) ds +:+ "."
         +:+ substring (Z.to_nat dotplace) (Z.to_nat (len - dotplace)) ds in
  let e := if leftdigits =? dotplace then ""
           else "E" +:+ str_signed (leftdigits - dotplace) in
  sign +:+ body +:+ e.

(** ["\n".join(lines)] *)
Fixpoint join_lines (lines : list string) : string :=
  match lines with
  | [] => ""
  | [l] => l
  | l :: ls => l +:+ String "010" (join_lines ls)
  end.

(** ** Numbers handled by [sum], [fmt_price] and [float] *)

Inductive number : Type :=
  | Int (n : Z)
  | Decimal (d : Dec.t).

(** [Decimal(p)] *)
Definition to_decimal (p : number) : Dec.t :=
  match p with
  | Int n => Dec.of_int n
  | Decimal d => d
  end.

(** [acc + t] where [t] is a [Decimal]: an [int] on the left is
    converted exactly first. *)
Definition number_add (acc : number) (t : Dec.t) : res number :=
  let! r := Dec.add (to_decimal acc) t in Ret (Decimal r).

(** [float(x)] *)
Definition to_float (x : number) : res Float.t :=
  match x with
  | Int n => Float.of_int n
  | Decimal d => Ret (Float.of_decimal d)
  end.

(** [fmt_price]: format a price as a 2-decimal string (rounding half up). *)
Definition fmt_price (p : number) : res string :=
  let! q := Dec.quantize_cents (to_decimal p) in
  Ret ("$" +:+ str_decimal q).

(** ** Dictionaries with integer keys, in insertion order *)

Section Dict.
Context {V : Type}.

Definition dict : Type := list (Z * V).

Fixpoint dict_get (k : Z) (d : dict) : option V :=
  match d with
  | [] => None
  | (k', v) :: d' => if k' =? k then Some v else dict_get k d'
  end.

(** [d[k] = v]: an existing key keeps its position. *)
Fixpoint dict_set (k : Z) (v : V) (d : dict) : dict :=
  match d with
  | [] => [(k, v)]
  | (k', v') :: d' =>
      if k' =? k then (k', v) :: d' else (k', v') :: dict_set k v d'
  end.

(** [del d[k]]: [None] stands for [KeyError]. *)
Fixpoint dict_del (k : Z) (d : dict) : option dict :=
  match d with
  | [] => None
  | (k', v') :: d' =>
      if k' =? k then Some d'
      else match dict_del k d' with
           | Some r => Some ((k', v') :: r)
           | None => None
           end
  end.

Definition dict_keys (d : dict) : list Z := fst <$> d.
Definition dict_values (d : dict) : list V := snd <$> d.

End Dict.
Arguments dict V : clear implicits.

(** ** Products, cart items, orders *)

Record Product : Type := mkProduct {
  pid : Z;
  pname : string;
  category : string;
  price : Dec.t;
  stock : Z;
  desc : string
}.

(** [Product.__init__] on a float price: [self.price = Decimal(price)]. *)
Definition Product_init (id : Z) (name cat : string) (p : Float.t)
    (stk : Z) (dsc : string) : option Product :=
  match Float.to_decimal p with
  | Some d => Some (mkProduct id name cat d stk dsc)
  | None => None
  end.

Definition set_stock (n : Z) (p : Product) : Product :=
  mkProduct (pid p) (pname p) (category p) (price p) n (desc p).

(** A cart item refers to its product: [product] is the position of the
    [Product] object in the object store [products] of the application,
    so that the stock seen through the cart is the stock of the
    catalogue. *)
Record CartItem : Type := mkCartItem {
  product : nat;
  qty : Z
}.

(** A row of the [orders] table ([total] is the REAL column). *)
Record Order : Type := mkOrder {
  customer_name : string;
  email : string;
  address : string;
  total : Float.t;
  details : string
}.

Inductive message : Type :=
  | ShowInfo (title text : string)        (* messagebox.showinfo *)
  | ShowWarning (title text : string).    (* messagebox.showwarning *)

Inductive widget : Type :=
  | Label (text : string)
  | Button (text : string).

Record StoreApp : Type := mkApp {
  products : list Product;          (* self.products: the Product objects *)
  cart : dict CartItem;             (* self.cart: product.id -> CartItem *)
  orders : list Order;              (* the orders table of orders.db *)
  messages : list message;          (* message boxes shown so far *)
  cart_btn : string;                (* text of self.cart_btn *)
  quick_cart : list widget          (* children of self.quick_cart_frame *)
}.

Definition set_products (ps : list Product) (s : StoreApp) : StoreApp :=
  mkApp ps (cart s) (orders s) (messages s) (cart_btn s) (quick_cart s).
Definition set_cart (c : dict CartItem) (s : StoreApp) : StoreApp :=
  mkApp (products s) c (orders s) (messages s) (cart_btn s) (quick_cart s).
Definition set_orders (os : list Order) (s : StoreApp) : StoreApp :=
  mkApp (products s) (cart s) os (messages s) (cart_btn s) (quick_cart s).
Definition show (m : message) (s : StoreApp) : StoreApp :=
  mkApp (products s) (cart s) (orders s) (messages s ++ [m]) (cart_btn s)
        (quick_cart s).
Definition set_cart_btn (t : string) (s : StoreApp) : StoreApp :=
  mkApp (products s) (cart s) (orders s) (messages s) t (quick_cart s).
Definition set_quick_cart (ws : list widget) (s : StoreApp) : StoreApp :=
  mkApp (products s) (cart s) (orders s) (messages s) (cart_btn s) ws.

(** The result of a callback. *)
Inductive outcome : Type :=
  | Done (s : StoreApp)
  | Raised (e : exn) (s : StoreApp).

Definition final (o : outcome) : StoreApp :=
  match o with
  | Done s => s
  | Raised _ s => s
  end.

(** [CartItem.line_total]:
    [(self.product.price * self.qty).quantize(Decimal("0.01"), ROUND_HALF_UP)] *)
Definition line_total_of (unit_price : Dec.t) (q : Z) : res Dec.t :=
  let! x := Dec.mul unit_price (Dec.of_int q) in
  Dec.quantize_cents x.

Definition line_total (heap : list Product) (it : CartItem) : res Dec.t :=
  match heap !! product it with
  | Some p => line_total_of (price p) (qty it)
  | None => Exc BadReference
  end.

(** [sum(item.line_total for item in self.cart.values())]: the generator
    is consumed left to right, starting from the [int] 0. *)
Fixpoint sum_line_totals (heap : list Product) (items : list CartItem)
    (acc : number) : res number :=
  match items with
  | [] => Ret acc
  | it :: rest =>
      let! t := line_total heap it in
      let! acc' := number_add acc t in
      sum_line_totals heap rest acc'
  end.

Definition subtotal (s : StoreApp) : res number :=
  sum_line_totals (products s) (dict_values (cart s)) (Int 0).

(** ** Widgets that show the cart *)

(** [_update_cart_button] *)
Definition total_items (c : dict CartItem) : Z :=
  fold_left (fun acc it => acc + qty it) (dict_values c) 0.

Definition _update_cart_button (s : StoreApp) : StoreApp :=
  set_cart_btn ("Cart (" +:+ str_int (total_items (cart s)) +:+ ") - View") s.

(** The rows of [_refresh_quick_cart]: two labels per item.  When a line
    total cannot be formatted the exception leaves the labels packed so
    far. *)
Fixpoint quick_rows (heap : list Product) (items : list CartItem)
    (acc : list widget) : list widget * option exn :=
  match items with
  | [] => (acc, None)
  | it :: rest =>
      match heap !! product it with
      | None => (acc, Some BadReference)
      | Some p =>
          let acc1 :=
            acc ++ [Label (str_int (qty it) +:+ String " " (String "215"
                             (String " " (pname p))))] in
          match (let! t := line_total heap it in fmt_price (Decimal t)) with
          | Ret txt => quick_rows heap rest (acc1 ++ [Label txt])
          | Exc e => (acc1, Some e)
          end
      end
  end.

(** [_refresh_quick_cart] *)
Definition _refresh_quick_cart (s : StoreApp) : outcome :=
  match cart s with
  | [] => Done (set_quick_cart [Label "Cart empty"] s)
  | _ =>
      match quick_rows (products s) (take 5 (dict_values (cart s))) [] with
      | (ws, None) => Done (set_quick_cart (ws ++ [Button "Open Cart"]) s)
      | (ws, Some e) => Raised e (set_quick_cart ws s)
      end
  end.

(** The tail of every callback that changed the cart:
    [self._update_cart_button(); self._refresh_quick_cart()]. *)
Definition refresh (s : StoreApp) : outcome :=
  _refresh_quick_cart (_update_cart_button s).

(** ** Cart management *)

(** [StoreApp.add_to_cart(product, qty)]; [l] is the reference to the
    product. *)
Definition add_to_cart (l : nat) (q : Z) (s : StoreApp) : outcome :=
  match products s !! l with
  | None => Raised BadReference s
  | Some p =>
      if q <=? 0 then Done s
      else if stock p <? q then
        Done (show (ShowWarning "Stock" "Not enough stock for that quantity.") s)
      else
        match dict_get (pid p) (cart s) with
        | Some it =>
            let new_qty := qty it + q in
            if new_qty >? stock p then
              Done (show (ShowWarning "Stock"
                            "Not enough stock to increase quantity.") s)
            else
              refresh (set_cart (dict_set (pid p)
                                   (mkCartItem (product it) new_qty) (cart s)) s)
        | None =>
            refresh (set_cart (dict_set (pid p) (mkCartItem l q) (cart s)) s)
        end
  end.

(** [update_qty] of the cart window.  [sel] is the selected row of the
    tree (the product id it was created for) and [newq] the content of
    the quantity spin box.  The tree is filled when the window opens, so
    a row can outlive its cart entry when the cart is changed from
    another window. *)
Definition update_qty (sel : option Z) (newq : Z) (s : StoreApp) : outcome :=
  match sel with
  | None =>
      Done (show (ShowInfo "Select"
                    "Select an item in the cart to update quantity.") s)
  | Some id =>
      match dict_get id (cart s) with
      | None => Raised KeyError s
      | Some it =>
          match products s !! product it with
          | None => Raised BadReference s
          | Some prod =>
              if newq >? stock prod then
                Done (show (ShowWarning "Stock"
                              "Not enough stock for that quantity.") s)
              else
                let it' := mkCartItem (product it) newq in
                let s1 := set_cart (dict_set id it' (cart s)) s in
                (* tree.item(...): the row is rendered again *)
                match (let! _ := fmt_price (Decimal (price prod)) in
                       let! t := line_total (products s1) it' in
                       fmt_price (Decimal t)) with
                | Exc e => Raised e s1
                | Ret _ => refresh s1
                end
          end
      end
  end.

(** [remove_item] of the cart window. *)
Definition remove_item (sel : option Z) (s : StoreApp) : outcome :=
  match sel with
  | None => Done (show (ShowInfo "Select" "Select an item to remove.") s)
  | Some id =>
      match dict_del id (cart s) with
      | None => Raised KeyError s
      | Some c => refresh (set_cart c s)
      end
  end.

(** The subtotal label at the bottom of [open_cart_window]. *)
Definition cart_window_subtotal (s : StoreApp) : res string :=
  let! st := subtotal s in
  let! txt := fmt_price st in
  Ret ("Subtotal: " +:+ txt).

(** ** Checkout *)

(** What the closure [place_order] keeps of the checkout window: the
    subtotal computed when the window was opened. *)
Record CheckoutWin : Type := mkWin { win_subtotal : number }.

(** [open_checkout_window] *)
Definition open_checkout_window (s : StoreApp) : outcome * option CheckoutWin :=
  match cart s with
  | [] => (Done (show (ShowInfo "Empty" "Your cart is empty.") s), None)
  | _ =>
      match subtotal s with
      | Exc e => (Raised e s, None)
      | Ret st =>
          match fmt_price st with
          | Exc e => (Raised e s, None)
          | Ret _ => (Done s, Some (mkWin st))
          end
      end
  end.

(** How the write to [orders.db] ends. *)
Inductive db_write : Type :=
  | WriteOk
  | WriteFails.

(** [save_order]: one INSERT; [float(total)] is the identity on a float. *)
Definition save_order (w : db_write) (name mail addr : string)
    (tot : Float.t) (det : string) (rows : list Order) : res (list Order) :=
  match w with
  | WriteOk => Ret (rows ++ [mkOrder name mail addr tot det])
  | WriteFails => Exc DatabaseError
  end.

Definition is_empty (s : string) : bool :=
  match s with
  | EmptyString => true
  | String _ _ => false
  end.

(** One line of the order details. *)
Definition details_line (heap : list Product) (it : CartItem) : res string :=
  match heap !! product it with
  | None => Exc BadReference
  | Some p =>
      let! up := fmt_price (Decimal (price p)) in
      let! t := line_total heap it in
      let! lt := fmt_price (Decimal t) in
      Ret (str_int (qty it) +:+ "x " +:+ pname p +:+ " @ " +:+ up +:+ " = " +:+ lt)
  end.

Definition order_details (s : StoreApp) : res string :=
  let! ls := mapM (details_line (products s)) (dict_values (cart s)) in
  Ret (join_lines ls).

(** [for item in list(self.cart.values()): item.product.stock -= item.qty] *)
Definition reduce_stock (items : list CartItem) (heap : list Product)
    : list Product :=
  fold_left
    (fun h it => alter (fun p => set_stock (stock p - qty it) p) (product it) h)
    items heap.

(** [place_order] of the checkout window [w]; the three strings are the
    contents of the form and [dbw] tells how the INSERT ends. *)
Definition place_order (w : CheckoutWin) (name_in mail_in addr_in : string)
    (dbw : db_write) (s : StoreApp) : outcome :=
  let name := strip name_in in
  let mail := strip mail_in in
  let addr := strip addr_in in
  if is_empty name || is_empty mail || is_empty addr then
    Done (show (ShowWarning "Missing" "Please complete all fields.") s)
  else
    match order_details s with
    | Exc e => Raised e s
    | Ret det =>
        match to_float (win_subtotal w) with
        | Exc e => Raised e s
        | Ret tot =>
            match save_order dbw name mail addr tot det (orders s) with
            | Exc e => Raised e s
            | Ret rows =>
                let s1 := show (ShowInfo "Order placed"
                                  ("Thanks " +:+ name
                                   +:+ "! Your order has been placed."))
                               (set_orders rows s) in
                let s2 := set_products
                            (reduce_stock (dict_values (cart s1)) (products s1))
                            s1 in
                refresh (set_cart [] s2)
            end
        end
    end.

(** The checkout button followed at once by "Place Order". *)
Definition checkout (name_in mail_in addr_in : string) (dbw : db_write)
    (s : StoreApp) : outcome :=
  match open_checkout_window s with
  | (Done s1, Some w) => place_order w name_in mail_in addr_in dbw s1
  | (o, _) => o
  end.

(** ** The seed catalogue *)

Definition SAMPLE_PRODUCTS : list (option Product) :=
  [ Product_init 1 "Classic White T-Shirt" "Clothing"
      (Float.of_ratio 1999 100) 25 "100% cotton, comfortable everyday tee.";
    Product_init 2 "Wireless Headphones" "Electronics"
      (Float.of_ratio 8950 100) 10
      "Over-ear, 20hr battery life, noise cancellation.";
    Product_init 3 "Stainless Water Bottle 1L" "Home"
      (Float.of_ratio 2400 100) 40 "Keeps drinks hot or cold for hours.";
    Product_init 4 "Running Shoes" "Footwear"
      (Float.of_ratio 12000 100) 8
      "Lightweight, breathable, great for daily runs.";
    Product_init 5 "Bluetooth Speaker" "Electronics"
      (Float.of_ratio 4525 100) 15 "Portable, splash resistant, rich bass.";
    Product_init 6 "Canvas Tote Bag" "Accessories"
      (Float.of_ratio 1275 100) 50
      "Durable bag for shopping and everyday use." ].

(** [StoreApp.__init__] on products already built, with an empty orders
    table. *)
Definition StoreApp_init (ps : list Product) : StoreApp :=
  mkApp ps [] [] [] "Cart (0) - View" [Label "Cart empty"].

Definition sample_app : StoreApp :=
  StoreApp_init (omap id SAMPLE_PRODUCTS).

(** ** Buttons that add to the cart *)

(** "Add to Cart" on a product card: [self.add_to_cart(p, 1)]. *)
Definition card_add_to_cart (l : nat) (s : StoreApp) : outcome :=
  add_to_cart l 1 s.

(** "Add to Cart" of the selected-product panel ([open_product_detail]):
    the callback evaluates the pair
    [(self.add_to_cart(product, q), messagebox.showinfo("Added", ...))],
    so the box follows every call that returns. *)
Definition detail_add_to_cart (l : nat) (q : Z) (s : StoreApp) : outcome :=
  match add_to_cart l q s with
  | Done s1 =>
      match products s1 !! l with
      | Some p =>
          Done (show (ShowInfo "Added"
                        ("Added " +:+ str_int q +:+ String " " (String "215"
                           (String " " (pname p +:+ " to cart"))))) s1)
      | None => Raised BadReference s1
      end
  | Raised e s1 => Raised e s1
  end.

(** "Add to cart" of the detail window ([open_product_popup]):
    [(self.add_to_cart(product, q), popup.destroy(),
      messagebox.showinfo("Added", "Added to cart"))]. *)
Definition popup_add_to_cart (l : nat) (q : Z) (s : StoreApp) : outcome :=
  match add_to_cart l q s with
  | Done s1 => Done (show (ShowInfo "Added" "Added to cart") s1)
  | Raised e s1 => Raised e s1
  end.

(** ** The product list *)

(** [str.lower] on one character (code points below 256). *)
Definition lower_char (c : ascii) : ascii :=
  let n := Z.of_nat (nat_of_ascii c) in
  if ((65 <=? n) && (n <=? 90)) || ((192 <=? n) && (n <=? 214))
     || ((216 <=? n) && (n <=? 222))
  then ascii_of_nat (nat_of_ascii c + 32) else c.

(** [s.lower()] *)
Fixpoint lower (s : string) : string :=
  match s with
  | EmptyString => EmptyString
  | String c s' => String (lower_char c) (lower s')
  end.

(** [q in s] *)
Fixpoint contains (q s : string) : bool :=
  String.prefix q s ||
  match s with
  | EmptyString => false
  | String _ s' => contains q s'
  end.

(** The body of the loop of [refresh_products]: [q] is the query already
    stripped and lowered. *)
Definition product_matches (q cat : string) (p : Product) : bool :=
  if negb (String.eqb cat "All") && negb (String.eqb (category p) cat) then false
  else if negb (is_empty q)
          && (negb (contains q (lower (pname p)))
              && negb (contains q (lower (desc p)))) then false
  else true.

Definition matching_products (search cat : string) (ps : list Product)
    : list Product :=
  List.filter (product_matches (lower (strip search)) cat) ps.

(** What [_render_product_card] shows of a product. *)
Record card : Type := mkCard {
  card_name : string;
  card_price : string;
  card_category : string;
  card_stock : string;
  card_desc : string
}.

Definition render_product_card (p : Product) : res card :=
  let! pr := fmt_price (Decimal (price p)) in
  Ret (mkCard (pname p) pr ("Category: " +:+ category p)
         ("Stock: " +:+ str_int (stock p)) (desc p)).

Fixpoint render_cards (ps : list Product) (acc : list card)
    : list card * option exn :=
  match ps with
  | [] => (acc, None)
  | p :: rest =>
      match render_product_card p with
      | Ret c => render_cards rest (acc ++ [c])
      | Exc e => (acc, Some e)
      end
  end.

(** The content of the product list frame. *)
Inductive product_list : Type :=
  | NoProductsFound                 (* the label "No products found." *)
  | Cards (cs : list card).

(** [refresh_products]: [search] and [cat] are the contents of the search
    entry and of the category menu.  A price that cannot be formatted
    raises and leaves the cards packed so far. *)
Definition refresh_products (search cat : string) (s : StoreApp)
    : product_list * option exn :=
  match matching_products search cat (products s) with
  | [] => (NoProductsFound, None)
  | ms => let '(cs, e) := render_cards ms [] in (Cards cs, e)
  end.

(** ** The session: callbacks run one after the other *)

(** The events of the main loop that reach the cart, the stock or the
    orders.  A callback that raises leaves its state to the next one. *)
Inductive action : Type :=
  | AddToCart (l : nat) (q : Z)
  | UpdateQty (sel : option Z) (newq : Z)
  | RemoveItem (sel : option Z)
  | OpenCheckout
  | PlaceOrder (w : CheckoutWin) (name mail addr : string) (dbw : db_write).

Definition step (a : action) (s : StoreApp) : StoreApp :=
  match a with
  | AddToCart l q => final (add_to_cart l q s)
  | UpdateQty sel q => final (update_qty sel q s)
  | RemoveItem sel => final (remove_item sel s)
  | OpenCheckout => final (fst (open_checkout_window s))
  | PlaceOrder w name mail addr dbw => final (place_order w name mail addr dbw s)
  end.

Definition run (acts : list action) (s : StoreApp) : StoreApp :=
  fold_left (fun s a => step a s) acts s.

(** ** The login form (login.py) *)

Module Login.

Inductive box : Type :=
  | ShowInfo (title text : string)
  | ShowWarning (title text : string)
  | ShowError (title text : string).

(** How [get_db_connection] ends. *)
Inductive connect_result : Type :=
  | Connected
  | ConnectFails.

(** How [conn.cursor()] ends. *)
Inductive cursor_result : Type :=
  | CursorOk
  | CursorFails.

(** What the server answers to the SELECT of [login]: [fetchone] gives a
    row, gives [None], or the query raises. *)
Inductive select_result : Type :=
  | Row
  | NoRow
  | SelectFails.

(** What the server answers to the INSERT and commit of [register]. *)
Inductive insert_result : Type :=
  | Inserted
  | Duplicate          (* mysql.connector.IntegrityError *)
  | InsertFails.       (* any other exception *)

Record world : Type := mkWorld {
  boxes : list box;              (* message boxes shown so far *)
  open_connections : nat         (* connections opened and not closed *)
}.

Inductive outcome : Type :=
  | Done (w : world)
  | Raised (w : world).

Definition final (o : outcome) : world :=
  match o with
  | Done w => w
  | Raised w => w
  end.

Definition show (b : box) (w : world) : world :=
  mkWorld (boxes w ++ [b]) (open_connections w).
Definition connect (w : world) : world :=
  mkWorld (boxes w) (S (open_connections w)).
Definition close (w : world) : world :=
  mkWorld (boxes w) (Nat.pred (open_connections w)).

(** [login]: nothing is caught, and [conn.close()] is the last
    statement. *)
Definition login (username password : string) (c : connect_result)
    (k : cursor_result) (r : select_result) (w : world) : outcome :=
  match c with
  | ConnectFails => Raised w
  | Connected =>
      let w1 := connect w in
      match k with
      | CursorFails => Raised w1
      | CursorOk =>
          match r with
          | SelectFails => Raised w1
          | Row =>
              Done (close (show (ShowInfo "Login Success"
                                   ("Welcome, " +:+ username +:+ "!")) w1))
          | NoRow =>
              Done (close (show (ShowError "Login Failed"
                                   "Invalid Username or Password!") w1))
          end
      end
  end.

(** [register]: [conn.cursor()] comes before the [try], whose [finally]
    closes the connection. *)
Definition register (username password : string) (c : connect_result)
    (k : cursor_result) (r : insert_result) (w : world) : outcome :=
  if is_empty username || is_empty password then
    Done (show (ShowWarning "Input Error"
                  "Username and Password cannot be empty.") w)
  else
    match c with
    | ConnectFails => Raised w
    | Connected =>
        let w1 := connect w in
        match k with
        | CursorFails => Raised w1
        | CursorOk =>
            match r with
            | Inserted =>
                Done (close (show (ShowInfo "Registration Success"
                                     ("User '" +:+ username
                                      +:+ "' registered successfully!")) w1))
            | Duplicate =>
                Done (close (show (ShowError "Registration Failed"
                                     "Username already exists!") w1))
            | InsertFails => Raised (close w1)
            end
        end
    end.

End Login.

(** ** Vocabulary of the statements *)

Definition same_data (s s' : StoreApp) : Prop :=
  products s' = products s /\ cart s' = cart s /\
  orders s' = orders s /\ messages s' = messages s.

Definition blank (s : string) : Prop := strip s = "".

(** Every entry is filed under the id of the product it refers to, with a
    positive quantity that the product's stock covers, and an id has at
    most one entry. *)
Definition ledger_inv (s : StoreApp) : Prop :=
  NoDup (dict_keys (cart s)) /\
  forall k it, (k, it) ∈ cart s ->
    exists p, products s !! product it = Some p /\ pid p = k /\
              0 < qty it <= stock p.

(** Product ids are unique in the catalogue (guaranteed by the seed data,
    not checked by the code). *)
Definition unique_ids (s : StoreApp) : Prop :=
  forall l1 l2 p1 p2,
    products s !! l1 = Some p1 -> products s !! l2 = Some p2 ->
    pid p1 = pid p2 -> l1 = l2.

(** The specification of a line total: the exact product [c * 10^e], in
    cents, rounded to the nearest cent with halves away from zero, that
    is [sign * floor (|c| * 10^(e+2) + 1/2)]. *)
Definition half_up_cents (c e : Z) : Z :=
  if e >=? -2 then c * 10 ^ (e + 2)
  else Z.sgn c * ((2 * Z.abs c + 10 ^ (-2 - e)) / (2 * 10 ^ (-2 - e))).

(** Rounding to the precision of the context, on the coefficient alone:
    the number of digits beyond the 28th, and [c] rounded half even to
    its 28 leading digits, in units of the same exponent ([c] itself when
    it has no more than 28 digits). *)
Definition excess_digits (c : Z) : Z := Z.max (ndigits c - 28) 0.

Definition round_to_prec (c : Z) : Z :=
  Z.sgn c * round_half_even (Z.abs c) (excess_digits c) * 10 ^ excess_digits c.

Definition sum_coef (ts : list Dec.t) : Z :=
  foldr (fun t acc => Dec.coef t + acc) 0 ts.

Definition sum_abs_coef (ts : list Dec.t) : Z :=
  foldr (fun t acc => Z.abs (Dec.coef t) + acc) 0 ts.

(** The accumulator of [sum]: the [int] 0 it starts from, or a decimal
    number of cents. *)
Definition acc_cents (acc : number) (a : Z) : Prop :=
  (acc = Int 0 /\ a = 0) \/ acc = Decimal (Dec.mk a (-2)).

(** Two products at 99999999999999999999999999.99, one unit of each. *)
Definition big_price : Dec.t := Dec.mk (10 ^ 28 - 1) (-2).
Definition big_app : StoreApp :=
  final (add_to_cart 1 1 (final (add_to_cart 0 1 (StoreApp_init
    [mkProduct 1 "A" "" big_price 1 ""; mkProduct 2 "B" "" big_price 1 ""])))).

(** Units of the product object [l] in a list of cart items. *)
Definition purchased (items : list CartItem) (l : nat) : Z :=
  foldr (fun it acc => (if decide (product it = l) then qty it else 0) + acc)
        0 items.

(** Exact comparison of a double with a decimal. *)
Definition float_equals_decimal (f : Float.t) (d : Dec.t) : Prop :=
  match f with
  | Float.Finite m e =>
      m * 2 ^ Z.max e 0 * 10 ^ Z.max (- Dec.exp d) 0
      = Dec.coef d * 10 ^ Z.max (Dec.exp d) 0 * 2 ^ Z.max (- e) 0
  | Float.Infinity _ => False
  end.

(** The doubles: 53-bit significands with exponents in range. *)
Definition representable (m e : Z) : Prop :=
  Z.abs m < 2 ^ 53 /\ Float.emin <= e <= Float.emax.

(** Distance between [n / d] and [m * 2^e], in units of
    [1 / (d * 2^1074)]. *)
Definition gap (n d m e : Z) : Z :=
  Z.abs (n * 2 ^ 1074 - d * (m * 2 ^ (e + 1074))).

(** No product is out of stock by a negative amount. *)
Definition nonneg_stock (s : StoreApp) : Prop :=
  forall p, p ∈ products s -> 0 <= stock p.

(** The cart button shows the number of units in the cart. *)
Definition cart_btn_ok (s : StoreApp) : Prop :=
  cart_btn s = "Cart (" +:+ str_int (total_items (cart s)) +:+ ") - View".

Definition is_place_order (a : action) : bool :=
  match a with
  | PlaceOrder _ _ _ _ _ => true
  | _ => false
  end.

(** The orders a session can have written: its [PlaceOrder] events whose
    write goes through. *)
Definition writes (a : action) : nat :=
  match a with
  | PlaceOrder _ _ _ _ WriteOk => 1
  | _ => 0
  end.

Definition positive_update (a : action) : Prop :=
  match a with
  | UpdateQty _ q => 0 < q
  | _ => True
  end.

(** Only whitespace (or nothing at all). *)
Fixpoint all_space (s : string) : bool :=
  match s with
  | EmptyString => true
  | String c s' => is_space c && all_space s'
  end.

(** * Properties *)

(** ** The arithmetic on examples *)

Example strip_ex : strip (String "009" "  Ann Lee " +:+ String "010" "") = "Ann Lee".
Proof. reflexivity. Qed.
Example str_decimal_ex1 : str_decimal (Dec.mk 5997 (-2)) = "59.97".
Proof. reflexivity. Qed.
Example str_decimal_ex2 : str_decimal (Dec.mk (-5) (-2)) = "-0.05".
Proof. reflexivity. Qed.
Example str_decimal_ex3 : str_decimal (Dec.mk 1 3) = "1E+3".
Proof. reflexivity. Qed.
Example str_decimal_ex4 : str_decimal (Dec.mk 0 (-2)) = "0.00".
Proof. reflexivity. Qed.
Example str_decimal_ex5 : str_decimal (Dec.neg_zero (-2)) = "-0.00".
Proof. reflexivity. Qed.
Example float_19_99 : Float.of_ratio 1999 100 = Float.Finite 5626684784446013 (-48).
Proof. vm_compute. reflexivity. Qed.
Example decimal_19_99 :
  Float.to_decimal (Float.of_ratio 1999 100)
  = Some (Dec.mk 19989999999999998436805981327779591083526611328125 (-48)).
Proof. vm_compute. reflexivity. Qed.
Example decimal_89_5 : Float.to_decimal (Float.of_ratio 895 10) = Some (Dec.mk 895 (-1)).
Proof. vm_compute. reflexivity. Qed.
Example decimal_24 : Float.to_decimal (Float.of_ratio 24 1) = Some (Dec.mk 24 0).
Proof. vm_compute. reflexivity. Qed.
Example float_105_22 :
  Float.of_decimal (Dec.mk 10522 (-2)) = Float.Finite 7404199262373806 (-46).
Proof. vm_compute. reflexivity. Qed.

(** ** The display never touches the data *)

Lemma refresh_quick_cart_data s : same_data s (final (_refresh_quick_cart s)).
Proof.
  unfold _refresh_quick_cart, same_data.
  destruct (quick_rows (products s) (take 5 (dict_values (cart s))) [])
    as [ws [e|]];
    destruct (cart s) as [|x c] eqn:Hc; cbn; rewrite ?Hc; done.
Qed.

Lemma refresh_data s : same_data s (final (refresh s)).
Proof.
  unfold refresh.
  destruct (refresh_quick_cart_data (_update_cart_button s)) as (H1 & H2 & H3 & H4).
  unfold same_data. rewrite H1, H2, H3, H4. done.
Qed.

Lemma refresh_empty s : cart s = [] -> exists s', refresh s = Done s'.
Proof.
  intros Hc. unfold refresh, _refresh_quick_cart. simpl. rewrite Hc. eauto.
Qed.

(** ** Dictionaries *)

Section DictFacts.
Context {V : Type}.
Implicit Types (d : dict V) (k : Z) (v : V).

Lemma dict_get_set_eq k v d : dict_get k (dict_set k v d) = Some v.
Proof.
  induction d as [|[k' v'] d IH]; simpl.
  - rewrite Z.eqb_refl. done.
  - destruct (k' =? k) eqn:E; simpl; rewrite E; done.
Qed.

Lemma dict_get_set_ne k k0 v d :
  k0 <> k -> dict_get k0 (dict_set k v d) = dict_get k0 d.
Proof.
  intros Hne. induction d as [|[k' v'] d IH]; simpl.
  - destruct (k =? k0) eqn:E; [apply Z.eqb_eq in E; congruence | done].
  - destruct (k' =? k) eqn:E; simpl; [|rewrite IH; done].
    apply Z.eqb_eq in E. subst k'.
    destruct (k =? k0) eqn:E0; [apply Z.eqb_eq in E0; congruence | done].
Qed.

Lemma dict_get_None k d : dict_get k d = None <-> k ∉ dict_keys d.
Proof.
  induction d as [|[k' v'] d IH]; simpl.
  - split; [intros _; apply not_elem_of_nil | done].
  - rewrite not_elem_of_cons. destruct (k' =? k) eqn:E.
    + apply Z.eqb_eq in E. split; [done | intros [? _]; congruence].
    + apply Z.eqb_neq in E. rewrite IH. split; [intros; split; congruence | tauto].
Qed.

Lemma dict_get_Some_elem k v d : dict_get k d = Some v -> (k, v) ∈ d.
Proof.
  induction d as [|[k' v'] d IH]; simpl; [done|].
  destruct (k' =? k) eqn:E.
  - apply Z.eqb_eq in E. intros [= ->]. subst. apply elem_of_cons. by left.
  - intros H. apply elem_of_cons. right. auto.
Qed.

Lemma dict_elem_get k v d : NoDup (dict_keys d) -> (k, v) ∈ d -> dict_get k d = Some v.
Proof.
  induction d as [|[k' v'] d IH]; simpl; intros Hnd Hin.
  - by apply elem_of_nil in Hin.
  - apply NoDup_cons in Hnd as [Hk Hnd]. apply elem_of_cons in Hin as [Heq|Hin].
    + inversion Heq; subst. rewrite Z.eqb_refl. done.
    + destruct (k' =? k) eqn:E; [|by apply IH].
      apply Z.eqb_eq in E. subst. exfalso. apply Hk.
      unfold dict_keys. change k with (fst (k, v)). by apply list_elem_of_fmap_2.
Qed.

Lemma dict_keys_set_present k v d :
  dict_get k d <> None -> dict_keys (dict_set k v d) = dict_keys d.
Proof.
  induction d as [|[k' v'] d IH]; simpl; [done|].
  destruct (k' =? k) eqn:E; simpl; [done|]. intros H. rewrite IH; done.
Qed.

Lemma dict_keys_set_absent k v d :
  dict_get k d = None -> dict_keys (dict_set k v d) = dict_keys d ++ [k].
Proof.
  induction d as [|[k' v'] d IH]; simpl; [done|].
  destruct (k' =? k) eqn:E; simpl; [done|]. intros H. rewrite IH; done.
Qed.

Lemma dict_set_NoDup k v d : NoDup (dict_keys d) -> NoDup (dict_keys (dict_set k v d)).
Proof.
  intros Hnd. destruct (dict_get k d) eqn:E.
  - rewrite dict_keys_set_present; [done | congruence].
  - rewrite dict_keys_set_absent by done.
    apply NoDup_app. split; [done|]. split; [|apply NoDup_singleton].
    intros x Hx Hx'. apply list_elem_of_singleton in Hx'. subst.
    by apply dict_get_None in E.
Qed.

Lemma dict_set_elem k v k0 v0 d :
  (k0, v0) ∈ dict_set k v d -> (k0 = k /\ v0 = v) \/ (k0, v0) ∈ d.
Proof.
  induction d as [|[k' v'] d IH]; simpl.
  - intros H. apply list_elem_of_singleton in H. inversion H. auto.
  - destruct (k' =? k) eqn:E; intros H; apply elem_of_cons in H as [H|H].
    + apply Z.eqb_eq in E. inversion H; subst. auto.
    + right. apply elem_of_cons. auto.
    + right. apply elem_of_cons. auto.
    + destruct (IH H) as [?|?]; [auto|]. right. apply elem_of_cons. auto.
Qed.

Lemma dict_del_None k d : dict_del k d = None <-> dict_get k d = None.
Proof.
  induction d as [|[k' v'] d IH]; simpl; [done|].
  destruct (k' =? k); [done|].
  destruct (dict_del k d); split; intros H; try done.
  - apply IH in H. done.
  - apply IH. done.
Qed.

Lemma dict_del_elem k k0 v0 d d' :
  dict_del k d = Some d' -> (k0, v0) ∈ d' -> (k0, v0) ∈ d.
Proof.
  revert d'. induction d as [|[k' v'] d IH]; simpl; intros d' H Hin; [done|].
  destruct (k' =? k).
  - inversion H; subst. apply elem_of_cons. auto.
  - destruct (dict_del k d) as [r|]; [|done]. inversion H; subst.
    apply elem_of_cons in Hin as [?|?]; apply elem_of_cons; [auto|].
    right. by apply (IH r).
Qed.

Lemma dict_del_keys k d d' :
  dict_del k d = Some d' -> forall x, x ∈ dict_keys d' -> x ∈ dict_keys d.
Proof.
  intros H x Hx. unfold dict_keys in *.
  apply list_elem_of_fmap in Hx as [[k0 v0] [-> Hin]].
  apply list_elem_of_fmap_2.
  by apply (dict_del_elem k k0 v0 d d').
Qed.

Lemma dict_del_NoDup k d d' :
  NoDup (dict_keys d) -> dict_del k d = Some d' -> NoDup (dict_keys d').
Proof.
  revert d'. induction d as [|[k' v'] d IH]; simpl; intros d' Hnd H; [done|].
  apply NoDup_cons in Hnd as [Hk Hnd]. destruct (k' =? k).
  - inversion H; subst. done.
  - destruct (dict_del k d) as [r|] eqn:E; [|done]. inversion H; subst. simpl.
    apply NoDup_cons. split; [|by apply IH].
    intros Hin. apply Hk. by apply (dict_del_keys k d r).
Qed.

Lemma dict_del_get_eq k d d' :
  NoDup (dict_keys d) -> dict_del k d = Some d' -> dict_get k d' = None.
Proof.
  revert d'. induction d as [|[k' v'] d IH]; simpl; intros d' Hnd H; [done|].
  apply NoDup_cons in Hnd as [Hk Hnd]. destruct (k' =? k) eqn:E.
  - inversion H; subst. apply Z.eqb_eq in E. subst. by apply dict_get_None.
  - destruct (dict_del k d) as [r|] eqn:E'; [|done]. inversion H; subst. simpl.
    rewrite E. by apply IH.
Qed.

Lemma dict_del_get_ne k k0 d d' :
  k0 <> k -> dict_del k d = Some d' -> dict_get k0 d' = dict_get k0 d.
Proof.
  intros Hne. revert d'.
  induction d as [|[k' v'] d IH]; simpl; intros d' H; [done|].
  destruct (k' =? k) eqn:E.
  - inversion H; subst. apply Z.eqb_eq in E. subst.
    destruct (k =? k0) eqn:E0; [apply Z.eqb_eq in E0; congruence | done].
  - destruct (dict_del k d) as [r|] eqn:E'; [|done]. inversion H; subst. simpl.
    destruct (k' =? k0); [done|]. by apply IH.
Qed.

End DictFacts.

(** ** Adding to the cart *)

Lemma data_of_refresh s c :
  let s' := final (refresh (set_cart c s)) in
  products s' = products s /\ cart s' = c /\
  orders s' = orders s /\ messages s' = messages s.
Proof. exact (refresh_data (set_cart c s)). Qed.

Lemma add_to_cart_new s l p q :
  products s !! l = Some p -> 0 < q <= stock p ->
  dict_get (pid p) (cart s) = None ->
  add_to_cart l q s
  = refresh (set_cart (dict_set (pid p) (mkCartItem l q) (cart s)) s).
Proof.
  intros Hl [Hq1 Hq2] Hg. unfold add_to_cart. rewrite Hl, Hg.
  destruct (q <=? 0) eqn:E1; [apply Z.leb_le in E1; lia|].
  destruct (stock p <? q) eqn:E2; [apply Z.ltb_lt in E2; lia|]. done.
Qed.

Lemma add_to_cart_more s l p q it :
  products s !! l = Some p -> 0 < q ->
  dict_get (pid p) (cart s) = Some it -> qty it + q <= stock p ->
  q <= stock p ->
  add_to_cart l q s
  = refresh (set_cart (dict_set (pid p) (mkCartItem (product it) (qty it + q))
                         (cart s)) s).
Proof.
  intros Hl Hq Hg Hsum Hq2. unfold add_to_cart. rewrite Hl, Hg.
  destruct (q <=? 0) eqn:E1; [apply Z.leb_le in E1; lia|].
  destruct (stock p <? q) eqn:E2; [apply Z.ltb_lt in E2; lia|].
  destruct (qty it + q >? stock p) eqn:E3; [apply Z.gtb_lt in E3; lia|]. done.
Qed.

Lemma add_to_cart_short s l p q :
  products s !! l = Some p -> 0 < q ->
  (stock p < q \/
   exists it, dict_get (pid p) (cart s) = Some it /\ qty it + q > stock p) ->
  exists txt, add_to_cart l q s = Done (show (ShowWarning "Stock" txt) s).
Proof.
  intros Hl Hq Hshort. unfold add_to_cart. rewrite Hl.
  destruct (q <=? 0) eqn:E1; [apply Z.leb_le in E1; lia|].
  destruct (stock p <? q) eqn:E2; [eauto|].
  destruct Hshort as [H|(it & Hg & H)]; [apply Z.ltb_ge in E2; lia|].
  rewrite Hg.
  destruct (qty it + q >? stock p) eqn:E3; [eauto|].
  rewrite Z.gtb_ltb in E3. apply Z.ltb_ge in E3. lia.
Qed.




(** ** Rejected quantities *)

Lemma add_to_cart_nonpositive s l q : q <= 0 -> final (add_to_cart l q s) = s.
Proof.
  intros Hq. unfold add_to_cart. destruct (products s !! l); [|done].
  destruct (q <=? 0) eqn:E; [done|]. apply Z.leb_gt in E. lia.
Qed.

Lemma update_qty_short s id it prod newq :
  dict_get id (cart s) = Some it ->
  products s !! product it = Some prod ->
  newq > stock prod ->
  update_qty (Some id) newq s
  = Done (show (ShowWarning "Stock" "Not enough stock for that quantity.") s).
Proof.
  intros Hg Hp Hq. unfold update_qty. rewrite Hg, Hp.
  destruct (newq >? stock prod) eqn:E; [done|].
  rewrite Z.gtb_ltb in E. apply Z.ltb_ge in E. lia.
Qed.

(** C7, as the code has it.  [add_to_cart] with a quantity [<= 0] returns
    before any change and reports nothing.  [add_to_cart] with a quantity
    above the stock (alone or together with the quantity already in the
    cart) and [update_qty] with a quantity above the stock of the entry's
    product return before any change and show a "Stock" warning: the
    state differs from the one before only by that message. *)
Theorem quantity_rejections (s : StoreApp) (l : nat) (q : Z) :
  (q <= 0 -> final (add_to_cart l q s) = s) /\
  (forall p, products s !! l = Some p -> 0 < q ->
     (stock p < q \/
      exists it, dict_get (pid p) (cart s) = Some it /\ qty it + q > stock p) ->
     exists txt, add_to_cart l q s = Done (show (ShowWarning "Stock" txt) s)) /\
  (forall id it prod, dict_get id (cart s) = Some it ->
     products s !! product it = Some prod -> q > stock prod ->
     update_qty (Some id) q s
     = Done (show (ShowWarning "Stock" "Not enough stock for that quantity.") s)) /\
  (forall m, cart (show m s) = cart s /\ products (show m s) = products s /\
             orders (show m s) = orders s /\
             messages (show m s) = messages s ++ [m]).
Proof.
  split; [apply add_to_cart_nonpositive|].
  split; [intros p; apply add_to_cart_short|].
  split; [intros id it prod; apply update_qty_short|]. done.
Qed.

Lemma quantity_rejections_witness :
  final (add_to_cart 0 (-1) sample_app) = sample_app /\
  (exists txt, add_to_cart 0 26 sample_app
               = Done (show (ShowWarning "Stock" txt) sample_app)) /\
  update_qty (Some 1) 26 (final (add_to_cart 0 3 sample_app))
  = Done (show (ShowWarning "Stock" "Not enough stock for that quantity.")
            (final (add_to_cart 0 3 sample_app))).
Proof.
  split; [apply (quantity_rejections sample_app 0 (-1)); lia|]. split.
  - destruct (quantity_rejections sample_app 0 26) as (_ & H & _).
    eapply H; [vm_compute; reflexivity | lia | left; simpl; lia].
  - destruct (quantity_rejections (final (add_to_cart 0 3 sample_app)) 0 26)
      as (_ & _ & H & _).
    eapply (H 1 (mkCartItem 0 3));
      [vm_compute; reflexivity | vm_compute; reflexivity | simpl; lia].
Defined.

(** C7, counterexample: a zero quantity is dropped silently; the result
    is [Done] with the state, message log included, as before. *)
Lemma add_to_cart_zero_is_silent :
  add_to_cart 0 0 sample_app = Done sample_app /\ messages sample_app = [].
Proof. split; reflexivity. Qed.

(** ** Removing an entry *)

(** C8, as the code has it.  [remove_item] on a selected id that is in the
    cart deletes that entry and no other, and changes neither stock nor
    orders; on an id that has no entry it raises [KeyError] and leaves
    the state unchanged; without a selection it only shows a notice. *)
Theorem remove_item_spec (s : StoreApp) (id : Z) :
  NoDup (dict_keys (cart s)) ->
  (dict_get id (cart s) <> None ->
     let s' := final (remove_item (Some id) s) in
     dict_get id (cart s') = None /\
     (forall k, k <> id -> dict_get k (cart s') = dict_get k (cart s)) /\
     products s' = products s /\ orders s' = orders s /\
     messages s' = messages s) /\
  (dict_get id (cart s) = None -> remove_item (Some id) s = Raised KeyError s) /\
  remove_item None s = Done (show (ShowInfo "Select" "Select an item to remove.") s).
Proof.
  intros Hnd. split; [|split; [|done]].
  - intros Hin s'. subst s'. unfold remove_item.
    destruct (dict_del id (cart s)) as [c|] eqn:Hd.
    + destruct (data_of_refresh s c) as (Hp & Hc & Ho & Hm).
      rewrite Hc, Hp, Ho, Hm. split; [by eapply dict_del_get_eq|].
      split; [|done]. intros k Hk. by eapply dict_del_get_ne.
    + apply dict_del_None in Hd. done.
  - intros Hg. unfold remove_item. apply dict_del_None in Hg. rewrite Hg. done.
Qed.

Lemma remove_item_spec_witness :
  let s := final (add_to_cart 0 3 sample_app) in
  dict_get 1 (cart (final (remove_item (Some 1) s))) = None /\
  remove_item (Some 7) s = Raised KeyError s.
Proof.
  intros s.
  assert (Hnd : NoDup (dict_keys (cart s))).
  { vm_compute. apply NoDup_cons. split; [apply not_elem_of_nil | apply NoDup_nil_2]. }
  split.
  - destruct (remove_item_spec s 1 Hnd) as (H & _).
    apply H. vm_compute. discriminate.
  - destruct (remove_item_spec s 7 Hnd) as (_ & H & _).
    apply H. vm_compute. reflexivity.
Defined.

(** C8, counterexample: removing an id that has no entry raises. *)
Lemma remove_item_absent_raises :
  dict_get 7 (cart (final (add_to_cart 0 3 sample_app))) = None /\
  remove_item (Some 7) (final (add_to_cart 0 3 sample_app))
  = Raised KeyError (final (add_to_cart 0 3 sample_app)).
Proof. split; vm_compute; reflexivity. Qed.

(** ** Checkout that does not go through *)

Lemma is_empty_true s : is_empty s = true <-> s = "".
Proof. destruct s; simpl; split; congruence. Qed.

(** The two refusals the code makes.  With an empty cart the checkout
    window is not opened: the notice "Your cart is empty." is shown and
    nothing else changes.  With a name, email or address that is blank
    after stripping, [place_order] shows the "Missing" warning and
    nothing else changes.  The emptiness of the cart is tested by
    [open_checkout_window] only. *)
Lemma checkout_rejected (s : StoreApp) (w : CheckoutWin)
    (name mail addr : string) (dbw : db_write) :
  (cart s = [] ->
     open_checkout_window s
     = (Done (show (ShowInfo "Empty" "Your cart is empty.") s), None) /\
     checkout name mail addr dbw s
     = Done (show (ShowInfo "Empty" "Your cart is empty.") s)) /\
  (blank name \/ blank mail \/ blank addr ->
     place_order w name mail addr dbw s
     = Done (show (ShowWarning "Missing" "Please complete all fields.") s)) /\
  (forall m, orders (show m s) = orders s /\ cart (show m s) = cart s /\
             products (show m s) = products s).
Proof.
  split; [|split; [|done]].
  - intros Hc. unfold checkout, open_checkout_window. rewrite Hc. done.
  - intros Hb. unfold place_order, blank in *.
    destruct (is_empty (strip name)) eqn:E1; [done|].
    destruct (is_empty (strip mail)) eqn:E2; [done|].
    destruct (is_empty (strip addr)) eqn:E3; [done|].
    exfalso. destruct Hb as [H|[H|H]]; apply is_empty_true in H; congruence.
Qed.

Lemma checkout_rejected_witness :
  checkout "Ann" "a@b.c" "1 Main St" WriteOk sample_app
  = Done (show (ShowInfo "Empty" "Your cart is empty.") sample_app) /\
  place_order (mkWin (Int 0)) "   " "a@b.c" "1 Main St" WriteOk
    (final (add_to_cart 0 3 sample_app))
  = Done (show (ShowWarning "Missing" "Please complete all fields.")
            (final (add_to_cart 0 3 sample_app))).
Proof.
  split.
  - apply (checkout_rejected sample_app (mkWin (Int 0)) "Ann" "a@b.c"
             "1 Main St" WriteOk). reflexivity.
  - apply (checkout_rejected (final (add_to_cart 0 3 sample_app))
             (mkWin (Int 0)) "   " "a@b.c" "1 Main St" WriteOk).
    left. reflexivity.
Defined.

(** ** A write that fails *)

(** C2. When the INSERT of [save_order] fails, [place_order] ends at that
    call: cart, stock and orders table are those from before.  When the
    form is complete and the details and the total can be computed, the
    failure surfaces as the database exception, raised on the unchanged
    state.  The same holds for the checkout as a whole. *)
Theorem failed_write_changes_nothing (s : StoreApp) (w : CheckoutWin)
    (name mail addr : string) :
  (let s' := final (place_order w name mail addr WriteFails s) in
   cart s' = cart s /\ products s' = products s /\ orders s' = orders s) /\
  (let s' := final (checkout name mail addr WriteFails s) in
   cart s' = cart s /\ products s' = products s /\ orders s' = orders s) /\
  (forall det tot,
     ~ blank name -> ~ blank mail -> ~ blank addr ->
     order_details s = Ret det -> to_float (win_subtotal w) = Ret tot ->
     place_order w name mail addr WriteFails s = Raised DatabaseError s).
Proof.
  assert (Hpo : forall w0 s0,
    let s' := final (place_order w0 name mail addr WriteFails s0) in
    cart s' = cart s0 /\ products s' = products s0 /\ orders s' = orders s0).
  { intros w0 s0. unfold place_order.
    destruct (_ || _); [done|].
    destruct (order_details s0); [|done].
    destruct (to_float (win_subtotal w0)); done. }
  split; [apply Hpo|]. split.
  - unfold checkout, open_checkout_window.
    destruct (cart s) eqn:Hc; [simpl; rewrite Hc; done|]. rewrite <- Hc.
    destruct (subtotal s); [|done]. destruct (fmt_price a); [|done]. apply Hpo.
  - intros det tot Hn Hm Ha Hd Ht. unfold place_order, blank in *.
    rewrite <- is_empty_true in Hn, Hm, Ha.
    destruct (is_empty (strip name)); [done|].
    destruct (is_empty (strip mail)); [done|].
    destruct (is_empty (strip addr)); [done|]. simpl.
    rewrite Hd, Ht. done.
Qed.

Lemma failed_write_changes_nothing_witness :
  place_order (mkWin (Decimal (Dec.mk 5997 (-2)))) "Ann" "a@b.c" "1 Main St"
    WriteFails (final (add_to_cart 0 3 sample_app))
  = Raised DatabaseError (final (add_to_cart 0 3 sample_app)).
Proof.
  destruct (failed_write_changes_nothing (final (add_to_cart 0 3 sample_app))
              (mkWin (Decimal (Dec.mk 5997 (-2)))) "Ann" "a@b.c" "1 Main St")
    as (_ & _ & H).
  eapply H; try (vm_compute; discriminate); vm_compute; reflexivity.
Defined.

(** ** The invariant of the cart *)

Lemma ledger_inv_ext s s' :
  products s' = products s -> cart s' = cart s -> ledger_inv s -> ledger_inv s'.
Proof. unfold ledger_inv. intros -> ->. done. Qed.

Lemma ledger_inv_empty s : cart s = [] -> ledger_inv s.
Proof.
  unfold ledger_inv. intros ->. split; [apply NoDup_nil_2|].
  intros k it H. by apply elem_of_nil in H.
Qed.

Lemma ledger_inv_set s k it p :
  ledger_inv s -> products s !! product it = Some p -> pid p = k ->
  0 < qty it <= stock p ->
  ledger_inv (final (refresh (set_cart (dict_set k it (cart s)) s))).
Proof.
  intros [Hnd Hin] Hp Hk Hq.
  destruct (data_of_refresh s (dict_set k it (cart s))) as (Hp' & Hc' & _ & _).
  unfold ledger_inv. rewrite Hp', Hc'. split; [by apply dict_set_NoDup|].
  intros k0 it0 H0. apply dict_set_elem in H0 as [[-> ->]|H0]; [eauto|auto].
Qed.

Lemma add_to_cart_inv s l q :
  unique_ids s -> ledger_inv s -> ledger_inv (final (add_to_cart l q s)).
Proof.
  intros Huniq Hinv. unfold add_to_cart.
  destruct (products s !! l) as [p|] eqn:Hl; [|done].
  destruct (q <=? 0) eqn:E1; [done|]. apply Z.leb_gt in E1.
  destruct (stock p <? q) eqn:E2; [by apply (ledger_inv_ext s)|].
  apply Z.ltb_ge in E2.
  destruct (dict_get (pid p) (cart s)) as [it|] eqn:Hg.
  - destruct (qty it + q >? stock p) eqn:E3; [by apply (ledger_inv_ext s)|].
    rewrite Z.gtb_ltb in E3. apply Z.ltb_ge in E3.
    destruct Hinv as [Hnd Hin].
    destruct (Hin _ _ (dict_get_Some_elem _ _ _ Hg)) as (p' & Hp' & Hid & Hq').
    assert (product it = l) as Hit by (by eapply Huniq). subst l.
    assert (p' = p) by congruence. subst p'.
    apply (ledger_inv_set s (pid p) _ p); [done | done | done | simpl; lia].
  - apply (ledger_inv_set s (pid p) _ p); [done | done | done | simpl; lia].
Qed.

Lemma update_qty_inv s sel newq :
  0 < newq -> ledger_inv s -> ledger_inv (final (update_qty sel newq s)).
Proof.
  intros Hq Hinv. unfold update_qty. destruct sel as [id|]; [|done].
  destruct (dict_get id (cart s)) as [it|] eqn:Hg; [|done].
  destruct (products s !! product it) as [prod|] eqn:Hp; [|done].
  destruct (newq >? stock prod) eqn:E; [done|].
  rewrite Z.gtb_ltb in E. apply Z.ltb_ge in E.
  assert (Hid : pid prod = id).
  { destruct Hinv as [_ Hin].
    destruct (Hin _ _ (dict_get_Some_elem _ _ _ Hg)) as (p' & Hp' & Hid & _).
    congruence. }
  pose proof (ledger_inv_set s id (mkCartItem (product it) newq) prod Hinv Hp Hid)
    as Hset.
  match goal with
  | |- context [match ?r with Ret _ => _ | Exc _ => _ end] => destruct r
  end.
  - apply Hset. simpl. lia.
  - simpl. eapply ledger_inv_ext; [| |apply Hset; simpl; lia].
    + destruct (data_of_refresh s (dict_set id (mkCartItem (product it) newq)
                                     (cart s))) as (-> & _). done.
    + destruct (data_of_refresh s (dict_set id (mkCartItem (product it) newq)
                                     (cart s))) as (_ & -> & _). done.
Qed.

Lemma remove_item_inv s sel :
  ledger_inv s -> ledger_inv (final (remove_item sel s)).
Proof.
  intros [Hnd Hin]. unfold remove_item. destruct sel as [id|]; [|done].
  destruct (dict_del id (cart s)) as [c|] eqn:Hd; [|done].
  destruct (data_of_refresh s c) as (Hp' & Hc' & _ & _).
  unfold ledger_inv. rewrite Hp', Hc'. split; [by eapply dict_del_NoDup|].
  intros k it H. apply Hin. by eapply dict_del_elem.
Qed.

Lemma place_order_inv s w name mail addr dbw :
  ledger_inv s -> ledger_inv (final (place_order w name mail addr dbw s)).
Proof.
  intros Hinv. unfold place_order.
  destruct (_ || _); [done|].
  destruct (order_details s); [|done].
  destruct (to_float (win_subtotal w)); [|done].
  destruct (save_order _ _ _ _ _ _ _); [|done].
  apply ledger_inv_empty.
  match goal with
  | |- cart (final (refresh (set_cart [] ?s0))) = [] =>
      destruct (data_of_refresh s0 []) as (_ & -> & _)
  end. done.
Qed.

Lemma unique_ids_NoDup s : NoDup (pid <$> products s) -> unique_ids s.
Proof.
  intros Hnd l1 l2 p1 p2 H1 H2 Hid.
  eapply NoDup_lookup; [exact Hnd | |].
  - rewrite list_lookup_fmap, H1. reflexivity.
  - rewrite list_lookup_fmap, H2, Hid. reflexivity.
Qed.

Lemma sample_app_ok : unique_ids sample_app /\ ledger_inv sample_app.
Proof.
  split; [|by apply ledger_inv_empty].
  apply unique_ids_NoDup.
  apply (bool_decide_unpack _). vm_compute. exact I.
Qed.

(** C3, where the code departs from it.  [update_qty] checks the new
    quantity against the stock only; unlike [add_to_cart] it does not
    reject a quantity [<= 0].  Setting the quantity of an entry to 0
    stores 0 in the cart: the invariant held before and fails after. *)
Theorem update_qty_zero_breaks_invariant :
  let s := final (add_to_cart 0 2 sample_app) in
  ledger_inv s /\
  (exists s', update_qty (Some 1) 0 s = Done s' /\
              cart s' = [(1, mkCartItem 0 0)]) /\
  ~ ledger_inv (final (update_qty (Some 1) 0 s)).
Proof.
  intros s. split; [|split].
  - apply add_to_cart_inv; apply sample_app_ok.
  - eexists. split; [vm_compute; reflexivity | reflexivity].
  - intros [_ Hin].
    destruct (Hin 1 (mkCartItem 0 0)) as (p & _ & _ & Hq).
    + vm_compute. apply elem_of_cons. by left.
    + simpl in Hq. lia.
Qed.

(** ** Digits and rounding *)

Lemma ndigits_fuel_nonneg fuel n : 0 <= ndigits_fuel fuel n.
Proof.
  revert n. induction fuel as [|f IH]; intros n; simpl; [lia|].
  destruct (n <=? 0); [lia|]. specialize (IH (n / 10)). lia.
Qed.

Lemma ndigits_fuel_le fuel n p :
  0 <= n < 2 ^ Z.of_nat fuel -> 0 <= p ->
  (ndigits_fuel fuel n <= p <-> n < 10 ^ p).
Proof.
  revert n p. induction fuel as [|f IH]; intros n p Hn Hp.
  - simpl in *. assert (n = 0) as -> by lia.
    split; intros _; [apply Z.pow_pos_nonneg; lia | lia].
  - cbn [ndigits_fuel]. destruct (n <=? 0) eqn:E.
    + apply Z.leb_le in E. assert (n = 0) as -> by lia.
      split; intros _; [apply Z.pow_pos_nonneg; lia | lia].
    + apply Z.leb_gt in E.
      assert (Hdiv : 0 <= n / 10 < 2 ^ Z.of_nat f).
      { split; [apply Z.div_pos; lia|].
        apply Z.div_lt_upper_bound; [lia|].
        rewrite Nat2Z.inj_succ, Z.pow_succ_r in Hn by lia. lia. }
      destruct (Z.eq_dec p 0) as [->|Hp0].
      * pose proof (ndigits_fuel_nonneg f (n / 10)). simpl. lia.
      * specialize (IH (n / 10) (p - 1) Hdiv ltac:(lia)).
        replace (10 ^ p) with (10 * 10 ^ (p - 1)).
        2:{ rewrite <- Z.pow_succ_r by lia. f_equal. lia. }
        split; intros H.
        -- assert (n / 10 < 10 ^ (p - 1)) by (apply IH; lia).
           pose proof (Z.div_mod n 10 ltac:(lia)).
           pose proof (Z.mod_pos_bound n 10 ltac:(lia)). lia.
        -- assert (n / 10 < 10 ^ (p - 1)).
           { apply Z.div_lt_upper_bound; lia. }
           apply IH in H0. lia.
Qed.

Lemma ndigits_pos n : 1 <= ndigits n.
Proof.
  unfold ndigits. destruct (n =? 0) eqn:E; [lia|]. apply Z.eqb_neq in E.
  cbn [ndigits_fuel]. destruct (Z.abs n <=? 0) eqn:E'; [apply Z.leb_le in E'; lia|].
  pose proof (ndigits_fuel_nonneg (Z.to_nat (Z.log2 (Z.abs n))) (Z.abs n / 10)).
  lia.
Qed.

Lemma ndigits_le n p :
  n <> 0 -> 0 <= p -> (ndigits n <= p <-> Z.abs n < 10 ^ p).
Proof.
  intros Hn Hp. unfold ndigits.
  destruct (n =? 0) eqn:E; [apply Z.eqb_eq in E; done|].
  apply ndigits_fuel_le; [|done].
  split; [lia|]. rewrite Nat2Z.inj_succ, Z2Nat.id by apply Z.log2_nonneg.
  apply Z.log2_spec. lia.
Qed.

Lemma ndigits_le_prec n : Z.abs n < 10 ^ 28 -> ndigits n <= 28.
Proof.
  intros Hn. destruct (Z.eq_dec n 0) as [->|Hn0]; [done|].
  apply ndigits_le; [done | lia | done].
Qed.

Lemma round_half_up_floor n k :
  0 <= n -> 0 <= k ->
  round_half_up n k = (2 * n + 10 ^ k) / (2 * 10 ^ k).
Proof.
  intros Hn Hk. unfold round_half_up.
  assert (HT : 0 < 10 ^ k) by (apply Z.pow_pos_nonneg; lia).
  pose proof (Z.div_mod n (10 ^ k) ltac:(lia)) as Hdm.
  pose proof (Z.mod_pos_bound n (10 ^ k) HT) as Hr.
  set (q := n / 10 ^ k) in *. set (r := n mod 10 ^ k) in *.
  destruct (2 * r >=? 10 ^ k) eqn:E.
  - apply Z.geb_le in E.
    apply (Z.div_unique _ _ _ (2 * r - 10 ^ k)); lia.
  - rewrite Z.geb_leb in E. apply Z.leb_gt in E.
    apply (Z.div_unique _ _ _ (2 * r + 10 ^ k)); lia.
Qed.

(** ** Decimal arithmetic within the context precision *)

Lemma coef_make s c e : Dec.coef (Dec.make s c e) = c.
Proof.
  unfold Dec.make. destruct (s && (c =? 0)) eqn:E; [|done].
  apply andb_true_iff in E as [_ E]. apply Z.eqb_eq in E. by subst.
Qed.

Lemma exp_make s c e : Dec.exp (Dec.make s c e) = e.
Proof. unfold Dec.make. by destruct (s && (c =? 0)). Qed.

Lemma sign_make s c e :
  Dec.sign (Dec.make s c e) = (c <? 0) || (s && (c =? 0)).
Proof.
  unfold Dec.make. destruct (s && (c =? 0)) eqn:E; cbn [Dec.sign].
  - by rewrite orb_true_r.
  - by rewrite orb_false_r.
Qed.

Lemma make_mk s c e : (s = true -> c <> 0) -> Dec.make s c e = Dec.mk c e.
Proof.
  intros H. unfold Dec.make. destruct s; [|done].
  destruct (c =? 0) eqn:E; [|done]. apply Z.eqb_eq in E. by destruct H.
Qed.

Lemma make_sign d : Dec.make (Dec.sign d) (Dec.coef d) (Dec.exp d) = d.
Proof.
  destruct d as [c e|e]; [|done]. cbn [Dec.sign Dec.coef Dec.exp].
  apply make_mk. intros H%Z.ltb_lt. lia.
Qed.

Lemma sign_coef d : Dec.sign d = true -> Dec.coef d <= 0.
Proof. destruct d as [c e|e]; simpl; [intros H%Z.ltb_lt; lia | done]. Qed.

(** The sign bit of a product that is not zero is the sign of its
    coefficient. *)
Lemma sign_mul p q :
  Dec.coef p * q <> 0 ->
  xorb (Dec.sign p) (q <? 0) = (Dec.coef p * q <? 0).
Proof.
  destruct p as [c e|e]; cbn [Dec.sign Dec.coef]; [|lia]. intros H.
  destruct (c <? 0) eqn:E1, (q <? 0) eqn:E2, (c * q <? 0) eqn:E3; try done;
    rewrite ?Z.ltb_lt, ?Z.ltb_ge in *; nia.
Qed.

Lemma fix_small c e :
  Z.abs c < 10 ^ 28 -> Dec.Etiny <= e <= Dec.Etop ->
  Dec.fix_ (Dec.mk c e) = Ret (Dec.mk c e).
Proof.
  intros Hc He. unfold Dec.fix_. cbn [Dec.coef Dec.exp Dec.sign].
  destruct (c =? 0) eqn:E0.
  - apply Z.eqb_eq in E0. subst. change (0 <? 0) with false.
    unfold Dec.make. cbn [andb]. f_equal. f_equal.
    unfold Dec.Etiny, Dec.Etop, Dec.Emax, Dec.Emin, Dec.prec in *. lia.
  - pose proof (ndigits_le_prec c Hc) as Hd.
    unfold Dec.Etiny, Dec.Etop, Dec.Emax, Dec.Emin, Dec.prec in *.
    destruct (ndigits c + e - 28 >? _) eqn:E1.
    { apply Z.gtb_lt in E1. lia. }
    destruct (e <? _) eqn:E2; [|done].
    apply Z.ltb_lt in E2. lia.
Qed.

Lemma fix_make_small s c e :
  Z.abs c < 10 ^ 28 -> Dec.Etiny <= e <= Dec.Etop ->
  Dec.fix_ (Dec.make s c e) = Ret (Dec.make s c e).
Proof.
  intros Hc He. unfold Dec.make. destruct (s && (c =? 0)); [|by apply fix_small].
  unfold Dec.fix_. cbn [Dec.coef Dec.exp Dec.sign Z.eqb].
  unfold Dec.make. cbn [andb Z.eqb]. f_equal. f_equal.
  unfold Dec.Etiny, Dec.Etop, Dec.Emax, Dec.Emin, Dec.prec in *. lia.
Qed.

(** A zero stays a zero of the same sign; its exponent is clamped. *)
Lemma fix_zero s e :
  exists e', Dec.fix_ (Dec.make s 0 e) = Ret (Dec.make s 0 e').
Proof.
  unfold Dec.fix_. rewrite coef_make, sign_make, exp_make.
  cbn [Z.eqb Z.ltb Z.compare orb]. rewrite andb_true_r. eauto.
Qed.

Lemma rescale_half_up_spec d :
  Dec.rescale_half_up (-2) d
  = Dec.make (Dec.sign d) (half_up_cents (Dec.coef d) (Dec.exp d)) (-2).
Proof.
  unfold Dec.rescale_half_up, half_up_cents.
  destruct (Dec.exp d >=? -2) eqn:E.
  - replace (Dec.exp d - -2) with (Dec.exp d + 2) by lia. done.
  - rewrite Z.geb_leb in E. apply Z.leb_gt in E.
    rewrite round_half_up_floor by lia. done.
Qed.

Lemma half_up_cents_zero e : half_up_cents 0 e = 0.
Proof. unfold half_up_cents. destruct (e >=? -2); simpl; lia. Qed.

Lemma half_up_cents_bound c e :
  c <> 0 -> Z.abs (half_up_cents c e) < 10 ^ 28 ->
  e < 26 /\ Z.abs c < 10 ^ (26 - e).
Proof.
  intros Hc. unfold half_up_cents. destruct (e >=? -2) eqn:E.
  - apply Z.geb_le in E. rewrite Z.abs_mul.
    assert (HT : 0 < 10 ^ (e + 2)) by (apply Z.pow_pos_nonneg; lia).
    rewrite (Z.abs_eq (10 ^ (e + 2))) by lia. intros H.
    assert (He : e < 26).
    { destruct (Z.lt_ge_cases e 26) as [?|Hge]; [done|].
      assert (10 ^ 28 <= 10 ^ (e + 2)) by (apply Z.pow_le_mono_r; lia). nia. }
    split; [done|].
    assert (Hsplit : 10 ^ 28 = 10 ^ (26 - e) * 10 ^ (e + 2)).
    { rewrite <- Z.pow_add_r by lia. f_equal. lia. }
    rewrite Hsplit in H. nia.
  - rewrite Z.geb_leb in E. apply Z.leb_gt in E. intros H. split; [lia|].
    set (T := 10 ^ (-2 - e)) in *.
    assert (HT : 0 < T) by (apply Z.pow_pos_nonneg; lia).
    assert (Hsplit : 10 ^ (26 - e) = 10 ^ 28 * T).
    { unfold T. rewrite <- Z.pow_add_r by lia. f_equal. lia. }
    rewrite Hsplit.
    rewrite Z.abs_mul in H.
    assert (Z.abs (Z.sgn c) = 1) as Hs by lia. rewrite Hs, Z.mul_1_l in H.
    assert (Hq : 0 <= (2 * Z.abs c + T) / (2 * T)) by (apply Z.div_pos; lia).
    rewrite Z.abs_eq in H by done.
    destruct (Z.lt_ge_cases (Z.abs c) (10 ^ 28 * T)) as [?|Hge]; [done|].
    exfalso.
    assert (10 ^ 28 <= (2 * Z.abs c + T) / (2 * T)); [|lia].
    apply Z.div_le_lower_bound; lia.
Qed.

(** [quantize] to cents rounds half up and keeps the sign, as long as the
    result has no more than 28 digits. *)
Lemma quantize_cents_half_up d :
  Z.abs (half_up_cents (Dec.coef d) (Dec.exp d)) < 10 ^ 28 ->
  Dec.quantize_cents d
  = Ret (Dec.make (Dec.sign d) (half_up_cents (Dec.coef d) (Dec.exp d)) (-2)).
Proof.
  intros Hcents. unfold Dec.quantize_cents, Dec.quantize.
  replace (negb _) with false by (vm_compute; reflexivity).
  unfold Dec.is_zero.
  destruct (Dec.coef d =? 0) eqn:E0.
  { apply Z.eqb_eq in E0. rewrite E0, half_up_cents_zero.
    apply fix_make_small; [simpl; lia | vm_compute; split; discriminate]. }
  apply Z.eqb_neq in E0.
  destruct (half_up_cents_bound _ _ E0 Hcents) as [He Hlt].
  assert (Hd : ndigits (Dec.coef d) <= 26 - Dec.exp d)
    by (apply ndigits_le; [done | lia | done]).
  pose proof (ndigits_pos (Dec.coef d)) as Hd1.
  rewrite rescale_half_up_spec.
  unfold Dec.adjusted. rewrite coef_make, exp_make. unfold Dec.Emax, Dec.prec.
  destruct (Dec.exp d + ndigits (Dec.coef d) - 1 >? 999999) eqn:E1;
    [apply Z.gtb_lt in E1; lia|].
  destruct (Dec.exp d + ndigits (Dec.coef d) - 1 - -2 + 1 >? 28) eqn:E2;
    [apply Z.gtb_lt in E2; lia|].
  pose proof (ndigits_le_prec _ Hcents) as Hd2.
  destruct (-2 + ndigits (half_up_cents (Dec.coef d) (Dec.exp d)) - 1 >? 999999)
    eqn:E3; [apply Z.gtb_lt in E3; lia|].
  destruct (ndigits (half_up_cents (Dec.coef d) (Dec.exp d)) >? 28) eqn:E4;
    [apply Z.gtb_lt in E4; lia|].
  apply fix_make_small; [done | vm_compute; split; discriminate].
Qed.

(** Whatever [quantize] returns for the target [0.01] has exponent -2 and
    fits the precision. *)
Lemma quantize_cents_shape d t :
  Dec.quantize_cents d = Ret t -> Dec.exp t = -2 /\ Z.abs (Dec.coef t) < 10 ^ 28.
Proof.
  unfold Dec.quantize_cents, Dec.quantize.
  destruct (negb _); [done|].
  destruct (Dec.is_zero d).
  { rewrite fix_make_small; [| simpl; lia | vm_compute; split; discriminate].
    intros [= <-]. rewrite coef_make, exp_make. simpl. lia. }
  destruct (Dec.adjusted d >? Dec.Emax); [done|].
  destruct (_ >? Dec.prec); [done|].
  rewrite rescale_half_up_spec.
  set (h := half_up_cents (Dec.coef d) (Dec.exp d)).
  destruct (Dec.adjusted _ >? Dec.Emax); [done|].
  rewrite coef_make.
  destruct (ndigits h >? Dec.prec) eqn:E; [done|].
  rewrite Z.gtb_ltb in E. apply Z.ltb_ge in E. unfold Dec.prec in E.
  assert (Hc : Z.abs h < 10 ^ 28).
  { destruct (Z.eq_dec h 0) as [->|Hn]; [simpl; lia|].
    apply ndigits_le; [done | lia | done]. }
  rewrite fix_make_small; [| done | vm_compute; split; discriminate].
  intros [= <-]. rewrite coef_make, exp_make. done.
Qed.

Lemma quantize_cents_id c :
  Z.abs c < 10 ^ 28 -> Dec.quantize_cents (Dec.mk c (-2)) = Ret (Dec.mk c (-2)).
Proof.
  intros Hc.
  assert (Hh : half_up_cents c (-2) = c).
  { unfold half_up_cents. simpl. lia. }
  rewrite quantize_cents_half_up; cbn [Dec.coef Dec.exp Dec.sign];
    rewrite Hh; [|done].
  f_equal. apply make_mk. intros H%Z.ltb_lt. lia.
Qed.

(** Quantizing a number of cents again changes nothing. *)
Lemma quantize_cents_same t :
  Dec.exp t = -2 -> Z.abs (Dec.coef t) < 10 ^ 28 -> Dec.quantize_cents t = Ret t.
Proof.
  destruct t as [c e|e]; cbn [Dec.coef Dec.exp]; intros -> Hc.
  - by apply quantize_cents_id.
  - vm_compute. reflexivity.
Qed.

(** ** Line totals *)

Lemma mul_of_int p q :
  Dec.mul p (Dec.of_int q)
  = Dec.fix_ (Dec.make (xorb (Dec.sign p) (q <? 0)) (Dec.coef p * q) (Dec.exp p)).
Proof.
  unfold Dec.mul, Dec.of_int. cbn [Dec.coef Dec.exp Dec.sign].
  by rewrite Z.add_0_r.
Qed.

(** The line total of a product that is zero is a zero with the sign of
    the product, whatever the exponent. *)
Lemma line_total_of_zero p q :
  Dec.coef p * q = 0 ->
  line_total_of p q = Ret (Dec.make (xorb (Dec.sign p) (q <? 0)) 0 (-2)).
Proof.
  intros H0. unfold line_total_of. rewrite mul_of_int, H0.
  destruct (fix_zero (xorb (Dec.sign p) (q <? 0)) (Dec.exp p)) as [e' ->].
  cbn [bind]. rewrite quantize_cents_half_up; rewrite coef_make, exp_make,
    half_up_cents_zero; [|simpl; lia].
  rewrite sign_make. cbn [Z.eqb Z.ltb Z.compare orb]. by rewrite andb_true_r.
Qed.

Lemma line_total_of_exact (p : Dec.t) (q : Z) :
  Z.abs (Dec.coef p * q) < 10 ^ 28 ->
  Dec.Etiny <= Dec.exp p ->
  Z.abs (half_up_cents (Dec.coef p * q) (Dec.exp p)) < 10 ^ 28 ->
  line_total_of p q
  = Ret (Dec.make (xorb (Dec.sign p) (q <? 0))
           (half_up_cents (Dec.coef p * q) (Dec.exp p)) (-2)).
Proof.
  intros Hfit Hexp Hcents.
  destruct (Z.eq_dec (Dec.coef p * q) 0) as [H0|H0].
  { rewrite line_total_of_zero by done. by rewrite H0, half_up_cents_zero. }
  destruct (half_up_cents_bound _ _ H0 Hcents) as [He Hlt].
  unfold line_total_of. rewrite mul_of_int.
  rewrite fix_make_small; [| done | unfold Dec.Etop, Dec.Emax, Dec.prec; lia].
  cbn [bind].
  rewrite quantize_cents_half_up; rewrite coef_make, exp_make; [|done].
  rewrite sign_make, (sign_mul p q H0).
  rewrite (proj2 (Z.eqb_neq _ _) H0), andb_false_r, orb_false_r. done.
Qed.


(** Beyond 10^26 there is no line total at all: for the float price 1e26
    the quantization raises. *)
Lemma line_total_out_of_range :
  Float.to_decimal (Float.of_ratio (10 ^ 26) 1)
  = Some (Dec.mk 100000000000000004764729344 0) /\
  line_total_of (Dec.mk 100000000000000004764729344 0) 1 = Exc InvalidOperation.
Proof. split; vm_compute; reflexivity. Qed.

(** ** Subtotals *)

Lemma sum_abs_coef_nonneg ts : 0 <= sum_abs_coef ts.
Proof. induction ts as [|t ts IH]; simpl; lia. Qed.

Lemma sum_coef_abs ts : Z.abs (sum_coef ts) <= sum_abs_coef ts.
Proof. unfold sum_coef, sum_abs_coef. induction ts as [|t ts IH]; simpl; lia. Qed.

Lemma line_total_shape heap it t :
  line_total heap it = Ret t -> Dec.exp t = -2 /\ Z.abs (Dec.coef t) < 10 ^ 28.
Proof.
  unfold line_total, line_total_of. destruct (heap !! product it); [|done].
  destruct (Dec.mul _ _); [|done]. cbn [bind]. apply quantize_cents_shape.
Qed.

(** Adding a number of cents [t], negative zero included, to a number of
    cents that is not a negative zero. *)
Lemma add_cents a t :
  Dec.exp t = -2 -> Z.abs (a + Dec.coef t) < 10 ^ 28 ->
  Dec.add (Dec.mk a (-2)) t = Ret (Dec.mk (a + Dec.coef t) (-2)).
Proof.
  intros He H. unfold Dec.add. rewrite He. cbn [Dec.coef Dec.exp Dec.sign].
  replace (Z.min (-2) (-2)) with (-2) by reflexivity.
  replace (a * 10 ^ (-2 - -2) + Dec.coef t * 10 ^ (-2 - -2))
    with (a + Dec.coef t) by (simpl; lia).
  rewrite make_mk.
  - apply fix_small; [done | vm_compute; split; discriminate].
  - intros [Ha Ht]%andb_true_iff. apply Z.ltb_lt in Ha.
    apply sign_coef in Ht. lia.
Qed.

Lemma add_zero_cents t :
  Dec.exp t = -2 -> Z.abs (Dec.coef t) < 10 ^ 28 ->
  Dec.add (Dec.of_int 0) t = Ret (Dec.mk (Dec.coef t) (-2)).
Proof.
  intros He H. unfold Dec.add, Dec.of_int. rewrite He.
  cbn [Dec.coef Dec.exp Dec.sign].
  replace (Z.min 0 (-2)) with (-2) by reflexivity.
  replace (0 * 10 ^ (0 - -2) + Dec.coef t * 10 ^ (-2 - -2))
    with (Dec.coef t) by (simpl; lia).
  change (0 <? 0) with false. cbn [andb]. rewrite make_mk by done.
  apply fix_small; [done | vm_compute; split; discriminate].
Qed.

Lemma sum_line_totals_exact heap items ts acc a :
  mapM (line_total heap) items = Ret ts ->
  acc_cents acc a ->
  Z.abs a + sum_abs_coef ts < 10 ^ 28 ->
  exists st, sum_line_totals heap items acc = Ret st /\
             acc_cents st (a + sum_coef ts) /\
             (items <> [] -> st = Decimal (Dec.mk (a + sum_coef ts) (-2))).
Proof.
  revert ts acc a. induction items as [|it items IH]; intros ts acc a Hm Hacc Hb.
  - simpl in Hm. injection Hm as <-. simpl. exists acc.
    rewrite Z.add_0_r. done.
  - simpl in Hm. destruct (line_total heap it) as [t|] eqn:Ht; [|done].
    cbn [bind] in Hm.
    destruct (mapM (line_total heap) items) as [ts'|] eqn:Hm'; [|done].
    cbn [bind] in Hm. injection Hm as <-.
    destruct (line_total_shape _ _ _ Ht) as [He Hc].
    set (b := Dec.coef t) in *.
    cbn [sum_abs_coef foldr] in Hb. fold (sum_abs_coef ts') in Hb. fold b in Hb.
    pose proof (sum_abs_coef_nonneg ts') as Hnn.
    assert (Hadd : number_add acc t = Ret (Decimal (Dec.mk (a + b) (-2)))).
    { unfold number_add. destruct Hacc as [[-> ->] | ->]; cbn [to_decimal].
      - rewrite add_zero_cents by (done || lia). done.
      - rewrite add_cents by (done || lia). done. }
    cbn [sum_line_totals]. rewrite Ht. cbn [bind]. rewrite Hadd. cbn [bind].
    destruct (IH ts' (Decimal (Dec.mk (a + b) (-2))) (a + b) eq_refl)
      as (st & Hst & Hacc' & Hne); [by right | lia |].
    exists st. cbn [sum_coef foldr]. fold b.
    fold (sum_coef ts'). rewrite Z.add_assoc. split; [done|]. split; [done|].
    intros _. destruct items as [|it' items'].
    + simpl in Hm'. injection Hm' as <-. simpl in *. injection Hst as <-.
      rewrite Z.add_0_r. done.
    + apply Hne. done.
Qed.

Lemma sum_line_totals_decimal heap items acc st :
  sum_line_totals heap items acc = Ret st ->
  items <> [] \/ (exists d, acc = Decimal d) -> exists d, st = Decimal d.
Proof.
  revert acc. induction items as [|it items IH]; intros acc Hs Hor.
  - simpl in Hs. injection Hs as <-. destruct Hor as [?|?]; done.
  - cbn [sum_line_totals] in Hs. destruct (line_total heap it); [|done].
    cbn [bind] in Hs. unfold number_add in Hs.
    destruct (Dec.add (to_decimal acc) a) as [r|]; [|done]. cbn [bind] in Hs.
    apply (IH _ Hs). right. eauto.
Qed.

(** C6, as the code has it.  When the line totals of the cart add up, in
    absolute value, to less than 10^26 (28 digits of cents), the subtotal
    is the exact sum of the already rounded line totals, and quantizing
    it again half up to 2 decimals, as every display of it does, leaves
    it unchanged.  The cart 19.99 x 3 and 45.25 x 1 of the catalogue has
    subtotal exactly 105.22. *)
Theorem subtotal_is_sum_of_line_totals (s : StoreApp) (ts : list Dec.t) :
  (mapM (line_total (products s)) (dict_values (cart s)) = Ret ts ->
   sum_abs_coef ts < 10 ^ 28 ->
   exists st,
     subtotal s = Ret st /\
     (cart s <> [] -> st = Decimal (Dec.mk (sum_coef ts) (-2))) /\
     (cart s = [] -> st = Int 0) /\
     Dec.quantize_cents (to_decimal st) = Ret (Dec.mk (sum_coef ts) (-2))) /\
  (let s2 := final (add_to_cart 4 1 (final (add_to_cart 0 3 sample_app))) in
   mapM (line_total (products s2)) (dict_values (cart s2))
   = Ret [Dec.mk 5997 (-2); Dec.mk 4525 (-2)] /\
   subtotal s2 = Ret (Decimal (Dec.mk 10522 (-2))) /\
   cart_window_subtotal s2 = Ret "Subtotal: $105.22").
Proof.
  split; [|repeat split; vm_compute; reflexivity].
  intros Hm Hb. unfold subtotal.
  destruct (sum_line_totals_exact _ _ ts (Int 0) 0 Hm) as (st & Hst & Hacc & Hne).
  { by left. } { simpl. lia. }
  rewrite Z.add_0_l in *. exists st. split; [done|].
  assert (Habs : Z.abs (sum_coef ts) < 10 ^ 28).
  { pose proof (sum_coef_abs ts). lia. }
  split; [|split].
  - intros Hc. apply Hne. unfold dict_values. destruct (cart s); done.
  - intros Hc. rewrite Hc in Hst. simpl in Hst. by injection Hst as <-.
  - destruct Hacc as [[-> Hz] | ->]; cbn [to_decimal].
    + rewrite Hz. vm_compute. reflexivity.
    + by apply quantize_cents_id.
Qed.

Lemma subtotal_is_sum_of_line_totals_witness :
  exists st, subtotal (final (add_to_cart 0 3 sample_app)) = Ret st /\
             Dec.quantize_cents (to_decimal st) = Ret (Dec.mk 5997 (-2)).
Proof.
  destruct (subtotal_is_sum_of_line_totals (final (add_to_cart 0 3 sample_app))
              [Dec.mk 5997 (-2)]) as [H _].
  destruct H as (st & H1 & _ & _ & H2);
    [vm_compute; reflexivity | vm_compute; reflexivity |].
  exists st. split; [exact H1 | exact H2].
Defined.

(** C6, counterexample: both line totals are exact, their sum has 29
    digits; the subtotal is the sum rounded to 28 digits and quantizing
    it to 2 decimals raises. *)
Lemma subtotal_beyond_precision :
  mapM (line_total (products big_app)) (dict_values (cart big_app))
  = Ret [big_price; big_price] /\
  subtotal big_app = Ret (Decimal (Dec.mk (2 * 10 ^ 27) (-1))) /\
  (2 * 10 ^ 27) * 10 <> 2 * (10 ^ 28 - 1) /\
  cart_window_subtotal big_app = Exc InvalidOperation.
Proof. repeat split; vm_compute; (reflexivity || discriminate). Qed.

(** ** A checkout that goes through *)

Lemma set_stock_set_stock a b p : set_stock a (set_stock b p) = set_stock a p.
Proof. done. Qed.

Lemma reduce_stock_lookup items heap l :
  reduce_stock items heap !! l
  = (fun p => set_stock (stock p - purchased items l) p) <$> heap !! l.
Proof.
  unfold reduce_stock. revert heap.
  induction items as [|it items IH]; intros heap.
  - simpl. destruct (heap !! l) as [p|]; [|done]. simpl.
    rewrite Z.sub_0_r. by destruct p.
  - cbn [fold_left]. rewrite IH. cbn [purchased foldr]. fold (purchased items l).
    destruct (decide (product it = l)) as [->|Hne].
    + rewrite list_lookup_alter_eq. destruct (heap !! l) as [p|]; [|done].
      simpl. unfold set_stock. simpl. do 2 f_equal. lia.
    + rewrite list_lookup_alter_ne by done. rewrite Z.add_0_l. done.
Qed.

Lemma purchased_absent items l :
  l ∉ (product <$> items) -> purchased items l = 0.
Proof.
  induction items as [|it items IH]; [done|]. cbn [fmap list_fmap].
  intros Hn. apply not_elem_of_cons in Hn as [Hne Hn].
  cbn [purchased foldr]. fold (purchased items l). rewrite (IH Hn).
  destruct (decide (product it = l)); [congruence | lia].
Qed.

Lemma purchased_once items it :
  NoDup (product <$> items) -> it ∈ items ->
  purchased items (product it) = qty it.
Proof.
  induction items as [|it0 items IH]; intros Hnd Hin.
  - by apply elem_of_nil in Hin.
  - cbn [fmap list_fmap] in Hnd. apply NoDup_cons in Hnd as [Hn Hnd].
    cbn [purchased foldr]. fold (purchased items (product it)).
    apply elem_of_cons in Hin as [->|Hin].
    + rewrite (purchased_absent _ _ Hn).
      destruct (decide (product it0 = product it0)); [lia | done].
    + rewrite (IH Hnd Hin).
      destruct (decide (product it0 = product it)) as [Heq|Hne]; [|lia].
      exfalso. apply Hn. rewrite Heq. by apply list_elem_of_fmap_2.
Qed.

(** Under the invariant two entries never refer to the same product. *)
Lemma ledger_inv_refs s :
  ledger_inv s -> NoDup (product <$> dict_values (cart s)).
Proof.
  intros [Hnd Hin]. apply NoDup_alt. intros i j l Hi Hj.
  unfold dict_values in Hi, Hj. rewrite !list_lookup_fmap in Hi, Hj.
  apply fmap_Some in Hi as (iti & Hi & Hli).
  apply fmap_Some in Hi as ([ki iti'] & Ei & ->).
  apply fmap_Some in Hj as (itj & Hj & Hlj).
  apply fmap_Some in Hj as ([kj itj'] & Ej & ->).
  simpl in Hli, Hlj.
  destruct (Hin ki iti') as (pi & Hpi & Hki & _); [by eapply list_elem_of_lookup_2|].
  destruct (Hin kj itj') as (pj & Hpj & Hkj & _); [by eapply list_elem_of_lookup_2|].
  assert (ki = kj) by congruence.
  eapply (NoDup_lookup _ i j ki Hnd); unfold dict_keys;
    rewrite list_lookup_fmap; [rewrite Ei | rewrite Ej]; simpl; congruence.
Qed.

Lemma open_checkout_window_Some s s1 w :
  open_checkout_window s = (Done s1, Some w) ->
  s1 = s /\ cart s <> [] /\ exists d, w = mkWin (Decimal d) /\
                                       subtotal s = Ret (Decimal d).
Proof.
  unfold open_checkout_window. destruct (cart s) as [|x c] eqn:Hc; [done|].
  destruct (subtotal s) as [st|] eqn:Hs; [|done].
  destruct (fmt_price st); [|done]. intros [= -> <-].
  split; [done|]. split; [done|].
  unfold subtotal in Hs. destruct (sum_line_totals_decimal _ _ _ _ Hs) as [d ->].
  { left. rewrite Hc. done. }
  eauto.
Qed.

Lemma place_order_ok s w name mail addr det tot :
  ~ blank name -> ~ blank mail -> ~ blank addr ->
  order_details s = Ret det -> to_float (win_subtotal w) = Ret tot ->
  exists s',
    place_order w name mail addr WriteOk s = Done s' /\
    orders s' = orders s ++ [mkOrder (strip name) (strip mail) (strip addr) tot det] /\
    cart s' = [] /\
    products s' = reduce_stock (dict_values (cart s)) (products s) /\
    messages s' = messages s ++ [ShowInfo "Order placed"
      ("Thanks " +:+ strip name +:+ "! Your order has been placed.")].
Proof.
  intros Hn Hm Ha Hd Ht. unfold place_order, blank in *.
  rewrite <- is_empty_true in Hn, Hm, Ha.
  destruct (is_empty (strip name)); [done|].
  destruct (is_empty (strip mail)); [done|].
  destruct (is_empty (strip addr)); [done|]. cbn [orb].
  rewrite Hd, Ht. cbn [save_order].
  match goal with
  | |- context [refresh (set_cart [] ?s0)] =>
      destruct (refresh_empty (set_cart [] s0) eq_refl) as [s' Hr];
      pose proof (data_of_refresh s0 []) as Hdata
  end.
  rewrite Hr in *. exists s'. split; [done|]. cbn [final] in Hdata.
  destruct Hdata as (Hp & Hc & Ho & Hmsg). rewrite Hp, Hc, Ho, Hmsg. done.
Qed.

(** C1, as the code has it.  Take a cart that satisfies the invariant, a
    checkout window opened on it (so the cart is not empty) and a form
    whose three fields are not blank.  If the order details can be
    formatted and the write succeeds, [place_order] returns normally and
    appends exactly one order, whose total is the double nearest to the
    subtotal of the cart; the stock of the product of every cart entry is
    reduced by the quantity of that entry, the stock of every other
    product is unchanged, and the cart is empty afterwards. *)
Theorem checkout_success (s : StoreApp) (w : CheckoutWin)
    (name mail addr det : string) :
  ledger_inv s ->
  open_checkout_window s = (Done s, Some w) ->
  ~ blank name -> ~ blank mail -> ~ blank addr ->
  order_details s = Ret det ->
  exists d s',
    subtotal s = Ret (Decimal d) /\
    place_order w name mail addr WriteOk s = Done s' /\
    checkout name mail addr WriteOk s = Done s' /\
    orders s' = orders s ++ [mkOrder (strip name) (strip mail) (strip addr)
                               (Float.of_decimal d) det] /\
    cart s' = [] /\
    (forall k it, (k, it) ∈ cart s ->
       exists p, products s !! product it = Some p /\ pid p = k /\
                 products s' !! product it = Some (set_stock (stock p - qty it) p)) /\
    (forall l, l ∉ (product <$> dict_values (cart s)) ->
       products s' !! l = products s !! l).
Proof.
  intros Hinv Hopen Hn Hm Ha Hd.
  destruct (open_checkout_window_Some _ _ _ Hopen) as (_ & Hne & d & -> & Hsub).
  destruct (place_order_ok s (mkWin (Decimal d)) name mail addr det
              (Float.of_decimal d) Hn Hm Ha Hd eq_refl)
    as (s' & Hpo & Ho & Hc & Hp & _).
  exists d, s'. split; [done|]. split; [done|].
  split; [unfold checkout; rewrite Hopen; done|].
  split; [done|]. split; [done|]. split.
  - intros k it Hin. destruct Hinv as [Hnd Hall].
    destruct (Hall k it Hin) as (p & Hlp & Hid & _).
    exists p. split; [done|]. split; [done|].
    rewrite Hp, reduce_stock_lookup, Hlp. simpl.
    rewrite purchased_once; [done | by apply ledger_inv_refs |].
    unfold dict_values. change it with (snd (k, it)). by apply list_elem_of_fmap_2.
  - intros l Hl. rewrite Hp, reduce_stock_lookup, purchased_absent by done.
    destruct (products s !! l) as [p|]; [|done]. simpl.
    rewrite Z.sub_0_r. by destruct p.
Qed.

Lemma checkout_success_witness :
  exists s',
    checkout "Ann" "a@b.c" "1 Main St" WriteOk (final (add_to_cart 0 3 sample_app))
    = Done s' /\ cart s' = [] /\
    orders s' = [mkOrder "Ann" "a@b.c" "1 Main St"
                   (Float.of_decimal (Dec.mk 5997 (-2)))
                   "3x Classic White T-Shirt @ $19.99 = $59.97"].
Proof.
  destruct (checkout_success (final (add_to_cart 0 3 sample_app))
              (mkWin (Decimal (Dec.mk 5997 (-2)))) "Ann" "a@b.c" "1 Main St"
              "3x Classic White T-Shirt @ $19.99 = $59.97")
    as (d & s' & Hsub & _ & Hco & Ho & Hc & _).
  - apply add_to_cart_inv; apply sample_app_ok.
  - vm_compute. reflexivity.
  - vm_compute. discriminate.
  - vm_compute. discriminate.
  - vm_compute. discriminate.
  - vm_compute. reflexivity.
  - exists s'. split; [exact Hco|]. split; [exact Hc|].
    assert (d = Dec.mk 5997 (-2)) as ->.
    { assert (Hs : subtotal (final (add_to_cart 0 3 sample_app))
                   = Ret (Decimal (Dec.mk 5997 (-2)))) by (vm_compute; reflexivity).
      rewrite Hs in Hsub. injection Hsub as <-. reflexivity. }
    exact Ho.
Defined.

(** C1, counterexample: three T-shirts.  The subtotal is the decimal
    59.97; the total of the order written is the double
    8440027176669020 * 2^-47, which is not equal to 59.97. *)
Lemma persisted_total_differs_from_subtotal :
  let s := final (add_to_cart 0 3 sample_app) in
  subtotal s = Ret (Decimal (Dec.mk 5997 (-2))) /\
  exists s' o,
    checkout "Ann" "a@b.c" "1 Main St" WriteOk s = Done s' /\
    orders s' = [o] /\
    total o = Float.Finite 8440027176669020 (-47) /\
    ~ float_equals_decimal (total o) (Dec.mk 5997 (-2)).
Proof.
  split; [vm_compute; reflexivity|].
  eexists. eexists. split; [vm_compute; reflexivity|].
  split; [reflexivity|]. split; [reflexivity|].
  vm_compute. discriminate.
Qed.

(** The subtotal is the one of the moment the checkout window was opened.
    The window is not modal: when the cart changes before "Place Order",
    the order keeps the old total while details and stock follow the new
    cart, and an emptied cart still produces an order. *)
Lemma place_order_uses_the_subtotal_of_the_form :
  let s0 := final (add_to_cart 0 1 sample_app) in
  let w := mkWin (Decimal (Dec.mk 1999 (-2))) in
  open_checkout_window s0 = (Done s0, Some w) /\
  (let s1 := final (add_to_cart 4 1 s0) in
   subtotal s1 = Ret (Decimal (Dec.mk 6524 (-2))) /\
   exists s',
     place_order w "Ann" "a@b.c" "1 Main St" WriteOk s1 = Done s' /\
     (total <$> orders s') = [Float.of_decimal (Dec.mk 1999 (-2))] /\
     (stock <$> products s') = [24; 10; 40; 8; 14; 50]) /\
  (let s1 := final (remove_item (Some 1) s0) in
   cart s1 = [] /\
   exists s',
     place_order w "Ann" "a@b.c" "1 Main St" WriteOk s1 = Done s' /\
     (total <$> orders s') = [Float.of_decimal (Dec.mk 1999 (-2))] /\
     (details <$> orders s') = [""]).
Proof.
  split; [vm_compute; reflexivity|]. split.
  - split; [vm_compute; reflexivity|]. eexists.
    split; [vm_compute; reflexivity|]. split; vm_compute; reflexivity.
  - split; [vm_compute; reflexivity|]. eexists.
    split; [vm_compute; reflexivity|]. split; vm_compute; reflexivity.
Qed.

(** ** "Place Order" on an emptied cart *)

Lemma order_details_empty s : cart s = [] -> order_details s = Ret "".
Proof. intros Hc. unfold order_details. rewrite Hc. reflexivity. Qed.

Lemma place_order_empty_cart s w name mail addr tot :
  cart s = [] -> ~ blank name -> ~ blank mail -> ~ blank addr ->
  to_float (win_subtotal w) = Ret tot ->
  exists s',
    place_order w name mail addr WriteOk s = Done s' /\
    orders s' = orders s ++ [mkOrder (strip name) (strip mail) (strip addr) tot ""] /\
    cart s' = [] /\ products s' = products s.
Proof.
  intros Hc Hn Hm Ha Ht.
  destruct (place_order_ok s w name mail addr "" tot Hn Hm Ha
              (order_details_empty s Hc) Ht) as (s' & Hpo & Ho & Hc' & Hp & _).
  exists s'. rewrite Hc in Hp. done.
Qed.

(** C9, where the code departs from it.  The emptiness of the cart is
    tested when the checkout form is opened and not again: [place_order]
    looks at the three fields only.  The form is not modal, so the cart
    can be emptied while the form is open; "Place Order" on an empty
    cart then goes through and writes an order with empty details and
    the total the form was opened with, where the claim has the checkout
    fail with no order created.  The second part is such a run: three
    T-shirts, the form opened, the entry removed in the cart window,
    then "Place Order". *)
Theorem place_order_on_an_emptied_cart (s : StoreApp) (w : CheckoutWin)
    (name mail addr : string) (tot : Float.t) :
  (cart s = [] -> ~ blank name -> ~ blank mail -> ~ blank addr ->
   to_float (win_subtotal w) = Ret tot ->
   exists s',
     place_order w name mail addr WriteOk s = Done s' /\
     orders s' = orders s ++ [mkOrder (strip name) (strip mail) (strip addr)
                                tot ""]) /\
  (let s0 := final (add_to_cart 0 3 sample_app) in
   let w0 := mkWin (Decimal (Dec.mk 5997 (-2))) in
   open_checkout_window s0 = (Done s0, Some w0) /\
   let s1 := final (remove_item (Some 1) s0) in
   cart s1 = [] /\
   exists s',
     place_order w0 "Ann" "a@b.c" "1 Main St" WriteOk s1 = Done s' /\
     orders s' = [mkOrder "Ann" "a@b.c" "1 Main St"
                    (Float.Finite 8440027176669020 (-47)) ""]).
Proof.
  split.
  - intros Hc Hn Hm Ha Ht.
    destruct (place_order_empty_cart s w name mail addr tot Hc Hn Hm Ha Ht)
      as (s' & Hpo & Ho & _).
    eauto.
  - split; [vm_compute; reflexivity|]. split; [vm_compute; reflexivity|].
    eexists. split; vm_compute; reflexivity.
Qed.

Lemma place_order_on_an_emptied_cart_witness :
  let s1 := final (remove_item (Some 1) (final (add_to_cart 0 3 sample_app))) in
  exists s',
    place_order (mkWin (Decimal (Dec.mk 5997 (-2)))) "Ann" "a@b.c" "1 Main St"
      WriteOk s1 = Done s' /\
    orders s' = orders s1 ++ [mkOrder (strip "Ann") (strip "a@b.c")
                                (strip "1 Main St")
                                (Float.Finite 8440027176669020 (-47)) ""].
Proof.
  intros s1.
  destruct (place_order_on_an_emptied_cart s1
              (mkWin (Decimal (Dec.mk 5997 (-2)))) "Ann" "a@b.c" "1 Main St"
              (Float.Finite 8440027176669020 (-47))) as [H _].
  apply H; try (vm_compute; discriminate); vm_compute; reflexivity.
Defined.

(** ** Conversion to binary64 *)

Lemma div_half_even_nearest a b j :
  0 < b ->
  Z.abs (a - Float.div_half_even a b * b) <= Z.abs (a - j * b).
Proof.
  intros Hb. unfold Float.div_half_even.
  pose proof (Z.div_mod a b ltac:(lia)) as Hdm.
  pose proof (Z.mod_pos_bound a b Hb) as Hr.
  set (q := a / b) in *. set (r := a mod b) in *.
  destruct ((2 * r >? b) || ((2 * r =? b) && Z.odd q)) eqn:E.
  - assert (b <= 2 * r).
    { apply orb_true_iff in E as [E|E].
      - apply Z.gtb_lt in E. lia.
      - apply andb_true_iff in E as [E _]. apply Z.eqb_eq in E. lia. }
    destruct (Z.le_gt_cases j q); nia.
  - assert (2 * r <= b).
    { apply orb_false_iff in E as [E _]. rewrite Z.gtb_ltb in E.
      apply Z.ltb_ge in E. lia. }
    destruct (Z.le_gt_cases j q); nia.
Qed.

Lemma div_half_even_upper a b c :
  0 < b -> a < b * c -> Float.div_half_even a b <= c.
Proof.
  intros Hb Ha. unfold Float.div_half_even.
  assert (a / b < c) by (apply Z.div_lt_upper_bound; lia).
  destruct (_ || _); lia.
Qed.

Lemma div_half_even_nonneg a b : 0 <= a -> 0 < b -> 0 <= Float.div_half_even a b.
Proof.
  intros Ha Hb. unfold Float.div_half_even.
  assert (0 <= a / b) by (apply Z.div_pos; lia).
  destruct (_ || _); lia.
Qed.

Section Rounding.
Variables n d : Z.
Hypothesis Hn : 0 < n.
Hypothesis Hd : 0 < d.

Local Abbreviation N := (n * 2 ^ 1074).
Local Abbreviation s := (Float.shift n d).
Local Abbreviation M := (Float.significand n d).

Lemma rounding_scale : 0 <= s /\ 0 < 2 ^ s /\ 0 < N.
Proof using Hn.
  assert (0 <= s) by (unfold Float.shift; lia).
  split; [done|]. split; [apply Z.pow_pos_nonneg; lia|].
  apply Z.mul_pos_pos; [done | apply Z.pow_pos_nonneg; lia].
Qed.

Lemma rounding_quotient_upper : N < d * 2 ^ s * 2 ^ 53.
Proof using Hn Hd.
  destruct rounding_scale as (Hs & Hps & HN).
  set (Q := N / d).
  assert (HQ : Q < 2 ^ (s + 53)).
  { destruct (Z.eq_dec Q 0) as [->|HQ0]; [apply Z.pow_pos_nonneg; lia|].
    assert (0 < Q).
    { assert (0 <= Q) by (apply Z.div_pos; lia). lia. }
    destruct (Z.log2_spec Q ltac:(lia)) as [_ Hup].
    eapply Z.lt_le_trans; [exact Hup|].
    apply Z.pow_le_mono_r; [lia|]. unfold Float.shift. fold Q. lia. }
  pose proof (Z.div_mod N d ltac:(lia)) as Hdm.
  pose proof (Z.mod_pos_bound N d Hd) as Hr. fold Q in Hdm.
  rewrite <- Z.mul_assoc, <- Z.pow_add_r by lia. nia.
Qed.

Lemma rounding_quotient_lower : 0 < s -> d * 2 ^ s * 2 ^ 52 <= N.
Proof using Hn Hd.
  intros Hs. set (Q := N / d).
  assert (Hlog : s = Z.log2 Q - 52).
  { unfold Float.shift in Hs |- *. fold Q in Hs |- *. lia. }
  assert (0 < Q).
  { destruct (Z.le_gt_cases Q 0) as [Hle|?]; [|done].
    rewrite (Z.log2_nonpos Q Hle) in Hlog. lia. }
  destruct (Z.log2_spec Q ltac:(lia)) as [Hlo _].
  assert (HQ : 2 ^ (s + 52) <= Q).
  { replace (s + 52) with (Z.log2 Q) by lia. done. }
  pose proof (Z.div_mod N d ltac:(lia)) as Hdm.
  pose proof (Z.mod_pos_bound N d Hd) as Hr. fold Q in Hdm.
  rewrite <- Z.mul_assoc, <- Z.pow_add_r by lia. nia.
Qed.

Lemma rounding_significand : 0 <= M <= 2 ^ 53.
Proof using Hn Hd.
  destruct rounding_scale as (Hs & Hps & HN). unfold Float.significand. split.
  - apply div_half_even_nonneg; [lia | apply Z.mul_pos_pos; lia].
  - apply div_half_even_upper; [apply Z.mul_pos_pos; lia|].
    apply rounding_quotient_upper.
Qed.

(** No double is closer to [n / d] than [M * 2^(s - 1074)]. *)
Lemma rounding_nearest m' e' :
  representable m' e' ->
  Z.abs (N - d * (M * 2 ^ s)) <= gap n d m' e'.
Proof using Hn Hd.
  intros [Hm' He']. unfold gap. unfold Float.emin in He'.
  destruct rounding_scale as (Hs & Hps & HN).
  set (s' := e' + 1074).
  assert (Hs' : 0 <= s') by (subst s'; lia).
  assert (Hb : 0 < d * 2 ^ s) by (apply Z.mul_pos_pos; lia).
  destruct (Z.le_gt_cases s s') as [Hle|Hgt].
  - (* the other double is a multiple of 2^s *)
    replace (d * (M * 2 ^ s)) with (M * (d * 2 ^ s)) by ring.
    replace (d * (m' * 2 ^ s')) with (m' * 2 ^ (s' - s) * (d * 2 ^ s)).
    + apply div_half_even_nearest. done.
    + replace s' with ((s' - s) + s) at 2 by lia.
      rewrite Z.pow_add_r by lia. ring.
  - (* the other double is below 2^(s+52) <= n/d *)
    pose proof (rounding_quotient_lower ltac:(lia)) as Hlow.
    assert (Hy : m' * 2 ^ s' < 2 ^ s * 2 ^ 52).
    { assert (0 < 2 ^ s') by (apply Z.pow_pos_nonneg; lia).
      assert (2 ^ s' * 2 <= 2 ^ s).
      { rewrite Z.mul_comm, <- (Z.pow_succ_r 2 s') by lia.
        apply Z.pow_le_mono_r; lia. }
      assert (2 ^ 53 = 2 * 2 ^ 52) by reflexivity. nia. }
    pose proof (div_half_even_nearest N (d * 2 ^ s) (2 ^ 52) Hb) as Hnear.
    replace (d * (M * 2 ^ s)) with (M * (d * 2 ^ s)) by ring.
    eapply Z.le_trans; [exact Hnear|]. nia.
Qed.

Lemma of_pos_ratio_nearest m e :
  Float.of_pos_ratio n d = Float.Finite m e ->
  representable m e /\ 0 <= m /\
  forall m' e', representable m' e' -> gap n d m e <= gap n d m' e'.
Proof using Hn Hd.
  unfold Float.of_pos_ratio.
  destruct rounding_scale as (Hs & Hps & HN).
  pose proof rounding_significand as HM.
  destruct (M =? 2 ^ 53) eqn:E.
  - apply Z.eqb_eq in E.
    destruct (s + Float.emin + 1 >? Float.emax) eqn:Eo; [done|].
    rewrite Z.gtb_ltb in Eo. apply Z.ltb_ge in Eo.
    intros [= <- <-]. unfold Float.emin in *. split; [|split; [lia|]].
    + split; [reflexivity | unfold Float.emin; lia].
    + intros m' e' Hrep. unfold gap at 1.
      replace (2 ^ 52 * 2 ^ (s + -1074 + 1 + 1074)) with (M * 2 ^ s).
      * by apply rounding_nearest.
      * rewrite E. replace (s + -1074 + 1 + 1074) with (s + 1) by lia.
        rewrite Z.pow_add_r by lia. change (2 ^ 53) with (2 ^ 52 * 2 ^ 1). ring.
  - apply Z.eqb_neq in E.
    destruct (s + Float.emin >? Float.emax) eqn:Eo; [done|].
    rewrite Z.gtb_ltb in Eo. apply Z.ltb_ge in Eo.
    intros [= <- <-]. unfold Float.emin in *. split; [|split; [lia|]].
    + split; [lia | unfold Float.emin; lia].
    + intros m' e' Hrep. unfold gap at 1.
      replace (s + -1074 + 1074) with s by lia.
      by apply rounding_nearest.
Qed.

End Rounding.

Lemma gap_opp n d m e : gap (- n) d (- m) e = gap n d m e.
Proof.
  unfold gap.
  replace (- n * 2 ^ 1074 - d * (- m * 2 ^ (e + 1074)))
    with (- (n * 2 ^ 1074 - d * (m * 2 ^ (e + 1074)))) by ring.
  apply Z.abs_opp.
Qed.

Lemma representable_opp m e : representable m e -> representable (- m) e.
Proof. unfold representable. rewrite Z.abs_opp. done. Qed.

(** [Float.of_ratio] rounds to nearest: its result is a double, and no
    double is closer to [n / d]. *)
Lemma of_ratio_nearest n d m e :
  0 < d -> Float.of_ratio n d = Float.Finite m e ->
  representable m e /\
  forall m' e', representable m' e' -> gap n d m e <= gap n d m' e'.
Proof.
  intros Hd. unfold Float.of_ratio.
  destruct (n =? 0) eqn:E0.
  - apply Z.eqb_eq in E0. subst n. intros [= <- <-]. split.
    + split; [reflexivity | unfold Float.emin, Float.emax; lia].
    + intros m' e' _. unfold gap. simpl. lia.
  - apply Z.eqb_neq in E0. destruct (n <? 0) eqn:E1.
    + apply Z.ltb_lt in E1.
      destruct (Float.of_pos_ratio (- n) d) as [m0 e0|] eqn:Hr; [|done].
      simpl. intros [= <- <-].
      destruct (of_pos_ratio_nearest (- n) d ltac:(lia) Hd m0 e0 Hr)
        as (Hrep & _ & Hnear).
      split; [by apply representable_opp|].
      intros m' e' Hrep'.
      rewrite <- (gap_opp n d (- m0) e0), <- (gap_opp n d m' e'), Z.opp_involutive.
      apply Hnear. by apply representable_opp.
    + apply Z.ltb_ge in E1. intros Hr.
      destruct (of_pos_ratio_nearest n d ltac:(lia) Hd m e Hr) as (Hrep & _ & Hnear).
      done.
Qed.

Lemma decimal_den_pos d : 0 < Float.decimal_den d.
Proof.
  unfold Float.decimal_den. destruct (Dec.exp d >=? 0) eqn:E; [lia|].
  rewrite Z.geb_leb in E. apply Z.leb_gt in E. apply Z.pow_pos_nonneg; lia.
Qed.

(** A fraction below 10^26 in absolute value is far from the overflow
    threshold of the format. *)
Lemma of_pos_ratio_finite n d :
  0 < n -> 0 < d -> n < 10 ^ 26 * d ->
  exists m e, Float.of_pos_ratio n d = Float.Finite m e.
Proof.
  intros Hn Hd Hlt. unfold Float.of_pos_ratio.
  assert (Hs : Float.shift n d <= 1108).
  { unfold Float.shift.
    assert (HQ : n * 2 ^ 1074 / d < 2 ^ 1161).
    { apply Z.div_lt_upper_bound; [done|].
      assert (10 ^ 26 < 2 ^ 87) by reflexivity.
      assert (0 < 2 ^ 1074) by (apply Z.pow_pos_nonneg; lia).
      replace (2 ^ 1161) with (2 ^ 87 * 2 ^ 1074)
        by (rewrite <- Z.pow_add_r by lia; reflexivity).
      nia. }
    destruct (Z.le_gt_cases (n * 2 ^ 1074 / d) 0) as [Hle|Hpos].
    - rewrite (Z.log2_nonpos _ Hle). lia.
    - apply Z.log2_lt_pow2 in HQ; lia. }
  unfold Float.emin, Float.emax.
  destruct (Float.significand n d =? 2 ^ 53).
  - destruct (Float.shift n d + -1074 + 1 >? 971) eqn:E; [|eauto].
    apply Z.gtb_lt in E. lia.
  - destruct (Float.shift n d + -1074 >? 971) eqn:E; [|eauto].
    apply Z.gtb_lt in E. lia.
Qed.

Lemma of_ratio_finite n d :
  0 < d -> Z.abs n < 10 ^ 26 * d ->
  exists m e, Float.of_ratio n d = Float.Finite m e.
Proof.
  intros Hd Hlt. unfold Float.of_ratio.
  destruct (n =? 0) eqn:E0; [eauto|]. apply Z.eqb_neq in E0.
  destruct (n <? 0) eqn:E1.
  - apply Z.ltb_lt in E1.
    destruct (of_pos_ratio_finite (- n) d) as (m & e & ->); [lia..|].
    simpl. eauto.
  - apply Z.ltb_ge in E1. apply of_pos_ratio_finite; lia.
Qed.

(** What [quantize] accepts for the target [0.01] is below 10^26. *)
Lemma quantize_cents_magnitude d q :
  Dec.quantize_cents d = Ret q ->
  Z.abs (Float.decimal_num d) < 10 ^ 26 * Float.decimal_den d.
Proof.
  unfold Dec.quantize_cents, Dec.quantize, Float.decimal_num, Float.decimal_den.
  destruct (negb _); [done|]. unfold Dec.is_zero.
  set (c := Dec.coef d). set (e := Dec.exp d).
  destruct (c =? 0) eqn:E0.
  { apply Z.eqb_eq in E0. subst c. intros _.
    destruct (e >=? 0) eqn:E; [simpl; lia|].
    rewrite Z.geb_leb in E. apply Z.leb_gt in E.
    assert (0 < 10 ^ (- e)) by (apply Z.pow_pos_nonneg; lia). simpl. lia. }
  apply Z.eqb_neq in E0.
  destruct (_ >? Dec.Emax); [done|]. unfold Dec.adjusted, Dec.prec.
  fold c e.
  destruct (e + ndigits c - 1 - -2 + 1 >? 28) eqn:E1; [done|]. intros _.
  rewrite Z.gtb_ltb in E1. apply Z.ltb_ge in E1.
  pose proof (ndigits_pos c) as Hd1.
  assert (Hc : Z.abs c < 10 ^ (26 - e)) by (apply ndigits_le; [done | lia | lia]).
  destruct (e >=? 0) eqn:E.
  - apply Z.geb_le in E. rewrite Z.abs_mul, Z.mul_1_r.
    assert (0 < 10 ^ e) by (apply Z.pow_pos_nonneg; lia).
    rewrite (Z.abs_eq (10 ^ e)) by lia.
    replace (10 ^ 26) with (10 ^ (26 - e) * 10 ^ e)
      by (rewrite <- Z.pow_add_r by lia; f_equal; lia).
    nia.
  - rewrite Z.geb_leb in E. apply Z.leb_gt in E.
    replace (10 ^ 26 * 10 ^ (- e)) with (10 ^ (26 - e)); [done|].
    rewrite <- Z.pow_add_r by lia. f_equal; lia.
Qed.

(** C10. A [place_order] that goes through appends an order whose total
    is [float(subtotal)] of the subtotal kept by the checkout window.
    That subtotal is a [Decimal], the one computed when the window was
    opened; the stored total is a finite double and no double is closer
    to the decimal value.  It is not the decimal itself: for the subtotal
    105.22 it is 7404199262373806 * 2^-46, which differs from 105.22. *)
Theorem persisted_total_is_float_of_subtotal (s : StoreApp) (w : CheckoutWin)
    (name mail addr : string) (s' : StoreApp) :
  (~ blank name -> ~ blank mail -> ~ blank addr ->
   place_order w name mail addr WriteOk s = Done s' ->
   exists det tot,
     to_float (win_subtotal w) = Ret tot /\
     orders s' = orders s ++ [mkOrder (strip name) (strip mail) (strip addr)
                                tot det] /\
     forall d, win_subtotal w = Decimal d ->
       tot = Float.of_decimal d /\
       forall m e, tot = Float.Finite m e ->
         representable m e /\
         forall m' e', representable m' e' ->
           gap (Float.decimal_num d) (Float.decimal_den d) m e
           <= gap (Float.decimal_num d) (Float.decimal_den d) m' e') /\
  (forall s0, open_checkout_window s0 = (Done s0, Some w) ->
     exists d m e, win_subtotal w = Decimal d /\ subtotal s0 = Ret (Decimal d) /\
                   Float.of_decimal d = Float.Finite m e) /\
  (Float.of_decimal (Dec.mk 10522 (-2)) = Float.Finite 7404199262373806 (-46) /\
   ~ float_equals_decimal (Float.Finite 7404199262373806 (-46))
       (Dec.mk 10522 (-2))).
Proof.
  split; [|split].
  - intros Hn Hm Ha Hpo.
    destruct (order_details s) as [det|ex] eqn:Hd.
    2:{ revert Hpo. unfold place_order, blank in *.
        rewrite <- is_empty_true in Hn, Hm, Ha.
        destruct (is_empty (strip name)); [done|].
        destruct (is_empty (strip mail)); [done|].
        destruct (is_empty (strip addr)); [done|]. simpl. rewrite Hd. done. }
    destruct (to_float (win_subtotal w)) as [tot|ex] eqn:Ht.
    2:{ revert Hpo. unfold place_order, blank in *.
        rewrite <- is_empty_true in Hn, Hm, Ha.
        destruct (is_empty (strip name)); [done|].
        destruct (is_empty (strip mail)); [done|].
        destruct (is_empty (strip addr)); [done|]. simpl. rewrite Hd, Ht. done. }
    destruct (place_order_ok s w name mail addr det tot Hn Hm Ha Hd Ht)
      as (s1 & Hpo1 & Ho & _).
    rewrite Hpo1 in Hpo. injection Hpo as <-.
    exists det, tot. split; [done|]. split; [done|].
    intros d Hw. rewrite Hw in Ht. simpl in Ht. injection Ht as <-.
    split; [done|]. intros m e Hf.
    apply of_ratio_nearest; [apply decimal_den_pos | done].
  - intros s0 Hopen.
    destruct (open_checkout_window_Some _ _ _ Hopen) as (_ & _ & d & -> & Hsub).
    revert Hopen. unfold open_checkout_window.
    destruct (cart s0); [done|]. rewrite Hsub.
    destruct (fmt_price (Decimal d)) as [txt|] eqn:Hf; [|done]. intros _.
    unfold fmt_price in Hf. cbn [to_decimal] in Hf.
    destruct (Dec.quantize_cents d) as [q|] eqn:Hq; [|done].
    destruct (of_ratio_finite (Float.decimal_num d) (Float.decimal_den d))
      as (m & e & Hfin).
    { apply decimal_den_pos. } { by eapply quantize_cents_magnitude. }
    exists d, m, e. done.
  - split; [vm_compute; reflexivity | vm_compute; discriminate].
Qed.

Lemma persisted_total_is_float_of_subtotal_witness :
  exists s' det,
    place_order (mkWin (Decimal (Dec.mk 5997 (-2)))) "Ann" "a@b.c" "1 Main St"
      WriteOk (final (add_to_cart 0 3 sample_app)) = Done s' /\
    orders s' = [mkOrder "Ann" "a@b.c" "1 Main St"
                   (Float.Finite 8440027176669020 (-47)) det].
Proof.
  destruct (place_order_ok (final (add_to_cart 0 3 sample_app))
              (mkWin (Decimal (Dec.mk 5997 (-2)))) "Ann" "a@b.c" "1 Main St"
              "3x Classic White T-Shirt @ $19.99 = $59.97"
              (Float.Finite 8440027176669020 (-47)))
    as (s' & Hpo & _);
    [vm_compute; discriminate | vm_compute; discriminate
     | vm_compute; discriminate | vm_compute; reflexivity
     | vm_compute; reflexivity |].
  destruct (persisted_total_is_float_of_subtotal
              (final (add_to_cart 0 3 sample_app))
              (mkWin (Decimal (Dec.mk 5997 (-2)))) "Ann" "a@b.c" "1 Main St" s')
    as [H _].
  destruct H as (det & tot & Ht & Ho & _);
    [vm_compute; discriminate | vm_compute; discriminate
     | vm_compute; discriminate | exact Hpo |].
  exists s', det. split; [exact Hpo|].
  assert (tot = Float.Finite 8440027176669020 (-47)) as <-.
  { assert (Hf : to_float (win_subtotal (mkWin (Decimal (Dec.mk 5997 (-2)))))
                 = Ret (Float.Finite 8440027176669020 (-47)))
      by (vm_compute; reflexivity).
    rewrite Hf in Ht. injection Ht as <-. reflexivity. }
  exact Ho.
Defined.


(** ** Line totals beyond the precision *)

Lemma lowest_terms_spec fuel m k :
  0 <= k ->
  0 <= snd (Float.lowest_terms fuel m k) <= k /\
  m = fst (Float.lowest_terms fuel m k)
      * 2 ^ (k - snd (Float.lowest_terms fuel m k)).
Proof.
  revert m k. induction fuel as [|f IH]; intros m k Hk; cbn [Float.lowest_terms].
  - simpl. rewrite Z.sub_diag. simpl. lia.
  - destruct ((0 <? k) && Z.even m) eqn:E.
    + apply andb_true_iff in E as [E1 E2]. apply Z.ltb_lt in E1.
      destruct (IH (m / 2) (k - 1) ltac:(lia)) as [Hb Hm].
      set (r := Float.lowest_terms f (m / 2) (k - 1)) in *.
      split; [lia|].
      replace (k - snd r) with (Z.succ (k - 1 - snd r)) by lia.
      rewrite Z.pow_succ_r by lia.
      apply Zeven_bool_iff, Zeven_div2 in E2.
      rewrite Z.div2_div in E2. lia.
    + simpl. rewrite Z.sub_diag. simpl. lia.
Qed.

Lemma half_up_cents_near C E c :
  E <= 0 ->
  256 * Z.abs (c * 10 ^ (- E) - 100 * C) < 100 * 10 ^ (- E) ->
  half_up_cents C E = c.
Proof.
  intros HE Hnear. unfold half_up_cents.
  destruct (E >=? -2) eqn:Hge.
  - apply Z.geb_le in Hge.
    assert (Hsplit : 100 = 10 ^ (E + 2) * 10 ^ (- E)).
    { rewrite <- Z.pow_add_r by lia. replace (E + 2 + - E) with 2 by lia. done. }
    assert (HT : 0 < 10 ^ (- E)) by (apply Z.pow_pos_nonneg; lia).
    assert (HU : 0 < 10 ^ (E + 2)) by (apply Z.pow_pos_nonneg; lia).
    set (T := 10 ^ (- E)) in *. set (U := 10 ^ (E + 2)) in *.
    assert (Hz : Z.abs (c - C * U) = 0 \/ 1 <= Z.abs (c - C * U)) by lia.
    destruct Hz as [Hz|Hz]; [lia|]. exfalso.
    assert (Heq : c * T - 100 * C = (c - C * U) * T) by (rewrite Hsplit; ring).
    rewrite Heq, Z.abs_mul, (Z.abs_eq T) in Hnear by lia.
    assert (U <= 100) by nia. nia.
  - rewrite Z.geb_leb in Hge. apply Z.leb_gt in Hge.
    assert (Hsplit : 10 ^ (- E) = 100 * 10 ^ (-2 - E)).
    { change 100 with (10 ^ 2). rewrite <- Z.pow_add_r by lia. f_equal. lia. }
    assert (HT : 0 < 10 ^ (-2 - E)) by (apply Z.pow_pos_nonneg; lia).
    rewrite Hsplit in Hnear. set (T := 10 ^ (-2 - E)) in *.
    assert (Hn : 2 * Z.abs (c * T - C) < T).
    { replace (c * (100 * T) - 100 * C) with (100 * (c * T - C)) in Hnear by ring.
      rewrite Z.abs_mul in Hnear. simpl Z.abs in Hnear. lia. }
    destruct (Z.lt_trichotomy C 0) as [HC|[->|HC]].
    + rewrite (Z.sgn_neg C HC), (Z.abs_neq C) by lia.
      assert ((2 * - C + T) / (2 * T) = - c); [|lia].
      symmetry. apply (Z.div_unique _ _ _ (2 * - C + T - 2 * T * - c)); lia.
    + simpl. rewrite Z.sub_0_r, Z.abs_mul, (Z.abs_eq T) in Hn by lia. nia.
    + rewrite (Z.sgn_pos C HC), (Z.abs_eq C) by lia.
      assert ((2 * C + T) / (2 * T) = c); [|lia].
      symmetry. apply (Z.div_unique _ _ _ (2 * C + T - 2 * T * c)); lia.
Qed.

Lemma to_decimal_dyadic m e d :
  Float.emin <= e ->
  Float.to_decimal (Float.Finite m e) = Some d ->
  exists n k, 0 <= k <= 1074 /\ d = Dec.mk (n * 5 ^ k) (- k) /\
              m * 2 ^ (e + 1074) = n * 2 ^ (1074 - k).
Proof.
  unfold Float.emin. intros He. cbn [Float.to_decimal].
  destruct (Float.as_integer_ratio m e) as [n k] eqn:Hr. intros [= <-].
  exists n, k. unfold Float.as_integer_ratio in Hr.
  destruct (m =? 0) eqn:E0.
  { apply Z.eqb_eq in E0. injection Hr as <- <-. subst m.
    split; [lia|]. split; [done|]. rewrite !Z.mul_0_l. done. }
  destruct (e >=? 0) eqn:E1.
  { apply Z.geb_le in E1. injection Hr as <- <-.
    split; [lia|]. split; [done|].
    rewrite Z.sub_0_r, Z.pow_add_r by lia. ring. }
  rewrite Z.geb_leb in E1. apply Z.leb_gt in E1.
  destruct (lowest_terms_spec (Z.to_nat (- e)) m (- e) ltac:(lia)) as [Hb Hm].
  rewrite Hr in Hb, Hm. simpl in Hb, Hm.
  split; [lia|]. split; [done|].
  rewrite Hm at 1. rewrite <- Z.mul_assoc, <- Z.pow_add_r by lia.
  do 2 f_equal. lia.
Qed.


















(** The two ways in which the rounding to 28 digits changes a line total:
    it carries the product up onto a half-cent tie, which then rounds up
    (the counterexample above), or, when the 28th digit is the cent, it
    rounds a tie half even where the line total has to round it half
    up. *)
Lemma line_total_crosses_a_tie :
  half_up_cents (round_to_prec (10049999999999999999999999999 * 1)) (-28) = 101 /\
  half_up_cents (10049999999999999999999999999 * 1) (-28) = 100 /\
  line_total_of (Dec.mk 12345678901234567890123456785 (-3)) 1
  = Ret (Dec.mk 1234567890123456789012345678 (-2)) /\
  half_up_cents (12345678901234567890123456785 * 1) (-3)
  = 1234567890123456789012345679.
Proof. repeat split; vm_compute; reflexivity. Qed.

(** * Further properties of the callbacks *)

(** ** What a callback can touch *)

Lemma add_to_cart_frame l q s :
  products (final (add_to_cart l q s)) = products s /\
  orders (final (add_to_cart l q s)) = orders s.
Proof.
  unfold add_to_cart. destruct (products s !! l) as [p|]; [|done].
  destruct (q <=? 0); [done|]. destruct (stock p <? q); [done|].
  destruct (dict_get (pid p) (cart s)) as [it|].
  - destruct (qty it + q >? stock p); [done|].
    destruct (data_of_refresh s (dict_set (pid p)
                (mkCartItem (product it) (qty it + q)) (cart s))) as (-> & _ & -> & _).
    done.
  - destruct (data_of_refresh s (dict_set (pid p) (mkCartItem l q) (cart s)))
      as (-> & _ & -> & _). done.
Qed.

Lemma update_qty_frame sel q s :
  products (final (update_qty sel q s)) = products s /\
  orders (final (update_qty sel q s)) = orders s.
Proof.
  unfold update_qty. destruct sel as [id|]; [|done].
  destruct (dict_get id (cart s)) as [it|]; [|done].
  destruct (products s !! product it) as [prod|]; [|done].
  destruct (q >? stock prod); [done|].
  match goal with
  | |- context [match ?r with Ret _ => _ | Exc _ => _ end] => destruct r
  end; [|done].
  destruct (data_of_refresh s (dict_set id (mkCartItem (product it) q) (cart s)))
    as (-> & _ & -> & _). done.
Qed.

Lemma remove_item_frame sel s :
  products (final (remove_item sel s)) = products s /\
  orders (final (remove_item sel s)) = orders s.
Proof.
  unfold remove_item. destruct sel as [id|]; [|done].
  destruct (dict_del id (cart s)) as [c|]; [|done].
  destruct (data_of_refresh s c) as (-> & _ & -> & _). done.
Qed.

Lemma open_checkout_window_frame s :
  products (final (fst (open_checkout_window s))) = products s /\
  cart (final (fst (open_checkout_window s))) = cart s /\
  orders (final (fst (open_checkout_window s))) = orders s.
Proof.
  unfold open_checkout_window. destruct (cart s) eqn:Hc; [simpl; rewrite Hc; done|].
  rewrite <- Hc. destruct (subtotal s) as [st|]; [|done].
  destruct (fmt_price st); done.
Qed.

(** [place_order] either leaves cart, stock and orders alone, or its
    write went through: then one order is appended, the stock is reduced
    by the cart and the cart is empty. *)
Lemma place_order_shape w name mail addr dbw s :
  let s' := final (place_order w name mail addr dbw s) in
  (products s' = products s /\ cart s' = cart s /\ orders s' = orders s) \/
  (dbw = WriteOk /\ cart s' = [] /\
   products s' = reduce_stock (dict_values (cart s)) (products s) /\
   exists o, orders s' = orders s ++ [o]).
Proof.
  unfold place_order.
  destruct (_ || _); [left; done|].
  destruct (order_details s) as [det|]; [|left; done].
  destruct (to_float (win_subtotal w)) as [tot|]; [|left; done].
  destruct dbw; [|left; done]. right. cbn [save_order].
  match goal with
  | |- context [refresh (set_cart [] ?s0)] =>
      destruct (data_of_refresh s0 []) as (Hp & Hc & Ho & _)
  end.
  cbv zeta. rewrite Hp, Hc, Ho. split; [done|]. split; [done|]. split; [done|].
  eauto.
Qed.

(** X1. Only [place_order] changes stock or orders: a session without it,
    whatever is added, updated, removed or opened, ends with the stock
    and the orders table it started with. *)
Theorem only_place_order_changes_stock_or_orders (acts : list action)
    (s : StoreApp) :
  (forall a, a ∈ acts -> is_place_order a = false) ->
  products (run acts s) = products s /\ orders (run acts s) = orders s.
Proof.
  revert s. induction acts as [|a acts IH]; intros s Hno; [done|].
  assert (Ha : is_place_order a = false) by (apply Hno, elem_of_cons; auto).
  assert (Hstep : products (step a s) = products s /\ orders (step a s) = orders s).
  { destruct a; cbn [step]; try discriminate.
    - apply add_to_cart_frame.
    - apply update_qty_frame.
    - apply remove_item_frame.
    - destruct (open_checkout_window_frame s) as (? & _ & ?). done. }
  destruct Hstep as [Hp Ho]. unfold run. cbn [fold_left]. fold (run acts (step a s)).
  destruct (IH (step a s)) as [-> ->]; [|done].
  intros b Hb. apply Hno, elem_of_cons. auto.
Qed.

Lemma only_place_order_changes_stock_or_orders_witness :
  products (run [AddToCart 0 3; UpdateQty (Some 1) 5; RemoveItem (Some 1);
                 OpenCheckout] sample_app) = products sample_app.
Proof.
  apply (only_place_order_changes_stock_or_orders
           [AddToCart 0 3; UpdateQty (Some 1) 5; RemoveItem (Some 1); OpenCheckout]
           sample_app).
  intros a Ha. repeat (apply elem_of_cons in Ha as [->|Ha]; [reflexivity|]).
  by apply elem_of_nil in Ha.
Defined.

Lemma step_orders a s :
  exists k, orders (step a s) = orders s ++ k /\ (length k <= writes a)%nat.
Proof.
  assert (Hsame : forall s', orders s' = orders s ->
            exists k, orders s' = orders s ++ k /\ (length k <= writes a)%nat).
  { intros s' ->. exists []. rewrite app_nil_r. split; [done | simpl; lia]. }
  destruct a; cbn [step].
  - apply Hsame, add_to_cart_frame.
  - apply Hsame, update_qty_frame.
  - apply Hsame, remove_item_frame.
  - apply Hsame, open_checkout_window_frame.
  - destruct (place_order_shape w name mail addr dbw s)
      as [(_ & _ & Ho)|(-> & _ & _ & o & Ho)].
    + by apply Hsame.
    + exists [o]. split; [done | simpl; lia].
Qed.

(** X2. The orders table only grows: every session leaves the rows that
    were there in place and in order, and appends at most one row for
    each [place_order] whose write goes through. *)
Theorem orders_only_grow (acts : list action) (s : StoreApp) :
  exists k, orders (run acts s) = orders s ++ k /\
            (length k <= sum_list (writes <$> acts))%nat.
Proof.
  revert s. induction acts as [|a acts IH]; intros s.
  - exists []. rewrite app_nil_r. split; [done | simpl; lia].
  - unfold run. cbn [fold_left]. fold (run acts (step a s)).
    destruct (step_orders a s) as (k1 & Hk1 & Hl1).
    destruct (IH (step a s)) as (k2 & Hk2 & Hl2).
    exists (k1 ++ k2). rewrite Hk2, Hk1, <- app_assoc. split; [done|].
    rewrite length_app. simpl. unfold fmap in Hl2. lia.
Qed.

(** ** The invariant along a session *)

Lemma unique_ids_same_products s s' :
  products s' = products s -> unique_ids s -> unique_ids s'.
Proof. unfold unique_ids. intros ->. done. Qed.

Lemma nonneg_stock_same_products s s' :
  products s' = products s -> nonneg_stock s -> nonneg_stock s'.
Proof. unfold nonneg_stock. intros ->. done. Qed.

Lemma reduce_stock_unique_ids s s' :
  products s' = reduce_stock (dict_values (cart s)) (products s) ->
  unique_ids s -> unique_ids s'.
Proof.
  intros Hp Hu l1 l2 p1 p2 H1 H2 Hid.
  rewrite Hp, reduce_stock_lookup in H1, H2.
  apply fmap_Some in H1 as (q1 & H1 & ->).
  apply fmap_Some in H2 as (q2 & H2 & ->).
  by apply (Hu l1 l2 q1 q2).
Qed.

Lemma reduce_stock_nonneg s s' :
  products s' = reduce_stock (dict_values (cart s)) (products s) ->
  ledger_inv s -> nonneg_stock s -> nonneg_stock s'.
Proof.
  intros Hp Hinv Hnn p Hin.
  apply list_elem_of_lookup in Hin as [l Hl].
  rewrite Hp, reduce_stock_lookup in Hl.
  apply fmap_Some in Hl as (p0 & Hl & ->). simpl.
  assert (Hp0 : 0 <= stock p0) by (apply Hnn; by eapply list_elem_of_lookup_2).
  destruct (decide (l ∈ product <$> dict_values (cart s))) as [Hr|Hr].
  - apply list_elem_of_fmap in Hr as (it & -> & Hit).
    rewrite purchased_once; [| by apply ledger_inv_refs | done].
    unfold dict_values in Hit.
    apply list_elem_of_fmap in Hit as ([k it'] & -> & Hk). simpl in *.
    destruct Hinv as [_ Hall].
    destruct (Hall k it' Hk) as (p1 & Hp1 & _ & Hq).
    assert (p1 = p0) by congruence. subst p1. lia.
  - rewrite purchased_absent by done. lia.
Qed.

Lemma step_keeps_invariant a s :
  positive_update a ->
  unique_ids s /\ ledger_inv s /\ nonneg_stock s ->
  unique_ids (step a s) /\ ledger_inv (step a s) /\ nonneg_stock (step a s).
Proof.
  intros Hpos (Hu & Hinv & Hnn). destruct a; cbn [step positive_update] in *.
  - destruct (add_to_cart_frame l q s) as [Hp _].
    split; [by eapply unique_ids_same_products|].
    split; [by apply add_to_cart_inv | by eapply nonneg_stock_same_products].
  - destruct (update_qty_frame sel newq s) as [Hp _].
    split; [by eapply unique_ids_same_products|].
    split; [by apply update_qty_inv | by eapply nonneg_stock_same_products].
  - destruct (remove_item_frame sel s) as [Hp _].
    split; [by eapply unique_ids_same_products|].
    split; [by apply remove_item_inv | by eapply nonneg_stock_same_products].
  - destruct (open_checkout_window_frame s) as (Hp & Hc & _).
    split; [by eapply unique_ids_same_products|].
    split; [by eapply ledger_inv_ext | by eapply nonneg_stock_same_products].
  - split; [|split; [by apply place_order_inv|]];
      destruct (place_order_shape w name mail addr dbw s)
        as [(Hp & _ & _)|(_ & _ & Hp & _)].
    + by eapply unique_ids_same_products.
    + by eapply reduce_stock_unique_ids.
    + by eapply nonneg_stock_same_products.
    + by eapply reduce_stock_nonneg.
Qed.

(** X3. Along every session in which [update_qty] is only given positive
    quantities, starting from a state with unique product ids, a cart
    that satisfies the invariant and no negative stock, all three stay
    true: every cart entry has a quantity between 1 and the stock of its
    product, an id has one entry at most, and no stock goes below zero.
    This holds for any interleaving of the callbacks, also for
    [place_order] run from a form opened earlier. *)
Theorem session_keeps_invariant (acts : list action) (s : StoreApp) :
  Forall positive_update acts ->
  unique_ids s -> ledger_inv s -> nonneg_stock s ->
  unique_ids (run acts s) /\ ledger_inv (run acts s) /\
  nonneg_stock (run acts s).
Proof.
  intros Hpos Hu Hinv Hnn.
  assert (H : unique_ids s /\ ledger_inv s /\ nonneg_stock s) by done.
  clear Hu Hinv Hnn. revert s H.
  induction Hpos as [|a acts Ha _ IH]; intros s H; [done|].
  unfold run. cbn [fold_left]. apply IH. by apply step_keeps_invariant.
Qed.

Lemma sample_app_nonneg_stock : nonneg_stock sample_app.
Proof.
  intros p Hin. vm_compute in Hin.
  repeat (apply elem_of_cons in Hin as [->|Hin]; [simpl; lia|]).
  by apply elem_of_nil in Hin.
Qed.

Lemma session_keeps_invariant_witness :
  let s' := run [AddToCart 0 3; AddToCart 4 1; UpdateQty (Some 1) 5;
                 PlaceOrder (mkWin (Int 0)) "Ann" "a@b.c" "1 Main St" WriteOk;
                 AddToCart 0 20] sample_app in
  ledger_inv s' /\ nonneg_stock s'.
Proof.
  intros s'.
  destruct (session_keeps_invariant
              [AddToCart 0 3; AddToCart 4 1; UpdateQty (Some 1) 5;
               PlaceOrder (mkWin (Int 0)) "Ann" "a@b.c" "1 Main St" WriteOk;
               AddToCart 0 20] sample_app) as (_ & H1 & H2).
  - repeat (apply Forall_cons; split; [simpl; first [lia | exact I]|]).
    apply Forall_nil_2.
  - apply sample_app_ok.
  - apply sample_app_ok.
  - apply sample_app_nonneg_stock.
  - split; [exact H1 | exact H2].
Defined.

(** ** How the cart callbacks act on the entries *)

Lemma dict_del_set_absent {V : Type} (k : Z) (v : V) (d : dict V) :
  dict_get k d = None -> dict_del k (dict_set k v d) = Some d.
Proof.
  induction d as [|[k' v'] d IH]; simpl.
  - rewrite Z.eqb_refl. done.
  - destruct (k' =? k) eqn:E; [done|]. intros H. simpl. rewrite E, (IH H). done.
Qed.

Lemma dict_keys_set_prefix {V : Type} (k : Z) (v : V) (d : dict V) :
  dict_keys d `prefix_of` dict_keys (dict_set k v d).
Proof.
  destruct (dict_get k d) eqn:E.
  - rewrite dict_keys_set_present by congruence. done.
  - rewrite dict_keys_set_absent by done. by apply prefix_app_r.
Qed.

(** X4. [update_qty] overwrites: for a selected entry and any quantity
    that the stock of its product covers (zero and negative ones
    included), the entry holds exactly that quantity afterwards and still
    refers to the same product; the other entries, the order of the keys,
    the stock and the message log are unchanged. *)
Theorem update_qty_overwrites (s : StoreApp) (id : Z) (it : CartItem)
    (prod : Product) (newq : Z) :
  dict_get id (cart s) = Some it ->
  products s !! product it = Some prod ->
  newq <= stock prod ->
  let s' := final (update_qty (Some id) newq s) in
  dict_get id (cart s') = Some (mkCartItem (product it) newq) /\
  (forall k, k <> id -> dict_get k (cart s') = dict_get k (cart s)) /\
  dict_keys (cart s') = dict_keys (cart s) /\
  products s' = products s /\ messages s' = messages s.
Proof.
  intros Hg Hp Hq s'.
  assert (Hs' : products s' = products s /\
                cart s' = dict_set id (mkCartItem (product it) newq) (cart s) /\
                orders s' = orders s /\ messages s' = messages s).
  { subst s'. unfold update_qty. rewrite Hg, Hp.
    destruct (newq >? stock prod) eqn:E; [apply Z.gtb_lt in E; lia|].
    match goal with
    | |- context [match ?r with Ret _ => _ | Exc _ => _ end] => destruct r
    end; [apply data_of_refresh | done]. }
  destruct Hs' as (Hp' & Hc' & _ & Hm'). rewrite Hc'.
  split; [apply dict_get_set_eq|].
  split; [intros k Hk; by apply dict_get_set_ne|].
  split; [apply dict_keys_set_present; congruence | done].
Qed.

Lemma update_qty_overwrites_witness :
  dict_get 1 (cart (final (update_qty (Some 1) (-4)
                             (final (add_to_cart 0 3 sample_app)))))
  = Some (mkCartItem 0 (-4)).
Proof.
  apply (update_qty_overwrites (final (add_to_cart 0 3 sample_app)) 1
           (mkCartItem 0 3)
           (mkProduct 1 "Classic White T-Shirt" "Clothing"
              (Dec.mk 19989999999999998436805981327779591083526611328125 (-48))
              25 "100% cotton, comfortable everyday tee.") (-4));
    [vm_compute; reflexivity | vm_compute; reflexivity | simpl; lia].
Defined.

(** X5. [add_to_cart] touches one entry only: whatever the product and the
    quantity, the entries filed under other ids keep their value, the
    keys already in the cart keep their order (a new key goes to the
    end), and an entry that was there is never removed. *)
Theorem add_to_cart_touches_one_entry (s : StoreApp) (l : nat) (p : Product)
    (q : Z) :
  products s !! l = Some p ->
  let s' := final (add_to_cart l q s) in
  (forall k, k <> pid p -> dict_get k (cart s') = dict_get k (cart s)) /\
  dict_keys (cart s) `prefix_of` dict_keys (cart s') /\
  (length (cart s') <= S (length (cart s)))%nat.
Proof.
  intros Hl s'.
  assert (Hc : cart s' = cart s \/
               exists v, cart s' = dict_set (pid p) v (cart s)).
  { subst s'. unfold add_to_cart. rewrite Hl.
    destruct (q <=? 0); [by left|]. destruct (stock p <? q); [by left|].
    destruct (dict_get (pid p) (cart s)) as [it|].
    - destruct (qty it + q >? stock p); [by left|]. right.
      eexists. apply data_of_refresh.
    - right. eexists. apply data_of_refresh. }
  destruct Hc as [->|[v ->]].
  - split; [done|]. split; [done | lia].
  - split; [intros k Hk; by apply dict_get_set_ne|].
    split; [apply dict_keys_set_prefix|].
    pose proof (dict_keys_set_prefix (pid p) v (cart s)) as Hpre.
    destruct (dict_get (pid p) (cart s)) eqn:E.
    + assert (Hk := dict_keys_set_present (pid p) v (cart s)).
      rewrite E in Hk. specialize (Hk ltac:(done)).
      apply (f_equal length) in Hk. unfold dict_keys in Hk.
      rewrite !length_fmap in Hk. lia.
    + assert (Hk := dict_keys_set_absent (pid p) v (cart s) E).
      apply (f_equal length) in Hk. unfold dict_keys in Hk.
      rewrite length_app, !length_fmap in Hk. simpl in Hk. lia.
Qed.

Lemma add_to_cart_touches_one_entry_witness :
  dict_get 1 (cart (final (add_to_cart 4 2 (final (add_to_cart 0 3 sample_app)))))
  = dict_get 1 (cart (final (add_to_cart 0 3 sample_app))).
Proof.
  apply (add_to_cart_touches_one_entry (final (add_to_cart 0 3 sample_app)) 4
           (mkProduct 5 "Bluetooth Speaker" "Electronics" (Dec.mk 4525 (-2)) 15
              "Portable, splash resistant, rich bass.") 2);
    [vm_compute; reflexivity | simpl; lia].
Defined.

(** X6. Adding a product that is not in the cart and removing it again
    gives back the cart as it was, entry for entry and in the same
    order; stock and orders are untouched. *)
Theorem add_then_remove_restores_cart (s : StoreApp) (l : nat) (p : Product)
    (q : Z) :
  products s !! l = Some p ->
  dict_get (pid p) (cart s) = None ->
  0 < q <= stock p ->
  let s' := final (remove_item (Some (pid p)) (final (add_to_cart l q s))) in
  cart s' = cart s /\ products s' = products s /\ orders s' = orders s.
Proof.
  intros Hl Hg Hq s'.
  destruct (add_to_cart_frame l q s) as [Hp1 Ho1].
  destruct (remove_item_frame (Some (pid p)) (final (add_to_cart l q s)))
    as [Hp2 Ho2].
  split; [|subst s'; rewrite Hp2, Ho2; done].
  subst s'. unfold remove_item.
  assert (Hc1 : cart (final (add_to_cart l q s))
                = dict_set (pid p) (mkCartItem l q) (cart s)).
  { rewrite (add_to_cart_new s l p q) by done. apply data_of_refresh. }
  rewrite Hc1, dict_del_set_absent by done. apply data_of_refresh.
Qed.

Lemma add_then_remove_restores_cart_witness :
  cart (final (remove_item (Some 5)
                 (final (add_to_cart 4 2 (final (add_to_cart 0 3 sample_app))))))
  = cart (final (add_to_cart 0 3 sample_app)).
Proof.
  apply (add_then_remove_restores_cart (final (add_to_cart 0 3 sample_app)) 4
           (mkProduct 5 "Bluetooth Speaker" "Electronics" (Dec.mk 4525 (-2)) 15
              "Portable, splash resistant, rich bass.") 2);
    [vm_compute; reflexivity | vm_compute; reflexivity | simpl; lia].
Defined.

(** X7. The "Add to Cart" button of a product card adds one unit per
    click until the stock is reached: after [k >= 1] clicks on a product
    in stock that was not in the cart, its entry holds [min k stock]
    units, and the stock itself has not moved. *)
Theorem card_clicks_fill_up_to_stock (s : StoreApp) (l : nat) (p : Product)
    (k : nat) :
  products s !! l = Some p ->
  dict_get (pid p) (cart s) = None ->
  0 < stock p ->
  (0 < k)%nat ->
  let sk := Nat.iter k (fun s0 => final (card_add_to_cart l s0)) s in
  dict_get (pid p) (cart sk)
  = Some (mkCartItem l (Z.min (Z.of_nat k) (stock p))) /\
  products sk = products s.
Proof.
  intros Hl Hg Hstock Hk. cbv zeta. unfold card_add_to_cart.
  induction k as [|k IH]; [lia|].
  destruct k as [|k].
  - simpl. rewrite (add_to_cart_new s l p 1) by (done || lia).
    destruct (data_of_refresh s (dict_set (pid p) (mkCartItem l 1) (cart s)))
      as (-> & -> & _). split; [|done].
    rewrite dict_get_set_eq. do 2 f_equal. lia.
  - destruct (IH ltac:(lia)) as [Hgk Hpk]. clear IH.
    set (sk := Nat.iter (S k) (fun s0 => final (add_to_cart l 1 s0)) s) in *.
    change (Nat.iter (S (S k)) (fun s0 => final (add_to_cart l 1 s0)) s)
      with (final (add_to_cart l 1 sk)).
    assert (Hlk : products sk !! l = Some p) by (rewrite Hpk; done).
    destruct (add_to_cart_frame l 1 sk) as [Hpf _].
    split; [|rewrite Hpf; done].
    destruct (Z.le_gt_cases (Z.of_nat (S k) + 1) (stock p)) as [Hle|Hgt].
    + rewrite (add_to_cart_more sk l p 1 _ Hlk ltac:(lia) Hgk);
        [| simpl; lia | lia].
      destruct (data_of_refresh sk (dict_set (pid p)
                  (mkCartItem l (Z.min (Z.of_nat (S k)) (stock p) + 1))
                  (cart sk))) as (_ & Hc & _).
      simpl in Hc |- *. rewrite Hc, dict_get_set_eq. do 2 f_equal. lia.
    + destruct (add_to_cart_short sk l p 1 Hlk ltac:(lia)) as [txt ->].
      { right. eexists. split; [exact Hgk | simpl; lia]. }
      simpl. rewrite Hgk. do 2 f_equal. lia.
Qed.

Lemma card_clicks_fill_up_to_stock_witness :
  dict_get 4 (cart (Nat.iter 10 (fun s0 => final (card_add_to_cart 3 s0))
                      sample_app))
  = Some (mkCartItem 3 8).
Proof.
  apply (card_clicks_fill_up_to_stock sample_app 3
           (mkProduct 4 "Running Shoes" "Footwear" (Dec.mk 120 0) 8
              "Lightweight, breathable, great for daily runs.") 10);
    [vm_compute; reflexivity | vm_compute; reflexivity | simpl; lia | lia].
Defined.

(** ** The cart button *)

Lemma refresh_quick_cart_btn s : cart_btn (final (_refresh_quick_cart s)) = cart_btn s.
Proof.
  unfold _refresh_quick_cart.
  destruct (quick_rows (products s) (take 5 (dict_values (cart s))) [])
    as [ws [e|]]; destruct (cart s); done.
Qed.

Lemma refresh_cart_btn_ok s : cart_btn_ok (final (refresh s)).
Proof.
  unfold cart_btn_ok, refresh. rewrite refresh_quick_cart_btn.
  destruct (refresh_quick_cart_data (_update_cart_button s)) as (_ & -> & _).
  done.
Qed.

(** X8. The cart button is kept up to date: if it shows the number of
    units in the cart before, it does so after [add_to_cart],
    [remove_item] and [place_order] however they end, and after an
    [update_qty] that returns; a fresh application shows "Cart (0)". *)
Theorem cart_button_shows_item_count (s : StoreApp) :
  cart_btn_ok s ->
  (forall l q, cart_btn_ok (final (add_to_cart l q s))) /\
  (forall sel, cart_btn_ok (final (remove_item sel s))) /\
  (forall w name mail addr dbw,
     cart_btn_ok (final (place_order w name mail addr dbw s))) /\
  (forall sel q s', update_qty sel q s = Done s' -> cart_btn_ok s') /\
  (forall ps, cart_btn_ok (StoreApp_init ps)).
Proof.
  intros Hok. split; [|split; [|split; [|split]]].
  - intros l q. unfold add_to_cart. destruct (products s !! l) as [p|]; [|done].
    destruct (q <=? 0); [done|]. destruct (stock p <? q); [done|].
    destruct (dict_get (pid p) (cart s)) as [it|].
    + destruct (qty it + q >? stock p); [done | apply refresh_cart_btn_ok].
    + apply refresh_cart_btn_ok.
  - intros sel. unfold remove_item. destruct sel as [id|]; [|done].
    destruct (dict_del id (cart s)); [apply refresh_cart_btn_ok | done].
  - intros w name mail addr dbw. unfold place_order.
    destruct (_ || _); [done|]. destruct (order_details s); [|done].
    destruct (to_float (win_subtotal w)); [|done].
    destruct dbw; [apply refresh_cart_btn_ok | done].
  - intros sel q s'. unfold update_qty. destruct sel as [id|].
    2:{ intros [= <-]. done. }
    destruct (dict_get id (cart s)) as [it|]; [|done].
    destruct (products s !! product it) as [prod|]; [|done].
    destruct (q >? stock prod); [intros [= <-]; done|].
    match goal with
    | |- context [match ?r with Ret _ => _ | Exc _ => _ end] => destruct r
    end; [|done].
    intros Hr. pose proof (refresh_cart_btn_ok
      (set_cart (dict_set id (mkCartItem (product it) q) (cart s)) s)) as H.
    rewrite Hr in H. done.
  - intros ps. reflexivity.
Qed.

Lemma cart_button_shows_item_count_witness :
  cart_btn_ok (final (add_to_cart 0 3 sample_app)).
Proof.
  destruct (cart_button_shows_item_count sample_app) as (H & _);
    [vm_compute; reflexivity | exact (H 0%nat 3)].
Defined.

(** ** The quick cart *)

Lemma fmt_price_line_total heap it t :
  line_total heap it = Ret t ->
  fmt_price (Decimal t) = Ret ("$" +:+ str_decimal t).
Proof.
  intros Ht. destruct (line_total_shape _ _ _ Ht) as [He Hc].
  unfold fmt_price. cbn [to_decimal]. rewrite quantize_cents_same by done. done.
Qed.

Lemma quick_rows_ok heap items ts acc :
  mapM (line_total heap) items = Ret ts ->
  exists ws, quick_rows heap items acc = (acc ++ ws, None) /\
             length ws = (2 * length items)%nat.
Proof.
  revert ts acc. induction items as [|it items IH]; intros ts acc Hm.
  - exists []. rewrite app_nil_r. done.
  - simpl in Hm. destruct (line_total heap it) as [t|] eqn:Ht; [|done].
    cbn [bind] in Hm. destruct (mapM (line_total heap) items) as [ts'|] eqn:Hm';
      [|done].
    cbn [quick_rows].
    assert (Hl : exists p, heap !! product it = Some p).
    { unfold line_total in Ht. destruct (heap !! product it); [eauto | done]. }
    destruct Hl as [p ->]. rewrite Ht. cbn [bind].
    rewrite (fmt_price_line_total heap it t Ht).
    destruct (IH ts' ((acc ++ [Label (str_int (qty it) +:+ String " "
                         (String "215" (String " " (pname p))))])
                      ++ [Label ("$" +:+ str_decimal t)]) eq_refl)
      as (ws & -> & Hlen).
    eexists. rewrite <- !app_assoc. split; [reflexivity|].
    rewrite !length_app, Hlen. simpl. lia.
Qed.

(** X9. The quick cart shows the first five entries at most and never
    fails on line totals that exist: for a cart that is not empty, if the
    line totals of its first five entries can be computed,
    [_refresh_quick_cart] returns with two labels per shown entry
    followed by the "Open Cart" button, and changes no data. *)
Theorem quick_cart_shows_first_five (s : StoreApp) (ts : list Dec.t) :
  cart s <> [] ->
  mapM (line_total (products s)) (take 5 (dict_values (cart s))) = Ret ts ->
  exists s',
    _refresh_quick_cart s = Done s' /\
    length (quick_cart s') = (2 * Nat.min 5 (length (cart s)) + 1)%nat /\
    last (quick_cart s') = Some (Button "Open Cart") /\
    same_data s s'.
Proof.
  intros Hne Hm.
  destruct (quick_rows_ok _ _ ts [] Hm) as (ws & Hq & Hlen).
  pose proof (refresh_quick_cart_data s) as Hdata.
  unfold _refresh_quick_cart in *. rewrite Hq in *.
  destruct (cart s) as [|x c] eqn:Hc; [done|]. rewrite <- Hc in *.
  eexists. split; [reflexivity|]. simpl. rewrite length_app, Hlen.
  rewrite length_take. unfold dict_values. rewrite length_fmap.
  split; [simpl; lia|]. split; [apply last_snoc | exact Hdata].
Qed.

Lemma quick_cart_shows_first_five_witness :
  exists s', _refresh_quick_cart (final (add_to_cart 0 3 sample_app)) = Done s' /\
             length (quick_cart s') = 3%nat.
Proof.
  destruct (quick_cart_shows_first_five (final (add_to_cart 0 3 sample_app))
              [Dec.mk 5997 (-2)]) as (s' & H1 & H2 & _);
    [vm_compute; discriminate | vm_compute; reflexivity |].
  exists s'. split; [exact H1 | exact H2].
Defined.

(** ** Blank fields *)

Lemma lstrip_all_space s : all_space s = true -> lstrip s = "".
Proof.
  induction s as [|c s IH]; simpl; [done|].
  destruct (is_space c); [exact IH | done].
Qed.

Lemma lstrip_not_all_space s : all_space s = false -> all_space (lstrip s) = false.
Proof.
  induction s as [|c s IH]; simpl; [done|].
  destruct (is_space c) eqn:E; [exact IH|]. intros _. simpl. rewrite E. done.
Qed.

Lemma rstrip_empty s : rstrip s = "" <-> all_space s = true.
Proof.
  induction s as [|c s IH]; simpl; [done|].
  destruct (rstrip s) eqn:Hr.
  - destruct (is_space c); simpl.
    + split; [intros _; by apply IH | done].
    + split; done.
  - split; [done|]. intros H. apply andb_true_iff in H as [_ H].
    apply IH in H. done.
Qed.

Lemma blank_all_space s : blank s <-> all_space s = true.
Proof.
  unfold blank, strip. rewrite rstrip_empty. split.
  - intros H. destruct (all_space s) eqn:E; [done|].
    rewrite (lstrip_not_all_space s E) in H. done.
  - intros H. rewrite (lstrip_all_space s H). done.
Qed.

Lemma strip_idempotent_blank s : blank s -> blank (strip s).
Proof. unfold blank. intros ->. done. Qed.

(** X10. [place_order] stops with the "Missing" warning exactly when one of
    the three fields consists of whitespace only (spaces, tabs, newlines,
    or nothing at all); in every other case it either raises or goes on
    to write the order. *)
Theorem place_order_rejects_exactly_blank_forms (s : StoreApp) (w : CheckoutWin)
    (name mail addr : string) (dbw : db_write) :
  place_order w name mail addr dbw s
  = Done (show (ShowWarning "Missing" "Please complete all fields.") s)
  <-> all_space name || all_space mail || all_space addr = true.
Proof.
  assert (Hb : forall x, is_empty (strip x) = all_space x).
  { intros x. destruct (all_space x) eqn:E.
    - apply is_empty_true, blank_all_space. done.
    - destruct (is_empty (strip x)) eqn:E'; [|done].
      apply is_empty_true, blank_all_space in E'. congruence. }
  unfold place_order. rewrite !Hb.
  destruct (all_space name || all_space mail || all_space addr); [done|].
  split; [|done].
  destruct (order_details s) as [det|]; [|done].
  destruct (to_float (win_subtotal w)) as [tot|]; [|done].
  destruct dbw; [|done]. cbn [save_order].
  match goal with
  | |- context [refresh (set_cart [] ?s0)] =>
      destruct (refresh_empty (set_cart [] s0) eq_refl) as [s' Hr];
      pose proof (data_of_refresh s0 []) as Hdata
  end.
  cbv zeta. rewrite Hr in *. cbn [final] in Hdata.
  destruct Hdata as (_ & _ & _ & Hm). intros [= ->].
  cbn [messages show set_products set_orders] in Hm.
  apply app_inj_tail in Hm as [_ Hm]. discriminate.
Qed.

(** ** The "Added" boxes *)

Lemma add_to_cart_rejected s l p q :
  products s !! l = Some p ->
  (q <= 0 \/ stock p < q \/
   exists it, dict_get (pid p) (cart s) = Some it /\ qty it + q > stock p) ->
  exists s1, add_to_cart l q s = Done s1 /\
             cart s1 = cart s /\ products s1 = products s.
Proof.
  intros Hl Hrej. unfold add_to_cart. rewrite Hl.
  destruct (q <=? 0) eqn:E1; [eauto|]. apply Z.leb_gt in E1.
  destruct (stock p <? q) eqn:E2; [eauto|]. apply Z.ltb_ge in E2.
  destruct Hrej as [?|[?|(it & Hg & Hq)]]; [lia | lia |].
  rewrite Hg. destruct (qty it + q >? stock p) eqn:E3; [eauto|].
  rewrite Z.gtb_ltb in E3. apply Z.ltb_ge in E3. lia.
Qed.

(** X11. The "Add to Cart" buttons of the selected-product panel and of the
    detail window announce "Added" whenever [add_to_cart] returns, also
    when it changed nothing: for a quantity that is not positive or that
    the stock does not cover, the cart and the stock are as before and
    the last box shown is the "Added" one. *)
Theorem added_box_follows_a_rejected_add (s : StoreApp) (l : nat) (p : Product)
    (q : Z) :
  products s !! l = Some p ->
  (q <= 0 \/ stock p < q \/
   exists it, dict_get (pid p) (cart s) = Some it /\ qty it + q > stock p) ->
  (exists s' txt,
     detail_add_to_cart l q s = Done s' /\
     cart s' = cart s /\ products s' = products s /\
     last (messages s') = Some (ShowInfo "Added" txt)) /\
  (exists s',
     popup_add_to_cart l q s = Done s' /\
     cart s' = cart s /\ products s' = products s /\
     last (messages s') = Some (ShowInfo "Added" "Added to cart")).
Proof.
  intros Hl Hrej.
  destruct (add_to_cart_rejected s l p q Hl Hrej) as (s1 & Hr & Hc & Hp).
  unfold detail_add_to_cart, popup_add_to_cart. rewrite Hr, Hp, Hl. split.
  - eexists. eexists. split; [reflexivity|]. simpl.
    split; [done|]. split; [done|]. apply last_snoc.
  - eexists. split; [reflexivity|]. simpl.
    split; [done|]. split; [done|]. apply last_snoc.
Qed.

Lemma added_box_follows_a_rejected_add_witness :
  exists s', popup_add_to_cart 3 9 sample_app = Done s' /\
             cart s' = cart sample_app /\
             last (messages s') = Some (ShowInfo "Added" "Added to cart").
Proof.
  destruct (added_box_follows_a_rejected_add sample_app 3
              (mkProduct 4 "Running Shoes" "Footwear" (Dec.mk 120 0) 8
                 "Lightweight, breathable, great for daily runs.") 9)
    as (_ & s' & H1 & H2 & _ & H3);
    [vm_compute; reflexivity | right; left; simpl; lia |].
  exists s'. split; [exact H1|]. split; [exact H2 | exact H3].
Defined.

(** ** Prices taken from floats *)

(** X12. [Product.__init__] keeps the exact value of a float price:
    [Decimal(price)] is a decimal whose value is the value of the double,
    digit for digit, and the other fields are stored as given.  The only
    floats it has no decimal for here are the infinities. *)
Theorem Product_init_keeps_the_float (id : Z) (name cat : string) (f : Float.t)
    (stk : Z) (dsc : string) :
  (forall p, Product_init id name cat f stk dsc = Some p ->
     float_equals_decimal f (price p) /\
     pid p = id /\ pname p = name /\ category p = cat /\ stock p = stk /\
     desc p = dsc) /\
  (Product_init id name cat f stk dsc = None <-> exists b, f = Float.Infinity b).
Proof.
  unfold Product_init. destruct f as [m e|b]; cbn [Float.to_decimal].
  2:{ split; [done|]. split; eauto. }
  destruct (Float.as_integer_ratio m e) as [n k] eqn:Hr.
  split; [|split; [done | intros [b Hb]; done]].
  intros p [= <-]. cbn. split; [|done].
  unfold Float.as_integer_ratio in Hr.
  destruct (m =? 0) eqn:E0.
  { apply Z.eqb_eq in E0. injection Hr as <- <-. subst m.
    rewrite !Z.mul_0_l. reflexivity. }
  destruct (e >=? 0) eqn:E1.
  { apply Z.geb_le in E1. injection Hr as <- <-.
    rewrite Z.max_l, (Z.max_r (- e) 0) by lia.
    change (10 ^ Z.max (- - 0) 0) with 1. change (10 ^ Z.max (- 0) 0) with 1.
    change (5 ^ 0) with 1. change (2 ^ 0) with 1. ring. }
  rewrite Z.geb_leb in E1. apply Z.leb_gt in E1.
  destruct (lowest_terms_spec (Z.to_nat (- e)) m (- e) ltac:(lia)) as [Hb Hm].
  rewrite Hr in Hb, Hm. simpl in Hb, Hm.
  rewrite (Z.max_r e 0), (Z.max_l (- e) 0) by lia.
  replace (- - k) with k by lia.
  rewrite (Z.max_l k 0), (Z.max_r (- k) 0) by lia.
  rewrite !Z.pow_0_r, !Z.mul_1_r.
  replace (10 ^ k) with (2 ^ k * 5 ^ k) by (rewrite <- Z.pow_mul_l; reflexivity).
  replace (2 ^ (- e)) with (2 ^ (- e - k) * 2 ^ k)
    by (rewrite <- Z.pow_add_r by lia; f_equal; lia).
  rewrite Hm at 1. ring.
Qed.

Lemma Product_init_keeps_the_float_witness :
  exists p, Product_init 1 "Classic White T-Shirt" "Clothing"
              (Float.of_ratio 1999 100) 25 "" = Some p /\
            float_equals_decimal (Float.of_ratio 1999 100) (price p).
Proof.
  destruct (Product_init 1 "Classic White T-Shirt" "Clothing"
              (Float.of_ratio 1999 100) 25 "") as [p|] eqn:Hp;
    [|vm_compute in Hp; discriminate].
  exists p. split; [reflexivity|].
  destruct (Product_init_keeps_the_float 1 "Classic White T-Shirt" "Clothing"
              (Float.of_ratio 1999 100) 25 "") as [H _].
  destruct (H p Hp) as [H1 _]. exact H1.
Defined.

(** ** The error of a line total *)

Lemma half_up_cents_error c e :
  e < -2 ->
  2 * Z.abs (half_up_cents c e * 10 ^ (-2 - e) - c) <= 10 ^ (-2 - e).
Proof.
  intros He. unfold half_up_cents.
  destruct (e >=? -2) eqn:E; [apply Z.geb_le in E; lia|].
  set (T := 10 ^ (-2 - e)).
  assert (HT : 0 < T) by (apply Z.pow_pos_nonneg; lia).
  pose proof (Z.div_mod (2 * Z.abs c + T) (2 * T) ltac:(lia)) as Hdm.
  pose proof (Z.mod_pos_bound (2 * Z.abs c + T) (2 * T) ltac:(lia)) as Hr.
  set (r := (2 * Z.abs c + T) / (2 * T)) in *.
  destruct (Z.lt_trichotomy c 0) as [Hc|[->|Hc]].
  - rewrite (Z.sgn_neg c Hc). rewrite (Z.abs_neq c) in * by lia. nia.
  - simpl. lia.
  - rewrite (Z.sgn_pos c Hc). rewrite (Z.abs_eq c) in * by lia. nia.
Qed.

(** X13. Within the precision of the context a line total is off by at
    most half a cent: it has two decimals, it is the exact product when
    the price has no more than two decimals, and otherwise it differs
    from the exact product by at most 0.005. *)
Theorem line_total_within_half_a_cent (p : Dec.t) (q : Z) :
  Z.abs (Dec.coef p * q) < 10 ^ 28 ->
  Dec.Etiny <= Dec.exp p ->
  Z.abs (half_up_cents (Dec.coef p * q) (Dec.exp p)) < 10 ^ 28 ->
  exists t,
    line_total_of p q = Ret t /\ Dec.exp t = -2 /\
    (-2 <= Dec.exp p ->
       Dec.coef t = Dec.coef p * q * 10 ^ (Dec.exp p + 2)) /\
    (Dec.exp p < -2 ->
       2 * Z.abs (Dec.coef t * 10 ^ (-2 - Dec.exp p) - Dec.coef p * q)
       <= 10 ^ (-2 - Dec.exp p)).
Proof.
  intros H1 H2 H3. eexists. split; [by apply line_total_of_exact|].
  rewrite coef_make, exp_make. split; [done|]. split.
  - intros He. unfold half_up_cents.
    destruct (Dec.exp p >=? -2) eqn:E; [done|].
    rewrite Z.geb_leb in E. apply Z.leb_gt in E. lia.
  - apply half_up_cents_error.
Qed.

Lemma line_total_within_half_a_cent_witness :
  exists t, line_total_of (Dec.mk 12345 (-3)) 3 = Ret t /\ Dec.exp t = -2.
Proof.
  destruct (line_total_within_half_a_cent (Dec.mk 12345 (-3)) 3)
    as (t & H1 & H2 & _);
    [vm_compute; reflexivity | vm_compute; discriminate
     | vm_compute; reflexivity |].
  exists t. split; [exact H1 | exact H2].
Defined.

(** ** The order of the entries *)

Lemma mapM_Permutation {A B : Type} (f : A -> res B) (l l' : list A) (ts : list B) :
  l ≡ₚ l' -> mapM f l = Ret ts ->
  exists ts', mapM f l' = Ret ts' /\ ts ≡ₚ ts'.
Proof.
  intros Hp. revert ts. induction Hp as [|x l l' Hp IH|x y l|l l' l'' H1 IH1 H2 IH2];
    intros ts Hm.
  - simpl in Hm. injection Hm as <-. exists []. done.
  - simpl in Hm |- *. destruct (f x) as [b|]; [|done]. cbn [bind] in *.
    destruct (mapM f l) as [bs|]; [|done]. cbn [bind] in Hm. injection Hm as <-.
    destruct (IH bs eq_refl) as (bs' & -> & Hbs). cbn [bind].
    exists (b :: bs'). split; [done|]. by constructor.
  - simpl in Hm |- *. destruct (f y) as [b|]; [|done]. cbn [bind] in *.
    destruct (f x) as [a|]; [|done]. cbn [bind] in *.
    destruct (mapM f l) as [bs|]; [|done]. cbn [bind] in *. injection Hm as <-.
    exists (a :: b :: bs). split; [done|]. constructor.
  - destruct (IH1 ts Hm) as (ts1 & Hm1 & Hp1).
    destruct (IH2 ts1 Hm1) as (ts2 & Hm2 & Hp2).
    exists ts2. split; [done|]. by etrans.
Qed.

Lemma sum_coef_Permutation ts ts' :
  ts ≡ₚ ts' -> sum_coef ts = sum_coef ts' /\ sum_abs_coef ts = sum_abs_coef ts'.
Proof.
  unfold sum_coef, sum_abs_coef.
  induction 1 as [|x l l' Hp [IH1 IH2]|x y l|l l' l'' H1 [IH1 IH1'] H2 [IH2 IH2']];
    simpl; lia.
Qed.

(** X14. The subtotal does not depend on the order in which the entries
    were put in the cart: two carts with the same entries over the same
    products, whose line totals stay within the precision, have the same
    subtotal. *)
Theorem subtotal_ignores_entry_order (s s' : StoreApp) (ts : list Dec.t) :
  products s' = products s ->
  cart s ≡ₚ cart s' ->
  mapM (line_total (products s)) (dict_values (cart s)) = Ret ts ->
  sum_abs_coef ts < 10 ^ 28 ->
  subtotal s' = subtotal s.
Proof.
  intros Hp Hperm Hm Hb. unfold subtotal. rewrite Hp.
  assert (Hpv : dict_values (cart s) ≡ₚ dict_values (cart s')).
  { unfold dict_values. by apply fmap_Permutation. }
  destruct (mapM_Permutation _ _ _ ts Hpv Hm) as (ts' & Hm' & Hpt).
  destruct (sum_coef_Permutation ts ts' Hpt) as [Hs Ha].
  destruct (sum_line_totals_exact _ _ ts (Int 0) 0 Hm) as (st & Hst & Hacc & Hne);
    [by left | simpl; lia |].
  destruct (sum_line_totals_exact _ _ ts' (Int 0) 0 Hm') as (st' & Hst' & Hacc' & Hne');
    [by left | simpl; lia |].
  rewrite Hst, Hst'. f_equal.
  destruct (dict_values (cart s)) as [|x xs] eqn:Ex.
  - apply Permutation_nil_l in Hpv. rewrite <- Hpv in Hst'.
    simpl in Hst, Hst'. congruence.
  - rewrite (Hne ltac:(done)), Hne', Hs; [done|].
    intros Hnil. rewrite Hnil in Hpv. by apply Permutation_nil_r in Hpv.
Qed.

Lemma subtotal_ignores_entry_order_witness :
  subtotal (final (add_to_cart 0 3 (final (add_to_cart 4 1 sample_app))))
  = subtotal (final (add_to_cart 4 1 (final (add_to_cart 0 3 sample_app)))).
Proof.
  apply (subtotal_ignores_entry_order
           (final (add_to_cart 4 1 (final (add_to_cart 0 3 sample_app))))
           (final (add_to_cart 0 3 (final (add_to_cart 4 1 sample_app))))
           [Dec.mk 5997 (-2); Dec.mk 4525 (-2)]).
  - vm_compute. reflexivity.
  - vm_compute. apply perm_swap.
  - vm_compute. reflexivity.
  - vm_compute. reflexivity.
Defined.

(** ** Searching the catalogue *)

Lemma lower_char_space c : is_space (lower_char c) = is_space c.
Proof. destruct c as [[] [] [] [] [] [] [] []]; reflexivity. Qed.

Lemma lower_char_idem c : lower_char (lower_char c) = lower_char c.
Proof. destruct c as [[] [] [] [] [] [] [] []]; reflexivity. Qed.

Lemma lower_idem s : lower (lower s) = lower s.
Proof. induction s as [|c s IH]; simpl; [done|]. by rewrite lower_char_idem, IH. Qed.

Lemma lstrip_lower s : lstrip (lower s) = lower (lstrip s).
Proof.
  induction s as [|c s IH]; simpl; [done|]. rewrite lower_char_space.
  destruct (is_space c); [exact IH | done].
Qed.

Lemma rstrip_lower s : rstrip (lower s) = lower (rstrip s).
Proof.
  induction s as [|c s IH]; simpl; [done|]. rewrite IH, lower_char_space.
  destruct (rstrip s); simpl; [destruct (is_space c); done | done].
Qed.

Lemma strip_lower s : strip (lower s) = lower (strip s).
Proof. unfold strip. by rewrite lstrip_lower, rstrip_lower. Qed.

Lemma rstrip_idem s : rstrip (rstrip s) = rstrip s.
Proof.
  induction s as [|c s IH]; simpl; [done|].
  destruct (rstrip s) as [|c' r] eqn:Hr.
  - destruct (is_space c) eqn:E; simpl; [done|]. rewrite E. done.
  - change (rstrip (String c (String c' r)))
      with (match rstrip (String c' r) with
            | EmptyString => if is_space c then EmptyString
                             else String c EmptyString
            | String a b => String c (String a b)
            end).
    rewrite IH. done.
Qed.

Lemma lstrip_head s c t : lstrip s = String c t -> is_space c = false.
Proof.
  induction s as [|c0 s IH]; simpl; [done|].
  destruct (is_space c0) eqn:E; [exact IH|]. intros [= <- _]. done.
Qed.

Lemma strip_idem s : strip (strip s) = strip s.
Proof.
  unfold strip. destruct (lstrip s) as [|c t] eqn:Hl; [done|].
  pose proof (lstrip_head s c t Hl) as Hc.
  assert (Hhead : exists r, rstrip (String c t) = String c r).
  { simpl. destruct (rstrip t); [rewrite Hc|]; eauto. }
  destruct Hhead as [r Hr]. rewrite Hr. cbn [lstrip]. rewrite Hc, <- Hr.
  apply rstrip_idem.
Qed.

Lemma filter_all {A : Type} (f : A -> bool) (l : list A) :
  (forall x, f x = true) -> List.filter f l = l.
Proof. intros H. induction l as [|x l IH]; simpl; [done|]. by rewrite H, IH. Qed.

Lemma filter_sublist {A : Type} (f : A -> bool) (l : list A) :
  List.filter f l `sublist_of` l.
Proof.
  induction l as [|x l IH]; simpl; [done|].
  destruct (f x); [by apply sublist_skip | by apply sublist_cons].
Qed.

(** X15. The search of [refresh_products] ignores the letter case and the
    surrounding whitespace of the query; a query of whitespace only with
    the category "All" lists the whole catalogue; and whatever is listed
    comes from the catalogue, in catalogue order, and belongs to the
    chosen category unless that is "All". *)
Theorem search_normalises_the_query (search cat : string) (ps : list Product) :
  matching_products (lower search) cat ps = matching_products search cat ps /\
  matching_products (strip search) cat ps = matching_products search cat ps /\
  (all_space search = true -> matching_products search "All" ps = ps) /\
  matching_products search cat ps `sublist_of` ps /\
  (forall p, p ∈ matching_products search cat ps ->
     cat = "All" \/ category p = cat).
Proof.
  unfold matching_products. split; [|split; [|split; [|split]]].
  - by rewrite strip_lower, lower_idem.
  - by rewrite strip_idem.
  - intros Hb. apply blank_all_space in Hb. unfold blank in Hb. rewrite Hb.
    apply filter_all. intros p. reflexivity.
  - apply filter_sublist.
  - intros p Hin. apply list_elem_of_In, filter_In in Hin as [_ Hm].
    unfold product_matches in Hm.
    destruct (String.eqb cat "All") eqn:E1; [left; by apply String.eqb_eq|].
    destruct (String.eqb (category p) cat) eqn:E2; [right; by apply String.eqb_eq|].
    done.
Qed.

(** ** The login form *)

(** X16. [register] checks for emptiness only, and before anything else:
    with an empty user name or password it shows the "Input Error"
    warning and does not open a connection, whatever the server would
    answer; any two non-empty strings (blanks included, they are not
    stripped) go to the INSERT, and an accepted one is announced. *)
Theorem register_checks_emptiness_first (u p : string) (w : Login.world) :
  (u = "" \/ p = "" ->
   forall c k r,
     Login.register u p c k r w
     = Login.Done (Login.show (Login.ShowWarning "Input Error"
                     "Username and Password cannot be empty.") w)) /\
  (u <> "" -> p <> "" ->
   Login.register u p Login.Connected Login.CursorOk Login.Inserted w
   = Login.Done (Login.close (Login.show
       (Login.ShowInfo "Registration Success"
          ("User '" +:+ u +:+ "' registered successfully!"))
       (Login.connect w))) /\
   Login.register u p Login.Connected Login.CursorOk Login.Duplicate w
   = Login.Done (Login.close (Login.show
       (Login.ShowError "Registration Failed" "Username already exists!")
       (Login.connect w)))).
Proof.
  split.
  - intros [-> | ->] c k r; unfold Login.register; simpl; [done|].
    destruct (is_empty u); done.
  - intros Hu Hp. unfold Login.register.
    destruct u; [done|]. destruct p; [done|]. done.
Qed.

Lemma register_checks_emptiness_first_witness :
  Login.register "ann" "" Login.Connected Login.CursorOk Login.Inserted
    (Login.mkWorld [] 0)
  = Login.Done (Login.show (Login.ShowWarning "Input Error"
                  "Username and Password cannot be empty.")
                  (Login.mkWorld [] 0)) /\
  Login.open_connections
    (Login.final (Login.register " " " " Login.Connected Login.CursorOk
                    Login.Inserted (Login.mkWorld [] 0))) = 0%nat.
Proof.
  destruct (register_checks_emptiness_first "ann" "" (Login.mkWorld [] 0))
    as [H1 _].
  destruct (register_checks_emptiness_first " " " " (Login.mkWorld [] 0))
    as [_ H2].
  split; [apply H1; right; reflexivity|].
  destruct H2 as [H2 _]; [discriminate | discriminate |].
  rewrite H2. reflexivity.
Defined.

(** X17. Once [conn.cursor()] has returned, [register] gives back the
    connection on every path, also when the INSERT raises: that is what
    its [finally] is for.  The cursor is made before the [try], though:
    when [conn.cursor()] raises the connection stays open.  [login] has
    no [finally]: it closes the connection when the SELECT answers, and
    leaves it open when the cursor or the SELECT raises. *)
Theorem connections_are_closed (u p : string) (w : Login.world) :
  (forall c r,
     Login.open_connections
       (Login.final (Login.register u p c Login.CursorOk r w))
     = Login.open_connections w) /\
  (u <> "" -> p <> "" ->
   forall r, Login.register u p Login.Connected Login.CursorFails r w
             = Login.Raised (Login.connect w)) /\
  (forall c r, r <> Login.SelectFails ->
     Login.open_connections
       (Login.final (Login.login u p c Login.CursorOk r w))
     = Login.open_connections w) /\
  (forall r, Login.login u p Login.Connected Login.CursorFails r w
             = Login.Raised (Login.connect w)) /\
  Login.login u p Login.Connected Login.CursorOk Login.SelectFails w
  = Login.Raised (Login.connect w).
Proof.
  split; [|split; [|split; [|done]]].
  - intros c r. unfold Login.register.
    destruct (is_empty u || is_empty p); [done|].
    destruct c; [|done]. destruct r; done.
  - intros Hu Hp r. unfold Login.register.
    destruct u; [done|]. destruct p; [done|]. done.
  - intros c r Hr. unfold Login.login. destruct c; [|done]. destruct r; done.
Qed.

Lemma connections_are_closed_witness :
  Login.open_connections
    (Login.final (Login.login "ann" "x" Login.Connected Login.CursorOk
                    Login.NoRow (Login.mkWorld [] 2))) = 2%nat /\
  Login.open_connections
    (Login.final (Login.register "ann" "x" Login.Connected Login.CursorFails
                    Login.Inserted (Login.mkWorld [] 2))) = 3%nat.
Proof.
  destruct (connections_are_closed "ann" "x" (Login.mkWorld [] 2))
    as (_ & H2 & H3 & _).
  split; [apply H3; discriminate|].
  rewrite H2; [reflexivity | discriminate | discriminate].
Defined.

(** ** What [fmt_price] shows *)

(** X18. [fmt_price] rounds half up to cents, as its docstring says, and
    keeps the sign: a decimal whose value rounded to cents has at most 28
    digits is shown as "$" followed by that rounded value with two
    decimals, so that a negative value that rounds to zero is shown as
    "$-0.00"; an [int] is shown with ".00". *)
Theorem fmt_price_rounds_half_up (d : Dec.t) (n : Z) :
  (Z.abs (half_up_cents (Dec.coef d) (Dec.exp d)) < 10 ^ 28 ->
   fmt_price (Decimal d)
   = Ret ("$" +:+ str_decimal
            (Dec.make (Dec.sign d)
               (half_up_cents (Dec.coef d) (Dec.exp d)) (-2)))) /\
  (Z.abs n < 10 ^ 26 ->
   fmt_price (Int n) = Ret ("$" +:+ str_decimal (Dec.mk (n * 100) (-2)))) /\
  fmt_price (Decimal (Dec.mk (-1) (-3))) = Ret "$-0.00" /\
  fmt_price (Decimal (Dec.mk (-5) (-3))) = Ret "$-0.01" /\
  fmt_price (Decimal (Dec.neg_zero 0)) = Ret "$-0.00".
Proof.
  split; [|split; [|repeat split; vm_compute; reflexivity]].
  - intros H. unfold fmt_price. cbn [to_decimal].
    rewrite quantize_cents_half_up by done. done.
  - intros H. unfold fmt_price. cbn [to_decimal]. unfold Dec.of_int.
    assert (Hh : half_up_cents n 0 = n * 100) by reflexivity.
    rewrite quantize_cents_half_up; cbn [Dec.coef Dec.exp Dec.sign];
      rewrite Hh; [|lia].
    rewrite make_mk; [done|]. intros Hn%Z.ltb_lt. lia.
Qed.

Lemma fmt_price_rounds_half_up_witness :
  fmt_price (Decimal (Dec.mk 12345 (-3))) = Ret "$12.35" /\
  fmt_price (Int 7) = Ret "$7.00".
Proof.
  destruct (fmt_price_rounds_half_up (Dec.mk 12345 (-3)) 7) as (H1 & H2 & _).
  split; [apply H1 | apply H2]; vm_compute; reflexivity.
Defined.

(** ** Float prices on display *)

(** A double within 1/256 of [c / 100]. *)
Lemma cents_float_is_close c m e :
  Z.abs c < 10 ^ 15 ->
  Float.of_ratio c 100 = Float.Finite m e ->
  gap c 100 m e < 100 * 2 ^ 1066.
Proof.
  intros Hc Hf.
  destruct (of_ratio_nearest c 100 m e ltac:(lia) Hf) as [_ Hnear].
  eapply Z.le_lt_trans; [apply (Hnear (256 * c / 100) (-8))|].
  - split; [|unfold Float.emin, Float.emax; lia].
    assert (Z.abs (256 * c / 100) <= 256 * 10 ^ 13).
    { apply Z.abs_le. split.
      - apply Z.div_le_lower_bound; lia.
      - apply Z.div_le_upper_bound; lia. }
    assert (256 * 10 ^ 13 < 2 ^ 53) by (vm_compute; reflexivity). lia.
  - unfold gap. replace (-8 + 1074) with 1066 by lia.
    pose proof (Z.div_mod (256 * c) 100 ltac:(lia)) as Hdm.
    pose proof (Z.mod_pos_bound (256 * c) 100 ltac:(lia)) as Hr.
    replace (c * 2 ^ 1074 - 100 * (256 * c / 100 * 2 ^ 1066))
      with ((256 * c) mod 100 * 2 ^ 1066).
    + rewrite Z.abs_mul.
      assert (0 < 2 ^ 1066) by (apply Z.pow_pos_nonneg; lia).
      rewrite (Z.abs_eq (2 ^ 1066)), (Z.abs_eq ((256 * c) mod 100)) by lia. nia.
    + replace (2 ^ 1074) with (256 * 2 ^ 1066)
        by (change 256 with (2 ^ 8); rewrite <- Z.pow_add_r by lia; reflexivity).
      lia.
Qed.

(** X19. A price written with two decimals in the seed data is a float,
    and [Product.__init__] stores the long decimal expansion of that
    float; all the same the product card shows the price as it was
    written: for every amount [c] of cents below 10^15 in absolute
    value, the price made from the float literal [c / 100] is displayed
    by [fmt_price] as "$" and [c / 100] with two decimals. *)
Theorem float_price_is_displayed_as_written (c id stk : Z)
    (name cat dsc : string) :
  Z.abs c < 10 ^ 15 ->
  exists p crd,
    Product_init id name cat (Float.of_ratio c 100) stk dsc = Some p /\
    fmt_price (Decimal (price p))
    = Ret ("$" +:+ str_decimal (Dec.mk c (-2))) /\
    render_product_card p = Ret crd /\
    card_price crd = "$" +:+ str_decimal (Dec.mk c (-2)).
Proof.
  intros Hc.
  assert (H15 : 10 ^ 15 < 10 ^ 26) by (vm_compute; reflexivity).
  destruct (of_ratio_finite c 100 ltac:(lia) ltac:(lia)) as (m & e & Hf).
  destruct (of_ratio_nearest c 100 m e ltac:(lia) Hf) as [[_ [He _]] _].
  pose proof (cents_float_is_close c m e Hc Hf) as Hgap.
  assert (Hd : exists d, Float.to_decimal (Float.Finite m e) = Some d).
  { cbn [Float.to_decimal]. destruct (Float.as_integer_ratio m e). eauto. }
  destruct Hd as [d Hd].
  destruct (to_decimal_dyadic m e d He Hd) as (n & k & Hk & -> & Hmn).
  assert (Hfmt : fmt_price (Decimal (Dec.mk (n * 5 ^ k) (- k)))
                 = Ret ("$" +:+ str_decimal (Dec.mk c (-2)))).
  { assert (Hh : half_up_cents (n * 5 ^ k) (- k) = c).
    { apply half_up_cents_near; [lia|]. rewrite Z.opp_involutive.
      unfold gap in Hgap. rewrite Hmn in Hgap.
      assert (H2k : 0 < 2 ^ k) by (apply Z.pow_pos_nonneg; lia).
      assert (H5k : 0 < 5 ^ k) by (apply Z.pow_pos_nonneg; lia).
      assert (H2r : 0 < 2 ^ (1074 - k)) by (apply Z.pow_pos_nonneg; lia).
      assert (H66 : 0 < 2 ^ 1066) by (apply Z.pow_pos_nonneg; lia).
      assert (Hsplit : 2 ^ 1074 = 2 ^ (1074 - k) * 2 ^ k).
      { rewrite <- Z.pow_add_r by lia. f_equal. lia. }
      assert (H74 : 2 ^ 1074 = 256 * 2 ^ 1066).
      { change 256 with (2 ^ 8). rewrite <- Z.pow_add_r by lia. reflexivity. }
      replace (10 ^ k) with (2 ^ k * 5 ^ k)
        by (rewrite <- Z.pow_mul_l; reflexivity).
      set (A := c * 2 ^ k - 100 * n).
      assert (HA : 256 * Z.abs A < 100 * 2 ^ k).
      { replace (c * 2 ^ 1074 - 100 * (n * 2 ^ (1074 - k)))
          with (A * 2 ^ (1074 - k)) in Hgap by (rewrite Hsplit; unfold A; ring).
        rewrite Z.abs_mul, (Z.abs_eq (2 ^ (1074 - k))) in Hgap by lia.
        assert (Z.abs A * 2 ^ 1074 < 100 * 2 ^ 1066 * 2 ^ k).
        { rewrite Hsplit. nia. }
        rewrite H74 in H. nia. }
      replace (c * (2 ^ k * 5 ^ k) - 100 * (n * 5 ^ k)) with (A * 5 ^ k)
        by (unfold A; ring).
      rewrite Z.abs_mul, (Z.abs_eq (5 ^ k)) by lia. nia. }
    unfold fmt_price. cbn [to_decimal].
    rewrite quantize_cents_half_up; cbn [Dec.coef Dec.exp Dec.sign];
      rewrite Hh;
      [|assert (10 ^ 15 < 10 ^ 28) by (vm_compute; reflexivity); lia].
    rewrite make_mk; [done|]. intros Hs%Z.ltb_lt ->.
    unfold Float.of_ratio in Hf. cbn [Z.eqb] in Hf. injection Hf as <- <-.
    rewrite Z.mul_0_l in Hmn.
    assert (0 < 2 ^ (1074 - k)) by (apply Z.pow_pos_nonneg; lia).
    assert (0 < 5 ^ k) by (apply Z.pow_pos_nonneg; lia). nia. }
  unfold Product_init. rewrite Hf, Hd.
  eexists. eexists. split; [reflexivity|]. cbn [price].
  split; [exact Hfmt|]. unfold render_product_card. cbn [price].
  rewrite Hfmt. cbn [bind]. split; reflexivity.
Qed.

Lemma float_price_is_displayed_as_written_witness :
  exists p, Product_init 5 "Bluetooth Speaker" "Electronics"
              (Float.of_ratio 4525 100) 15 "" = Some p /\
            fmt_price (Decimal (price p)) = Ret "$45.25".
Proof.
  destruct (float_price_is_displayed_as_written 4525 5 15 "Bluetooth Speaker"
              "Electronics" "") as (p & crd & H1 & H2 & _);
    [vm_compute; reflexivity|].
  exists p. split; [exact H1 | exact H2].
Defined.

(** ** More on [place_order] *)

Lemma reduce_stock_length items heap :
  length (reduce_stock items heap) = length heap.
Proof.
  unfold reduce_stock. revert heap.
  induction items as [|it items IH]; intros heap; [done|].
  cbn [fold_left]. rewrite IH, length_alter. done.
Qed.

(** X20. Whatever the cart holds, invariant or not, an order that is
    written takes from the stock of every product the sum of the
    quantities of the entries that refer to it (a negative quantity, which
    [update_qty] lets in, adds to the stock), and a product no entry
    refers to keeps its stock. *)
Theorem place_order_takes_the_cart_from_the_stock (s : StoreApp)
    (w : CheckoutWin) (name mail addr det : string) (tot : Float.t) :
  ~ blank name -> ~ blank mail -> ~ blank addr ->
  order_details s = Ret det -> to_float (win_subtotal w) = Ret tot ->
  let s' := final (place_order w name mail addr WriteOk s) in
  (forall l, products s' !! l
             = (fun p => set_stock (stock p - purchased (dict_values (cart s)) l) p)
               <$> products s !! l) /\
  length (products s') = length (products s) /\
  (forall l, l ∉ (product <$> dict_values (cart s)) ->
     products s' !! l = products s !! l).
Proof.
  intros Hn Hm Ha Hd Ht s'.
  destruct (place_order_ok s w name mail addr det tot Hn Hm Ha Hd Ht)
    as (s1 & Hpo & _ & _ & Hp & _).
  subst s'. rewrite Hpo. cbn [final]. rewrite Hp.
  split; [intros l; apply reduce_stock_lookup|]. split.
  - apply reduce_stock_length.
  - intros l Hl. rewrite reduce_stock_lookup, purchased_absent by done.
    destruct (products s !! l) as [p|]; [|done]. simpl.
    rewrite Z.sub_0_r. by destruct p.
Qed.

Lemma place_order_takes_the_cart_from_the_stock_witness :
  stock <$> products (final (place_order (mkWin (Decimal (Dec.mk 5997 (-2))))
                               "Ann" "a@b.c" "1 Main St" WriteOk
                               (final (add_to_cart 0 3 sample_app))))
  = [22; 10; 40; 8; 15; 50].
Proof.
  destruct (place_order_takes_the_cart_from_the_stock
              (final (add_to_cart 0 3 sample_app))
              (mkWin (Decimal (Dec.mk 5997 (-2)))) "Ann" "a@b.c" "1 Main St"
              "3x Classic White T-Shirt @ $19.99 = $59.97"
              (Float.Finite 8440027176669020 (-47))) as (_ & _ & _);
    [vm_compute; discriminate | vm_compute; discriminate
     | vm_compute; discriminate | vm_compute; reflexivity
     | vm_compute; reflexivity |].
  vm_compute. reflexivity.
Defined.

(** X21. After an order the cart is empty, so the "Checkout" button only
    shows the "Your cart is empty." notice and writes nothing.  A
    checkout form that is still open makes no such test: "Place Order"
    pressed on it writes one more order, with empty details and the total
    of that form, and takes nothing more from the stock. *)
Theorem checkout_after_an_order (s : StoreApp) (w w2 : CheckoutWin)
    (name mail addr name2 mail2 addr2 : string) (dbw : db_write)
    (tot2 : Float.t) :
  let s' := final (place_order w name mail addr dbw s) in
  orders s' <> orders s ->
  cart s' = [] /\
  (forall name' mail' addr' dbw',
     checkout name' mail' addr' dbw' s'
     = Done (show (ShowInfo "Empty" "Your cart is empty.") s')) /\
  (~ blank name2 -> ~ blank mail2 -> ~ blank addr2 ->
   to_float (win_subtotal w2) = Ret tot2 ->
   exists s'',
     place_order w2 name2 mail2 addr2 WriteOk s' = Done s'' /\
     orders s'' = orders s' ++ [mkOrder (strip name2) (strip mail2)
                                  (strip addr2) tot2 ""] /\
     products s'' = products s' /\ cart s'' = []).
Proof.
  intros s' Hneq.
  destruct (place_order_shape w name mail addr dbw s)
    as [(_ & _ & Ho)|(_ & Hc & _)]; [done|].
  fold s' in Hc. split; [done|]. split.
  - intros name' mail' addr' dbw'.
    unfold checkout, open_checkout_window. rewrite Hc. done.
  - intros Hn Hm Ha Ht.
    destruct (place_order_empty_cart s' w2 name2 mail2 addr2 tot2 Hc Hn Hm Ha Ht)
      as (s'' & Hpo & Ho & Hc'' & Hp).
    exists s''. done.
Qed.

Lemma checkout_after_an_order_witness :
  let w := mkWin (Decimal (Dec.mk 5997 (-2))) in
  let s' := final (place_order w "Ann" "a@b.c" "1 Main St" WriteOk
                     (final (add_to_cart 0 3 sample_app))) in
  checkout "Bob" "b@c.d" "2 Side St" WriteOk s'
  = Done (show (ShowInfo "Empty" "Your cart is empty.") s') /\
  exists s'',
    place_order w "Ann" "a@b.c" "1 Main St" WriteOk s' = Done s'' /\
    length (orders s'') = 2%nat /\
    stock <$> products s'' = [22; 10; 40; 8; 15; 50].
Proof.
  intros w s'.
  destruct (checkout_after_an_order
              (final (add_to_cart 0 3 sample_app)) w w
              "Ann" "a@b.c" "1 Main St" "Ann" "a@b.c" "1 Main St" WriteOk
              (Float.Finite 8440027176669020 (-47)))
    as (_ & H1 & H2); [vm_compute; discriminate|].
  split; [apply H1|].
  destruct H2 as (s'' & Hpo & Ho & Hp & _);
    [vm_compute; discriminate | vm_compute; discriminate
     | vm_compute; discriminate | vm_compute; reflexivity |].
  exists s''. split; [exact Hpo|]. split.
  - rewrite Ho, length_app. vm_compute. reflexivity.
  - rewrite Hp. vm_compute. reflexivity.
Defined.

Lemma place_order_rejects_exactly_blank_forms_witness :
  place_order (mkWin (Int 0)) "Ann" (String "009" " ") "1 Main St" WriteOk
    sample_app
  = Done (show (ShowWarning "Missing" "Please complete all fields.") sample_app).
Proof.
  apply (place_order_rejects_exactly_blank_forms sample_app (mkWin (Int 0))
           "Ann" (String "009" " ") "1 Main St" WriteOk).
  reflexivity.
Defined.

Lemma search_normalises_the_query_witness :
  matching_products "   " "All" (products sample_app) = products sample_app /\
  matching_products "SHOES" "All" (products sample_app)
  = matching_products "shoes" "All" (products sample_app).
Proof.
  destruct (search_normalises_the_query "   " "All" (products sample_app))
    as (_ & _ & H1 & _).
  destruct (search_normalises_the_query "SHOES" "All" (products sample_app))
    as (H2 & _).
  split; [apply H1; reflexivity|]. rewrite <- H2. reflexivity.
Defined.
